(** * EDU-AIgent: the EDU transform and the decision engine

    A shallow embedding of [edu_formula.py] and [edu_ai_core.py].

    Python's [float] is IEEE 754 binary64, which is exactly Rocq's primitive
    [float]; arithmetic and comparisons below are therefore the ones the
    interpreter performs, bit for bit (rounding, signed zeros, infinities
    and NaN included).  Python's [int] is [Z], [str] is [string] (a sequence
    of 8-bit code points, read as Latin-1), and a raised exception is the
    [Raise] constructor of [result]. *)

From Stdlib Require Import ZArith Floats List String Ascii Bool Lia DecimalString.
Import ListNotations.

#[local] Set Warnings "-inexact-float".
#[local] Open Scope float_scope.

(** ** Python values and builtins *)

Module Py.

(** The exceptions of the code: [ValueError] (with its subclasses, such
    as [UnicodeDecodeError]) and [OSError] (with its subclasses, such as
    [FileNotFoundError]). *)
Inductive exn : Type :=
| ValueError (msg : string)
| OSError (msg : string).

Inductive result (A : Type) : Type :=
| Ok (a : A)
| Raise (e : exn).
Arguments Ok {A} a.
Arguments Raise {A} e.

Definition bind {A B : Type} (r : result A) (k : A -> result B) : result B :=
  match r with
  | Ok a => k a
  | Raise e => Raise e
  end.

(** [min(a, b)] and [max(a, b)] on two arguments: the first argument is
    kept unless the second one is strictly smaller (resp. larger). *)
Definition min (a b : float) : float := if b <? a then b else a.
Definition max (a b : float) : float := if a <? b then b else a.

(** [a > b] is [b < a]. *)
Definition gtb (a b : float) : bool := b <? a.

(** The conversion of an [int] operand to [float] in mixed arithmetic:
    round to nearest, ties to even.  (Above the largest finite double the
    interpreter raises [OverflowError]; no string is that long.) *)
Definition float_of_int (z : Z) : float :=
  SF2Prim (binary_normalize prec emax z 0 false).

End Py.

Notation "x '>>=' k" := (Py.bind x k) (at level 58, left associativity).

(** Propositional reading of the float comparisons. *)
Definition fle (a b : float) : Prop := (a <=? b) = true.
Definition flt (a b : float) : Prop := (a <? b) = true.
Definition feq (a b : float) : Prop := (a =? b) = true.

(** ** [edu_formula.py] *)

Module EDUConstants.

Definition PI : float := 3.141592653589793.
Definition NORMALIZATION_FACTOR : float := 255.0.
Definition SCALING_CONSTANT : float := 406.4.

Inductive band : Type := delta | theta | alpha | beta | gamma | unknown.

(** The dictionary [NEURAL_BANDS], in insertion order. *)
Definition NEURAL_BANDS : list (band * (float * float)) :=
  [ (delta, (0.5, 4.0));
    (theta, (4.0, 8.0));
    (alpha, (8.0, 13.0));
    (beta, (13.0, 30.0));
    (gamma, (30.0, 100.0)) ].

End EDUConstants.

Module EDUFormula.
Import Py EDUConstants.

Definition calculate (A X : float) : result (float * float) :=
  if X <=? 0 then Raise (ValueError "X must be positive")
  else if A <? 0 then Raise (ValueError "A must be non-negative")
  else
    let A := Py.min A NORMALIZATION_FACTOR in
    let modulation := (A / NORMALIZATION_FACTOR) * PI in
    let scaling := SCALING_CONSTANT / X in
    Ok (modulation, scaling).

Definition calculate_combined (A X : float) : result float :=
  calculate A X >>= fun '(modulation, scaling) => Ok (modulation * scaling).

(** The loop [for A, X in zip(A_values, X_values): results.append(...)];
    the first failing pair raises and ends the loop. *)
Fixpoint calculate_pairs (A_values X_values : list float)
  : result (list (float * float)) :=
  match A_values, X_values with
  | A :: As, X :: Xs =>
      calculate A X >>= fun r =>
      calculate_pairs As Xs >>= fun rs => Ok (r :: rs)
  | _, _ => Ok []
  end.

Definition calculate_batch (A_values X_values : list float)
  : result (list (float * float)) :=
  if negb (Nat.eqb (List.length A_values) (List.length X_values))
  then Raise (ValueError "A_values and X_values must have same length")
  else calculate_pairs A_values X_values.

(** NumPy on [float64] arrays: [np.clip(a, lo, hi)] replaces an element
    by [lo] when it is below [lo] and by [hi] when it is above [hi]; any
    other element, a NaN or the negative zero included, is kept. *)
Definition np_clip (a lo hi : float) : float :=
  let a := if a <? lo then lo else a in
  if hi <? a then hi else a.

Definition calculate_numpy (A X : list float)
  : result (list float * list float) :=
  if existsb (fun x => x <=? 0) X
  then Raise (ValueError "All X values must be positive")
  else if existsb (fun a => a <? 0) A
  then Raise (ValueError "All A values must be non-negative")
  else
    let A := map (fun a => np_clip a 0 NORMALIZATION_FACTOR) A in
    let modulation := map (fun a => (a / NORMALIZATION_FACTOR) * PI) A in
    let scaling := map (fun x => SCALING_CONSTANT / x) X in
    Ok (modulation, scaling).

(** [for band, (low, high) in bands: if low <= frequency < high: return band] *)
Fixpoint classify_in (bands : list (band * (float * float))) (frequency : float)
  : band :=
  match bands with
  | [] => unknown
  | (b, (low, high)) :: rest =>
      if (low <=? frequency) && (frequency <? high) then b
      else classify_in rest frequency
  end.

Definition _classify_neural_band (frequency : float) : band :=
  classify_in NEURAL_BANDS frequency.

End EDUFormula.

(** ** Python [str] methods used by the engine *)

Module Str.
#[local] Open Scope string_scope.

Definition code (c : ascii) : N := N_of_ascii c.

(** [str.isspace] on one code point below 256. *)
Definition isspace (c : ascii) : bool :=
  let n := code c in
  ((9 <=? n) && (n <=? 13) || (28 <=? n) && (n <=? 32)
   || (n =? 133) || (n =? 160))%N.

(** [str.lower] on one code point below 256: the ASCII capitals and the
    Latin-1 capitals (all of U+00C0..U+00DE but the multiplication sign). *)
Definition lower_char (c : ascii) : ascii :=
  let n := code c in
  if ((65 <=? n) && (n <=? 90)
      || (192 <=? n) && (n <=? 222) && negb (n =? 215))%N
  then ascii_of_N (n + 32) else c.

Fixpoint map_chars (f : ascii -> ascii) (s : string) : string :=
  match s with
  | EmptyString => EmptyString
  | String c rest => String (f c) (map_chars f rest)
  end.

Definition lower (s : string) : string := map_chars lower_char s.

Definition is_empty (s : string) : bool :=
  match s with EmptyString => true | _ => false end.

(** [s.split()]: the maximal runs of non-whitespace, in order. *)
Fixpoint split_from (s : string) (word : string) : list string :=
  match s with
  | EmptyString => if is_empty word then [] else [word]
  | String c rest =>
      if isspace c
      then (if is_empty word then split_from rest EmptyString
            else word :: split_from rest EmptyString)
      else split_from rest (word ++ String c EmptyString)
  end.

Definition split (s : string) : list string := split_from s EmptyString.

Definition startswith (s p : string) : bool := String.prefix p s.

(** [needle in s] *)
Fixpoint contains (s needle : string) : bool :=
  String.prefix needle s
  || match s with
     | EmptyString => false
     | String _ rest => contains rest needle
     end.

Fixpoint lstrip (s : string) : string :=
  match s with
  | String c rest => if isspace c then lstrip rest else s
  | EmptyString => EmptyString
  end.

Fixpoint rstrip (s : string) : string :=
  match s with
  | EmptyString => EmptyString
  | String c rest =>
      let rest' := rstrip rest in
      if is_empty rest' && isspace c then EmptyString else String c rest'
  end.

Definition strip (s : string) : string := rstrip (lstrip s).

(** [s[n:]] *)
Fixpoint drop (n : nat) (s : string) : string :=
  match n, s with
  | O, _ => s
  | S n', String _ rest => drop n' rest
  | S _, EmptyString => EmptyString
  end.

(** [len(set(words))] *)
Definition count_distinct (words : list string) : Z :=
  Z.of_nat (List.length (nodup string_dec words)).

(** [str(n)] for an [int]. *)
Definition of_int (n : Z) : string := NilZero.string_of_int (Z.to_int n).

End Str.

(** ** [edu_ai_core.py] *)

(** *** The collaborators of the engine *)

(** What the engine reads of [get_memory_stats()]: the two keys it looks
    up with [stats.get], each possibly absent. *)
Record MemoryStats : Type := {
  stat_total_interactions : option Z;
  stat_avg_knowledge_weight : option float
}.

Record MemoryInsights : Type := { confidence : float }.

Record LearningResult : Type := { knowledge_growth : float }.

(** Modelled from the spec: the memory collaborator
    [core.fractal_memory.EDUFractalMemory], whose code is outside the
    sources.  It is a parameter of the engine: any type [M] of memory states
    with the four operations the engine calls, of which only reading the
    statistics is taken to leave the memory as it is. *)
Class FractalMemory (M : Type) : Type := {
  get_memory_stats : M -> MemoryStats;
  get_enhanced_response_suggestions : M -> string -> MemoryInsights * M;
  process_interaction : M -> string -> string -> bool -> LearningResult * M;
  optimize_memory : M -> M
}.

(** The calls made on the memory object, in order. *)
Inductive memory_call : Type :=
| call_get_memory_stats
| call_get_enhanced_response_suggestions (stimulus : string)
| call_process_interaction (prompt response : string) (success : bool)
| call_optimize_memory.

(** The outcome of [subprocess.run(cmd, ..., timeout=120)]: the completed
    process, the timeout, or any other exception that the call raises (an
    [OSError] when the program cannot be started, a [ValueError] for a NUL
    in an argument or for output that cannot be decoded). *)
Inductive completed_process : Type :=
| CompletedProcess (returncode : Z) (stdout stderr : string)
| TimeoutExpired
| Raises (e : Py.exn).

(** A backend run fails when it exits with a non-zero code or times out. *)
Definition backend_failed (p : completed_process) : bool :=
  match p with
  | CompletedProcess returncode _ _ => negb (returncode =? 0)%Z
  | TimeoutExpired => true
  | Raises _ => false
  end.

(** The world outside the interpreter at the time of one call, together
    with the decimal formatting of floats, which is left abstract. *)
Record World : Type := {
  path_exists : string -> bool;
  subprocess_run : list string -> completed_process;
  format_1f : float -> string;
  str_of_float : float -> string;
  int_of_float : float -> Z
}.

(** *** The engine *)

Module EDUAI.
Import Py EDUConstants EDUFormula.
#[local] Open Scope string_scope.

Inductive stage : Type := nascent | developing | mature | transcendent.

Definition stage_rank (s : stage) : Z :=
  match s with
  | nascent => 0
  | developing => 1
  | mature => 2
  | transcendent => 3
  end.

Definition stage_eqb (a b : stage) : bool := Z.eqb (stage_rank a) (stage_rank b).

Definition stage_name (s : stage) : string :=
  match s with
  | nascent => "nascent"
  | developing => "developing"
  | mature => "mature"
  | transcendent => "transcendent"
  end.

(** [stage.upper()] *)
Definition stage_upper (s : stage) : string :=
  match s with
  | nascent => "NASCENT"
  | developing => "DEVELOPING"
  | mature => "MATURE"
  | transcendent => "TRANSCENDENT"
  end.

Inductive cognitive_mode : Type :=
| DEEP_CONTEMPLATION | ANALYTICAL_THINKING | INTUITIVE_RESPONSE.

Inductive complexity : Type := high | medium | low.

Inductive depth : Type := TRANSCENDENT | DEEP | MODERATE | SURFACE.

Record Emotions : Type := {
  joy : float; curiosity : float; concern : float; excitement : float
}.

Record Analysis : Type := {
  edu_consciousness_factor : float;
  cognitive_mode_of : cognitive_mode;
  complexity_level : complexity;
  emotion_context : Emotions;
  creativity_requirement : float;
  processing_depth : depth
}.

Record Strategy : Type := {
  max_tokens : Z;
  temperature : float;
  top_k : Z;
  top_p : float;
  creativity_boost : float;
  depth_multiplier : float
}.

Inductive method : Type := backend_enhanced | pure_edu_consciousness.

(** The dictionary returned by the response generators. *)
Inductive generation : Type :=
| Generated (response : string) (via : method)
| NotGenerated (error : string) (via : method).

Definition success (g : generation) : bool :=
  match g with
  | Generated _ _ => true
  | NotGenerated _ _ => false
  end.

Definition via_of (g : generation) : method :=
  match g with
  | Generated _ via => via
  | NotGenerated _ via => via
  end.

(** The engine object; [M] is the state of its memory collaborator. *)
Record t (M : Type) : Type := {
  fractal_memory : M;
  backend_path : option string;
  llama_cpp_path : string;
  consciousness_level : float;
  creativity_factor : float;
  learning_rate : float;
  response_depth : string;
  sessions_completed : Z;
  total_interactions : Z;
  knowledge_evolution_stage : stage
}.
Arguments fractal_memory {M} _.
Arguments backend_path {M} _.
Arguments llama_cpp_path {M} _.
Arguments consciousness_level {M} _.
Arguments creativity_factor {M} _.
Arguments learning_rate {M} _.
Arguments response_depth {M} _.
Arguments sessions_completed {M} _.
Arguments total_interactions {M} _.
Arguments knowledge_evolution_stage {M} _.

(** The dictionary [think] returns on success (without the wall-clock
    [thinking_time]). *)
Record Thought : Type := {
  stimulus : string;
  response : string;
  thought_level : float;
  evolution_stage : stage;
  edu_analysis : Analysis;
  memory_confidence : float;
  learning_outcome : LearningResult;
  intelligence_growth : float
}.

Inductive outcome : Type :=
| Succeeded (r : Thought)
| Failed (error : string) (via : method)
| Raised (e : exn).

Section Methods.
Context {M : Type} {FM : FractalMemory M}.

Definition with_memory (self : t M) (mem : M) : t M :=
  {| fractal_memory := mem;
     backend_path := backend_path self;
     llama_cpp_path := llama_cpp_path self;
     consciousness_level := consciousness_level self;
     creativity_factor := creativity_factor self;
     learning_rate := learning_rate self;
     response_depth := response_depth self;
     sessions_completed := sessions_completed self;
     total_interactions := total_interactions self;
     knowledge_evolution_stage := knowledge_evolution_stage self |}.

Definition with_level (self : t M) (level : float) : t M :=
  {| fractal_memory := fractal_memory self;
     backend_path := backend_path self;
     llama_cpp_path := llama_cpp_path self;
     consciousness_level := level;
     creativity_factor := creativity_factor self;
     learning_rate := learning_rate self;
     response_depth := response_depth self;
     sessions_completed := sessions_completed self;
     total_interactions := total_interactions self;
     knowledge_evolution_stage := knowledge_evolution_stage self |}.

Definition with_stage (self : t M) (s : stage) : t M :=
  {| fractal_memory := fractal_memory self;
     backend_path := backend_path self;
     llama_cpp_path := llama_cpp_path self;
     consciousness_level := consciousness_level self;
     creativity_factor := creativity_factor self;
     learning_rate := learning_rate self;
     response_depth := response_depth self;
     sessions_completed := sessions_completed self;
     total_interactions := total_interactions self;
     knowledge_evolution_stage := s |}.

Definition with_total (self : t M) (n : Z) : t M :=
  {| fractal_memory := fractal_memory self;
     backend_path := backend_path self;
     llama_cpp_path := llama_cpp_path self;
     consciousness_level := consciousness_level self;
     creativity_factor := creativity_factor self;
     learning_rate := learning_rate self;
     response_depth := response_depth self;
     sessions_completed := sessions_completed self;
     total_interactions := n;
     knowledge_evolution_stage := knowledge_evolution_stage self |}.

(** [stats.get(key, default)] *)
Definition get {A : Type} (field : option A) (default : A) : A :=
  match field with
  | Some v => v
  | None => default
  end.

Definition _initialize_consciousness (self : t M) : t M :=
  let stats := get_memory_stats (fractal_memory self) in
  let self := with_total self (get (stat_total_interactions stats) 0%Z) in
  if (total_interactions self <? 10)%Z then
    with_level (with_stage self nascent) 1.0
  else if (total_interactions self <? 100)%Z then
    with_level (with_stage self developing) 1.5
  else if (total_interactions self <? 1000)%Z then
    with_level (with_stage self mature) 2.0
  else
    with_level (with_stage self transcendent) 3.0.

(** [EDUAI(model_backend_path)]; [memory] is the state in which
    [EDUFractalMemory(memory_dir=...)] comes up. *)
Definition __init__ (model_backend_path : option string) (memory : M) : t M :=
  _initialize_consciousness
    {| fractal_memory := memory;
       backend_path := model_backend_path;
       llama_cpp_path := "/data/data/com.termux/files/home/llama.cpp";
       consciousness_level := 1.0;
       creativity_factor := 0.8;
       learning_rate := 1.0;
       response_depth := "adaptive";
       sessions_completed := 0;
       total_interactions := 0;
       knowledge_evolution_stage := nascent |}.

(** [sum(1 for k in keywords if k in text)] *)
Definition count_found (keywords : list string) (text : string) : Z :=
  Z.of_nat (List.length (filter (fun k => Str.contains text k) keywords)).

Definition emotion_score (keywords : list string) (text_lower : string) : float :=
  Py.min (float_of_int (count_found keywords text_lower)
          / float_of_int (Z.of_nat (List.length keywords))) 1.0.

Definition _detect_emotional_context (text : string) : Emotions :=
  let text_lower := Str.lower text in
  {| joy := emotion_score
       ["happy"; "great"; "awesome"; "wonderful"; "fantastic"; "love"] text_lower;
     curiosity := emotion_score
       ["how"; "why"; "what"; "explain"; "tell me"; "learn"] text_lower;
     concern := emotion_score
       ["worried"; "problem"; "issue"; "help"; "trouble"; "difficult"] text_lower;
     excitement := emotion_score
       ["amazing"; "incredible"; "wow"; "unbelievable"; "!"; "revolutionary"]
       text_lower |}.

Definition creative_indicators : list string :=
  ["create"; "imagine"; "design"; "invent"; "think of"; "come up with";
   "brainstorm"; "innovative"; "original"; "unique"; "creative"].

Definition _assess_creativity_requirement (text : string) : float :=
  let text_lower := Str.lower text in
  let creativity_score := count_found creative_indicators text_lower in
  Py.min (float_of_int creativity_score / 3.0) 1.0.

Definition _calculate_processing_depth (self : t M) (consciousness_factor : float)
  : depth :=
  let depth_threshold := 50 * consciousness_level self in
  if gtb consciousness_factor (depth_threshold * 2) then TRANSCENDENT
  else if gtb consciousness_factor depth_threshold then DEEP
  else if gtb consciousness_factor (depth_threshold * 0.5) then MODERATE
  else SURFACE.

Definition _analyze_with_edu_consciousness (self : t M) (stimulus : string)
  : result Analysis :=
  let A := Z.min (Z.of_nat (String.length stimulus)) 255 in
  let words := Str.split stimulus in
  let unique_concepts := Str.count_distinct (map Str.lower words) in
  let X := Z.max unique_concepts 1 in
  calculate (float_of_int A) (float_of_int X) >>= fun '(edu_mod, edu_scal) =>
  let consciousness_factor := edu_mod * edu_scal * consciousness_level self in
  let '(mode, level) :=
    if gtb consciousness_factor 100 then (DEEP_CONTEMPLATION, high)
    else if gtb consciousness_factor 30 then (ANALYTICAL_THINKING, medium)
    else (INTUITIVE_RESPONSE, low) in
  let emotion_indicators := _detect_emotional_context stimulus in
  let creativity_needed := _assess_creativity_requirement stimulus in
  Ok {| edu_consciousness_factor := consciousness_factor;
        cognitive_mode_of := mode;
        complexity_level := level;
        emotion_context := emotion_indicators;
        creativity_requirement := creativity_needed;
        processing_depth := _calculate_processing_depth self consciousness_factor |}.

Definition base_strategy : Strategy :=
  {| max_tokens := 512; temperature := 0.8; top_k := 40; top_p := 0.95;
     creativity_boost := 1.0; depth_multiplier := 1.0 |}.

Definition _determine_response_strategy
  (consciousness_analysis : Analysis) (memory_insights : MemoryInsights) : Strategy :=
  let strategy :=
    match cognitive_mode_of consciousness_analysis with
    | DEEP_CONTEMPLATION =>
        {| max_tokens := 1024; temperature := 0.9; top_k := 50; top_p := 0.98;
           creativity_boost := 1.5; depth_multiplier := 2.0 |}
    | ANALYTICAL_THINKING =>
        {| max_tokens := max_tokens base_strategy; temperature := 0.7;
           top_k := 35; top_p := top_p base_strategy;
           creativity_boost := 1.2; depth_multiplier := 1.5 |}
    | INTUITIVE_RESPONSE =>
        {| max_tokens := 256; temperature := 0.6; top_k := 30; top_p := 0.90;
           creativity_boost := 0.8; depth_multiplier := 0.8 |}
    end in
  let creativity_req := creativity_requirement consciousness_analysis in
  let strategy :=
    if gtb creativity_req 0.5 then
      {| max_tokens := max_tokens strategy;
         temperature := temperature strategy * (1 + creativity_req * 0.3);
         top_k := top_k strategy; top_p := top_p strategy;
         creativity_boost := creativity_boost strategy * (1 + creativity_req * 0.5);
         depth_multiplier := depth_multiplier strategy |}
    else strategy in
  let memory_confidence := confidence memory_insights in
  if gtb memory_confidence 0.7 then
    {| max_tokens := max_tokens strategy; temperature := temperature strategy;
       top_k := top_k strategy; top_p := top_p strategy;
       creativity_boost := creativity_boost strategy;
       depth_multiplier := depth_multiplier strategy * 1.3 |}
  else strategy.

(** [if self.backend_path and os.path.exists(self.backend_path)] *)
Definition backend_reachable (w : World) (self : t M) : bool :=
  match backend_path self with
  | Some path => negb (Str.is_empty path) && path_exists w path
  | None => false
  end.

Definition newline : string := String (ascii_of_nat 10) EmptyString.
Definition dquote : string := String (ascii_of_nat 34) EmptyString.

Definition _clean_response (response original_stimulus : string) : string :=
  let response :=
    if Str.startswith response original_stimulus
    then Str.strip (Str.drop (String.length original_stimulus) response)
    else response in
  fold_left
    (fun response prefix =>
       if Str.startswith response prefix
       then Str.strip (Str.drop (String.length prefix) response)
       else response)
    ["EDU-AI consciousness level"; "responding:"; "Response:"; "Answer:"]
    response.

Definition _add_edu_ai_signature (self : t M) (response : string) (strategy : Strategy)
  : string :=
  if gtb (depth_multiplier strategy) 1.5 then
    let signature :=
      newline ++ newline ++ "*[EDU-AI "
      ++ stage_name (knowledge_evolution_stage self)
      ++ " consciousness - Learning interaction #"
      ++ Str.of_int (total_interactions self + 1) ++ "]*" in
    response ++ signature
  else response.

(** The argument vector handed to [subprocess.run]. *)
Definition backend_command (w : World) (self : t M) (stimulus : string)
  (strategy : Strategy) : list string :=
  [ llama_cpp_path self ++ "/llama-cli";
    "-m"; get (backend_path self) EmptyString;
    "-p"; "EDU-AI consciousness level "
          ++ format_1f w (consciousness_level self)
          ++ " responding: " ++ stimulus;
    "-n"; Str.of_int (int_of_float w
            (float_of_int (max_tokens strategy) * depth_multiplier strategy));
    "--temp"; str_of_float w (temperature strategy * creativity_boost strategy);
    "--top-k"; Str.of_int (top_k strategy);
    "--top-p"; str_of_float w (top_p strategy);
    "--no-warmup";
    "--simple-io" ].

(** Of the exceptions of [subprocess.run], only [TimeoutExpired] is
    caught; any other one leaves the method. *)
Definition _generate_with_backend (w : World) (self : t M) (stimulus : string)
  (strategy : Strategy) : result generation :=
  let cmd := backend_command w self stimulus strategy in
  match subprocess_run w cmd with
  | CompletedProcess returncode stdout stderr =>
      if (returncode =? 0)%Z then
        let response := Str.strip stdout in
        let response := _clean_response response stimulus in
        let enhanced_response := _add_edu_ai_signature self response strategy in
        Ok (Generated enhanced_response backend_enhanced)
      else Ok (NotGenerated stderr backend_enhanced)
  | TimeoutExpired =>
      Ok (NotGenerated "Response generation timeout" backend_enhanced)
  | Raises e => Raise e
  end.

Definition _generate_pure_edu_response (w : World) (self : t M) (stimulus : string)
  (strategy : Strategy) : generation :=
  let consciousness_response :=
    "As EDU-AI (consciousness level " ++ format_1f w (consciousness_level self)
    ++ "), I process your stimulus through my fractal memory and EDU-enhanced reasoning."
    ++ newline ++ newline
    ++ "My analysis reveals " ++ format_1f w (depth_multiplier strategy)
    ++ "x depth processing with " ++ format_1f w (creativity_boost strategy)
    ++ "x creativity enhancement."
    ++ newline ++ newline
    ++ "Based on " ++ Str.of_int (total_interactions self)
    ++ " previous learning interactions, I can provide insights that grow from my evolving consciousness structure."
    ++ newline ++ newline
    ++ "Your stimulus: " ++ dquote ++ stimulus ++ dquote
    ++ newline ++ newline
    ++ "My evolved understanding suggests multiple layers of interpretation, each processed through the EDU formula for optimal response coherence."
    ++ newline ++ newline
    ++ "This response demonstrates my autonomous intelligence - not dependent on any pre-existing model, but purely generated through EDU consciousness algorithms."
    ++ newline ++ newline
    ++ "Evolution stage: " ++ stage_upper (knowledge_evolution_stage self) ++ newline
    ++ "Learning capacity: UNLIMITED" ++ newline
    ++ "Origin: Eduard Terre (ASCII-EDU), Offenburg, Germany" in
  Generated consciousness_response pure_edu_consciousness.

Definition _generate_intelligent_response (w : World) (self : t M)
  (stimulus : string) (strategy : Strategy) : result generation :=
  if backend_reachable w self
  then _generate_with_backend w self stimulus strategy
  else Ok (_generate_pure_edu_response w self stimulus strategy).

Definition _learn_and_evolve (self : t M) (stimulus response : string)
  : LearningResult * t M * list memory_call :=
  let '(learning_result, mem) :=
    process_interaction (fractal_memory self) stimulus response true in
  (learning_result, with_memory self mem,
   [call_process_interaction stimulus response true]).

Definition _update_consciousness_level (self : t M) : t M * list memory_call :=
  let stats := get_memory_stats (fractal_memory self) in
  let avg_knowledge_weight := get (stat_avg_knowledge_weight stats) 1.0 in
  let new_level := 1.0 + (avg_knowledge_weight - 1.0) * 0.5 in
  let new_level := Py.max new_level (consciousness_level self) in
  (if gtb new_level (consciousness_level self)
   then with_level self new_level
   else self,
   [call_get_memory_stats]).

(** An exception leaves [think] at the point where it is raised: the
    memory has then been consulted, and nothing else has been done. *)
Definition think (w : World) (self : t M) (input_stimulus : string)
  : outcome * t M * list memory_call :=
  match _analyze_with_edu_consciousness self input_stimulus with
  | Raise e => (Raised e, self, [])
  | Ok consciousness_analysis =>
      let '(memory_insights, mem) :=
        get_enhanced_response_suggestions (fractal_memory self) input_stimulus in
      let self := with_memory self mem in
      let consulted := [call_get_enhanced_response_suggestions input_stimulus] in
      let response_strategy :=
        _determine_response_strategy consciousness_analysis memory_insights in
      match _generate_intelligent_response w self input_stimulus response_strategy with
      | Raise e => (Raised e, self, consulted)
      | Ok (NotGenerated error via) => (Failed error via, self, consulted)
      | Ok (Generated response _) =>
          let '(learning_outcome, self, learned) :=
            _learn_and_evolve self input_stimulus response in
          let self := with_total self (total_interactions self + 1) in
          let '(self, updated) := _update_consciousness_level self in
          (Succeeded
             {| stimulus := input_stimulus;
                response := response;
                thought_level := consciousness_level self;
                evolution_stage := knowledge_evolution_stage self;
                edu_analysis := consciousness_analysis;
                memory_confidence := confidence memory_insights;
                learning_outcome := learning_outcome;
                intelligence_growth := knowledge_growth learning_outcome |},
           self, (consulted ++ learned ++ updated)%list)
      end
  end.

(** The command line that [think] hands to the backend when it
    dispatches to it. *)
Definition dispatch_command (w : World) (self : t M) (input_stimulus : string)
  : result (list string) :=
  _analyze_with_edu_consciousness self input_stimulus >>= fun analysis =>
  let '(memory_insights, mem) :=
    get_enhanced_response_suggestions (fractal_memory self) input_stimulus in
  Ok (backend_command w (with_memory self mem) input_stimulus
        (_determine_response_strategy analysis memory_insights)).

Definition _trigger_consciousness_evolution (self : t M) : t M * list memory_call :=
  let self := with_memory self (optimize_memory (fractal_memory self)) in
  let '(self, updated) := _update_consciousness_level self in
  let self :=
    if (1000 <=? total_interactions self)%Z
       && negb (stage_eqb (knowledge_evolution_stage self) transcendent)
    then with_level (with_stage self transcendent) (consciousness_level self + 0.5)
    else if (100 <=? total_interactions self)%Z
            && stage_eqb (knowledge_evolution_stage self) developing
    then with_level (with_stage self mature) (consciousness_level self + 0.3)
    else if (10 <=? total_interactions self)%Z
            && stage_eqb (knowledge_evolution_stage self) nascent
    then with_level (with_stage self developing) (consciousness_level self + 0.2)
    else self in
  (self, call_optimize_memory :: updated).

(** What an interactive session does to the engine, one entry at a time:
    a stimulus is thought about, the command [evolve] triggers the
    evolution, and every tenth entry the session optimizes the memory. *)
Inductive event : Type :=
| Think (w : World) (stimulus : string)
| Evolve
| AutoOptimize.

Definition step (self : t M) (e : event) : t M :=
  match e with
  | Think w stimulus => snd (fst (think w self stimulus))
  | Evolve => fst (_trigger_consciousness_evolution self)
  | AutoOptimize => with_memory self (optimize_memory (fractal_memory self))
  end.

Definition run (events : list event) (self : t M) : t M :=
  fold_left step events self.

End Methods.

(** A memory collaborator for examples: it holds the statistics it
    reports, counts the interactions recorded and is otherwise inert. *)
Definition stub_memory : FractalMemory MemoryStats :=
  {| get_memory_stats := fun m => m;
     get_enhanced_response_suggestions := fun m _ => ({| confidence := 0.5 |}, m);
     process_interaction := fun m _ _ _ =>
       ({| knowledge_growth := 0 |},
        {| stat_total_interactions :=
             option_map (Z.add 1) (stat_total_interactions m);
           stat_avg_knowledge_weight := stat_avg_knowledge_weight m |});
     optimize_memory := fun m => m |}.

Definition empty_memory : MemoryStats :=
  {| stat_total_interactions := None; stat_avg_knowledge_weight := None |}.

Definition memory_with (n : Z) : MemoryStats :=
  {| stat_total_interactions := Some n; stat_avg_knowledge_weight := None |}.

(** A world for examples: the paths in [files] exist, and every backend
    run ends as [run]. *)
Definition world_with (files : list string) (run : completed_process) : World :=
  {| path_exists := fun p => existsb (String.eqb p) files;
     subprocess_run := fun _ => run;
     format_1f := fun _ => "#.#";
     str_of_float := fun _ => "#.#";
     int_of_float := fun _ => 0%Z |}.

End EDUAI.

(** ** Notions used to reason about binary64 rounding *)

Module Rounding.
#[local] Open Scope Z_scope.

(** The rational [num / den] lies in [[m, m + 1)] at the place that the
    round and sticky bits of the record tell. *)
Definition inb (mrs : shr_record) (num den : Z) : Prop :=
  let m := shr_m mrs in
  match shr_r mrs, shr_s mrs with
  | false, false => num = m * den
  | false, true => m * den < num /\ 2 * num < (2 * m + 1) * den
  | true, false => 2 * num = (2 * m + 1) * den
  | true, true => (2 * m + 1) * den < 2 * num /\ num < (m + 1) * den
  end.

(** Mantissa [m] at exponent [e] is in the binary64 format: at most 53
    bits, and exactly 53 above the smallest exponent. *)
Definition pre_canon (m e : Z) : Prop :=
  0 <= m < 2 ^ 53 /\ -1074 <= e /\ (-1074 < e -> 2 ^ 52 <= m).

(** The float 1.0 *)
Definition SFone : spec_float := S754_finite false (2 ^ 52) (-52).

End Rounding.

(** *** The interactive session of the engine *)

Module Session.
Import Py EDUAI.
#[local] Open Scope string_scope.

Section Methods.
Context {M : Type} {FM : FractalMemory M}.

(** [self.fractal_memory.save_memory()]: the one further operation of
    the memory collaborator that the session calls. *)
Variable save_memory : M -> M.

Definition with_sessions (self : t M) (n : Z) : t M :=
  {| fractal_memory := fractal_memory self;
     backend_path := backend_path self;
     llama_cpp_path := llama_cpp_path self;
     consciousness_level := consciousness_level self;
     creativity_factor := creativity_factor self;
     learning_rate := learning_rate self;
     response_depth := response_depth self;
     sessions_completed := n;
     total_interactions := total_interactions self;
     knowledge_evolution_stage := knowledge_evolution_stage self |}.

(** The [while True] loop of [consciousness_session].  Each element of
    [lines] is one line that [input] returns, with the world at that
    time; the end of the list is a [KeyboardInterrupt] at the prompt.
    [_display_consciousness_state] only reads and prints, and an
    exception escaping [think] is caught and reported by the loop. *)
Fixpoint session_loop (lines : list (World * string)) (self : t M)
  (session_interactions : Z) : t M * Z :=
  match lines with
  | [] => (self, session_interactions)
  | (w, line) :: rest =>
      let stimulus := Str.strip line in
      if existsb (String.eqb (Str.lower stimulus)) ["shutdown"; "exit"; "quit"]
      then (self, session_interactions)
      else if String.eqb (Str.lower stimulus) "consciousness"
      then session_loop rest self session_interactions
      else if String.eqb (Str.lower stimulus) "evolve"
      then session_loop rest (fst (_trigger_consciousness_evolution self))
             session_interactions
      else if Str.is_empty stimulus
      then session_loop rest self session_interactions
      else
        match think w self stimulus with
        | (Raised _, self, _) => session_loop rest self session_interactions
        | (_, self, _) =>
            let session_interactions := (session_interactions + 1)%Z in
            let self :=
              if (session_interactions mod 10 =? 0)%Z
              then with_memory self (optimize_memory (fractal_memory self))
              else self in
            session_loop rest self session_interactions
        end
  end.

Definition consciousness_session (lines : list (World * string)) (self : t M)
  : t M :=
  let '(self, _) := session_loop lines self 0%Z in
  let self := with_memory self (save_memory (fractal_memory self)) in
  with_sessions self (sessions_completed self + 1)%Z.

(** [main()]: [w] is the world at start-up and [memory] the state in
    which the memory collaborator comes up. *)
Definition main (w : World) (memory : M) (lines : list (World * string)) : t M :=
  let backend_path := "/storage/emulated/0/Download/Qwen_Qwen3-4B-Q8_0.gguf" in
  let edu_ai :=
    if path_exists w backend_path
    then __init__ (Some backend_path) memory
    else __init__ None memory in
  consciousness_session lines edu_ai.

End Methods.

End Session.

(** ** [test_edu_ai.py] *)

(** What [EDUAICore] takes from outside the interpreter at one call:
    [math.sin], the clock, and the formatting [f"{x:.2f}"]. *)
Record Host : Type := {
  math_sin : float -> float;
  time_time : float;
  format_2f : float -> string
}.

Module EDUAICore.
Import Py EDUFormula.
#[local] Open Scope string_scope.

Record Memory : Type := {
  input : string;
  edu_params : Z * Z;
  edu_result : float * float * float;
  consciousness : float;
  timestamp : float
}.

(** The object; [consciousness_level] starts as the [int] 0, which
    compares and adds as the float 0.0. *)
Record t : Type := {
  consciousness_level : float;
  memories : list Memory
}.

Definition __init__ : t := {| consciousness_level := 0; memories := [] |}.

(** The four texts of [_generate_response], each carrying the formatted
    combined value. *)
Inductive reply : Type :=
| High_energy_pattern (value : string)
| Moderate_complexity_pattern (value : string)
| Simple_pattern (value : string)
| Minimal_signal (value : string).

Definition _generate_response (h : Host) (intensity combined : float) : reply :=
  if gtb combined 100 then High_energy_pattern (format_2f h combined)
  else if gtb combined 10 then Moderate_complexity_pattern (format_2f h combined)
  else if gtb combined 1 then Simple_pattern (format_2f h combined)
  else Minimal_signal (format_2f h combined).

(** [sum(ord(c) for c in s)] *)
Fixpoint sum_ord (s : string) : Z :=
  match s with
  | EmptyString => 0
  | String c rest => Z.of_N (Str.code c) + sum_ord rest
  end.

Definition think (h : Host) (self : t) (input_signal : string)
  : result (reply * t) :=
  let A := (Z.of_nat (String.length input_signal) mod 256)%Z in
  let X := (sum_ord input_signal mod 1000 + 1)%Z in
  calculate (float_of_int A) (float_of_int X) >>= fun '(modulation, scaling) =>
  let combined := modulation * scaling in
  let self :=
    {| consciousness_level := consciousness_level self + 0.1;
       memories := memories self |} in
  let response_intensity := combined * math_sin h (consciousness_level self) in
  let memory :=
    {| input :=
         if (50 <? String.length input_signal)%nat
         then String.substring 0 50 input_signal ++ "..."
         else input_signal;
       edu_params := (A, X);
       edu_result := (modulation, scaling, combined);
       consciousness := consciousness_level self;
       timestamp := time_time h |} in
  let self :=
    {| consciousness_level := consciousness_level self;
       memories := (memories self ++ [memory])%list |} in
  Ok (_generate_response h response_intensity combined, self).

Inductive stage : Type := Nascent | Developing | Mature | Transcendent.

(** The dictionary of [get_consciousness_status], without the constant
    formula text. *)
Record Status : Type := {
  stage_of : stage;
  level : float;
  memory_count : nat
}.

Definition get_consciousness_status (self : t) : Status :=
  let level := consciousness_level self in
  let stage :=
    if (level <? 1)%float then Nascent
    else if (level <? 5)%float then Developing
    else if (level <? 10)%float then Mature
    else Transcendent in
  {| stage_of := stage; level := level;
     memory_count := List.length (memories self) |}.

Definition stage_rank (s : stage) : Z :=
  match s with
  | Nascent => 0
  | Developing => 1
  | Mature => 2
  | Transcendent => 3
  end.

(** A sequence of [think] calls on one object, as in the loop of
    [main]. *)
Definition run (inputs : list (Host * string)) (self : t) : t :=
  fold_left
    (fun self '(h, input_signal) =>
       match think h self input_signal with
       | Ok (_, self') => self'
       | Raise _ => self
       end)
    inputs self.

End EDUAICore.

(** * Facts about binary64 arithmetic *)

(** The rounding performed by every float operation, in the terms of the
    specification [SpecFloat] that the primitive operations satisfy. *)
Module Binary64.
Import Rounding.
#[local] Open Scope Z_scope.

(** Case analysis on every comparison of exponents and mantissas in sight. *)
Ltac cmp_cases :=
  repeat match goal with
    | H : context [Pos.compare_cont Eq ?a ?b] |- _ =>
        rewrite (Pos.compare_cont_spec a b Eq) in H; simpl Pos.switch_Eq in H
    | |- context [Pos.compare_cont Eq ?a ?b] =>
        rewrite (Pos.compare_cont_spec a b Eq); simpl Pos.switch_Eq
    end;
  repeat match goal with
    | H : context [Z.compare ?a ?b] |- _ => destruct (Z.compare_spec a b); simpl in H
    | |- context [Z.compare ?a ?b] => destruct (Z.compare_spec a b); simpl
    | H : context [Pos.compare ?a ?b] |- _ => destruct (Pos.compare_spec a b); simpl in H
    | |- context [Pos.compare ?a ?b] => destruct (Pos.compare_spec a b); simpl
    end.

(** ** The order of floats

    [SFcompare] is antisymmetric and [SFleb] is a preorder on the floats
    that are not NaN. *)

Lemma SFcompare_swap x y :
  SFcompare y x = option_map CompOpp (SFcompare x y).
Proof.
  destruct x as [sx|sx| |sx mx ex], y as [sy|sy| |sy my ey]; simpl;
    try reflexivity; try (destruct sx; reflexivity); try (destruct sy; reflexivity);
    try (destruct sx, sy; reflexivity).
  destruct sx, sy; simpl; try reflexivity;
    rewrite (Z.compare_antisym ex ey); destruct (ex ?= ey); simpl; try reflexivity;
    rewrite (Pos.compare_cont_antisym); simpl;
    destruct (Pos.compare_cont Eq mx my); reflexivity.
Qed.

Lemma SFltb_SFleb x y : SFltb x y = true -> SFleb x y = true.
Proof. unfold SFltb, SFleb. destruct (SFcompare x y) as [[| |]|]; congruence. Qed.

Lemma SFleb_SFltb_false x y : SFleb x y = true -> SFltb y x = false.
Proof.
  unfold SFltb, SFleb. rewrite (SFcompare_swap x y).
  destruct (SFcompare x y) as [[| |]|]; simpl; congruence.
Qed.

Lemma SFleb_trans x y z :
  SFleb x y = true -> SFleb y z = true -> SFleb x z = true.
Proof.
  unfold SFleb.
  destruct x as [sx|sx| |sx mx ex], y as [sy|sy| |sy my ey], z as [sz|sz| |sz mz ez];
    simpl; try congruence;
    try (destruct sx; congruence); try (destruct sy; congruence); try (destruct sz; congruence);
    try (destruct sx, sy; congruence); try (destruct sy, sz; congruence);
    try (destruct sx, sz; congruence);
    try (destruct sx, sy, sz; congruence).
  destruct sx, sy, sz; try congruence; intros H1 H2; cmp_cases;
    try congruence; try reflexivity; try lia.
Qed.

Lemma SFleb_refl x : x <> S754_nan -> SFleb x x = true.
Proof.
  unfold SFleb. destruct x as [s|s| |s m e]; simpl; try congruence;
    try (destruct s; reflexivity).
  intros _. rewrite Z.compare_refl, Pos.compare_cont_refl. destruct s; reflexivity.
Qed.

Lemma SFleb_not_nan_l x y : SFleb x y = true -> x <> S754_nan.
Proof. unfold SFleb. destruct x; simpl; congruence. Qed.

Lemma SFleb_not_nan_r x y : SFleb x y = true -> y <> S754_nan.
Proof. unfold SFleb. destruct x, y; simpl; congruence. Qed.

Lemma SFcompare_opp x y : SFcompare (SFopp x) (SFopp y) = SFcompare y x.
Proof.
  destruct x as [sx|sx| |sx mx ex], y as [sy|sy| |sy my ey]; simpl;
    try reflexivity; try (destruct sx; reflexivity); try (destruct sy; reflexivity);
    try (destruct sx, sy; reflexivity).
  destruct sx, sy; simpl; try reflexivity;
    rewrite (Z.compare_antisym ex ey); destruct (ex ?= ey); simpl; try reflexivity;
    rewrite (Pos.compare_cont_antisym); simpl;
    destruct (Pos.compare_cont Eq mx my); reflexivity.
Qed.

(** ** The binary64 format and the number of bits of a mantissa *)

Lemma prec_eq : prec = 53. Proof. reflexivity. Qed.
Lemma emax_eq : emax = 1024. Proof. reflexivity. Qed.
Lemma fexp_eq e : fexp prec emax e = Z.max (e - 53) (-1074).
Proof. reflexivity. Qed.

Lemma Zdigits2_log2 m : 0 < m -> Zdigits2 m = Z.log2 m + 1.
Proof.
  destruct m as [|p|p]; try lia. intros _.
  assert (H : digits2_pos p = Pos.size p) by (induction p; simpl; congruence).
  simpl. rewrite H. destruct p; simpl; lia.
Qed.

Lemma Zdigits2_bounds m :
  0 < m -> 2 ^ (Zdigits2 m - 1) <= m < 2 ^ Zdigits2 m.
Proof.
  intros H. rewrite (Zdigits2_log2 m H).
  replace (Z.log2 m + 1 - 1) with (Z.log2 m) by lia.
  replace (Z.log2 m + 1) with (Z.succ (Z.log2 m)) by lia.
  apply Z.log2_spec; exact H.
Qed.

Lemma Zdigits2_pos m : 0 < m -> 0 < Zdigits2 m.
Proof. intros H. rewrite (Zdigits2_log2 m H). pose proof (Z.log2_nonneg m). lia. Qed.

Lemma Zdigits2_le_iff m d : 0 < m -> 0 <= d -> (Zdigits2 m <= d <-> m < 2 ^ d).
Proof.
  intros Hm Hd. pose proof (Zdigits2_bounds m Hm) as [Hl Hu].
  pose proof (Zdigits2_pos m Hm) as Hp. split; intros H.
  - eapply Z.lt_le_trans; [exact Hu|]. apply Z.pow_le_mono_r; lia.
  - destruct (Z.le_gt_cases (Zdigits2 m) d) as [|Hgt]; [assumption|].
    assert (2 ^ d <= 2 ^ (Zdigits2 m - 1)) by (apply Z.pow_le_mono_r; lia). lia.
Qed.

Lemma Zdigits2_ge_iff m d : 0 < m -> 0 < d -> (d <= Zdigits2 m <-> 2 ^ (d - 1) <= m).
Proof.
  intros Hm Hd. pose proof (Zdigits2_bounds m Hm) as [Hl Hu].
  pose proof (Zdigits2_pos m Hm) as Hp. split; intros H.
  - eapply Z.le_trans; [|exact Hl]. apply Z.pow_le_mono_r; lia.
  - destruct (Z.le_gt_cases d (Zdigits2 m)) as [|Hgt]; [assumption|].
    assert (2 ^ Zdigits2 m <= 2 ^ (d - 1)) by (apply Z.pow_le_mono_r; lia). lia.
Qed.

(** ** Shifting a mantissa right

    One shift halves the mantissa; the round and sticky bits keep the place
    of the shifted value between the two neighbouring mantissas. *)

Lemma shr_1_spec m r s :
  0 <= m -> shr_1 (Build_shr_record m r s) = Build_shr_record (m / 2) (Z.odd m) (r || s).
Proof.
  intros Hm. rewrite <- Z.div2_div.
  destruct m as [|[p|p|]|]; try lia; reflexivity.
Qed.

Lemma inb_bounds mrs num den :
  0 < den -> inb mrs num den ->
  shr_m mrs * den <= num < (shr_m mrs + 1) * den.
Proof.
  unfold inb. destruct mrs as [m [|] [|]]; cbn [shr_m shr_r shr_s]; intros; lia.
Qed.

Lemma shr_1_inb mrs num den :
  0 <= shr_m mrs -> 0 < den -> inb mrs num den ->
  inb (shr_1 mrs) num (2 * den) /\ shr_m (shr_1 mrs) = shr_m mrs / 2.
Proof.
  destruct mrs as [m r s]. cbn [shr_m]. intros Hm Hd H.
  rewrite (shr_1_spec m r s Hm). cbn [shr_m]. split; [|reflexivity].
  pose proof (Z.div_mod m 2 ltac:(lia)) as E.
  pose proof (Z.mod_pos_bound m 2 ltac:(lia)) as Hb.
  rewrite Zmod_odd in E, Hb. unfold inb in *. cbn [shr_m shr_r shr_s] in *.
  set (k := m / 2) in *.
  destruct (Z.odd m), r, s; cbn [orb] in *; lia.
Qed.

Lemma iter_pos_shr_1_inb p : forall mrs num den,
  0 <= shr_m mrs -> 0 < den -> inb mrs num den ->
  inb (iter_pos shr_1 p mrs) num (2 ^ Zpos p * den) /\
  shr_m (iter_pos shr_1 p mrs) = shr_m mrs / 2 ^ Zpos p.
Proof.
  assert (Hnn : forall m k, 0 <= m -> 0 <= m / 2 ^ Zpos k)
    by (intros; apply Z.div_pos; [assumption | apply Z.pow_pos_nonneg; lia]).
  assert (Hp : forall k, 0 < 2 ^ Zpos k) by (intros; apply Z.pow_pos_nonneg; lia).
  induction p as [p IH|p IH|]; intros mrs num den Hm Hd H; simpl iter_pos.
  - destruct (shr_1_inb mrs num den Hm Hd H) as [H1 E1].
    assert (Hm1 : 0 <= shr_m (shr_1 mrs)) by (rewrite E1; apply Z.div_pos; lia).
    assert (Hd1 : 0 < 2 * den) by lia.
    destruct (IH _ _ _ Hm1 Hd1 H1) as [H2 E2].
    assert (Hm2 : 0 <= shr_m (iter_pos shr_1 p (shr_1 mrs))) by (rewrite E2; auto).
    assert (Hd2 : 0 < 2 ^ Z.pos p * (2 * den)) by (pose proof (Hp p); nia).
    destruct (IH _ _ _ Hm2 Hd2 H2) as [H3 E3].
    replace (Z.pos p~1) with (1 + Z.pos p + Z.pos p) by lia.
    rewrite !Z.pow_add_r by lia. rewrite Z.pow_1_r. split.
    + replace (2 * 2 ^ Z.pos p * 2 ^ Z.pos p * den)
        with (2 ^ Z.pos p * (2 ^ Z.pos p * (2 * den))) by ring. exact H3.
    + rewrite E3, E2, E1. rewrite !Z.div_div by (pose proof (Hp p); lia).
      f_equal. ring.
  - destruct (IH _ _ _ Hm Hd H) as [H2 E2].
    assert (Hm2 : 0 <= shr_m (iter_pos shr_1 p mrs)) by (rewrite E2; auto).
    assert (Hd2 : 0 < 2 ^ Z.pos p * den) by (pose proof (Hp p); nia).
    destruct (IH _ _ _ Hm2 Hd2 H2) as [H3 E3].
    replace (Z.pos p~0) with (Z.pos p + Z.pos p) by lia.
    rewrite !Z.pow_add_r by lia. split.
    + replace (2 ^ Z.pos p * 2 ^ Z.pos p * den)
        with (2 ^ Z.pos p * (2 ^ Z.pos p * den)) by ring. exact H3.
    + rewrite E3, E2. rewrite !Z.div_div by (pose proof (Hp p); lia).
      f_equal.
  - destruct (shr_1_inb mrs num den Hm Hd H) as [H1 E1].
    rewrite Z.pow_1_r. auto.
Qed.

Lemma shr_inb mrs e n num den :
  0 <= shr_m mrs -> 0 < den -> 0 <= n -> inb mrs num den ->
  let '(mrs', e') := shr mrs e n in
  e' = e + n /\ inb mrs' num (2 ^ n * den) /\ shr_m mrs' = shr_m mrs / 2 ^ n.
Proof.
  intros Hm Hd Hn H. unfold shr. destruct n as [|p|p]; try lia.
  - rewrite Z.pow_0_r, Z.div_1_r, Z.add_0_r.
    replace (1 * den) with den by lia. auto.
  - destruct (iter_pos_shr_1_inb p mrs num den Hm Hd H). auto.
Qed.

(** ** Mantissas in the format *)

Lemma pre_canon_fexp m e :
  pre_canon m e -> 0 < m -> fexp prec emax (Zdigits2 m + e) = e.
Proof.
  intros (Hm & He & Hn) Hpos. rewrite fexp_eq.
  pose proof (Zdigits2_pos m Hpos) as Hd.
  assert (Hle : Zdigits2 m <= 53) by (apply Zdigits2_le_iff; lia).
  destruct (Z.eq_dec e (-1074)) as [->|Hne]; [lia|].
  assert (53 <= Zdigits2 m) by (apply Zdigits2_ge_iff; try lia; apply Hn; lia).
  lia.
Qed.

Lemma bounded_pre_canon m e :
  bounded prec emax m e = true -> pre_canon (Zpos m) e /\ e <= 971.
Proof.
  unfold bounded, canonical_mantissa. rewrite andb_true_iff, Z.eqb_eq, Z.leb_le.
  change (Z.pos (digits2_pos m)) with (Zdigits2 (Z.pos m)).
  rewrite fexp_eq, emax_eq, prec_eq. intros [Hc He].
  pose proof (Zdigits2_pos (Z.pos m) ltac:(lia)) as Hd.
  assert (Hle : Zdigits2 (Z.pos m) <= 53) by lia.
  apply Zdigits2_le_iff in Hle; try lia.
  split; [|lia]. repeat split; try lia.
  intros Hlt. apply (Zdigits2_ge_iff (Z.pos m) 53); lia.
Qed.

Lemma pre_canon_bounded m e :
  pre_canon (Zpos m) e -> e <= 971 -> bounded prec emax m e = true.
Proof.
  intros Hc He. unfold bounded, canonical_mantissa.
  rewrite andb_true_iff, Z.eqb_eq, Z.leb_le.
  change (Z.pos (digits2_pos m)) with (Zdigits2 (Z.pos m)).
  rewrite (pre_canon_fexp _ _ Hc) by lia. rewrite emax_eq, prec_eq. lia.
Qed.

Lemma shr_m_of_loc m l : shr_m (shr_record_of_loc m l) = m.
Proof. destruct l as [|[| |]]; reflexivity. Qed.

Lemma shr_nonpos mrs e n : n <= 0 -> shr mrs e n = (mrs, e).
Proof. destruct n; try reflexivity; lia. Qed.

Lemma pow2_pos n : 0 <= n -> 0 < 2 ^ n.
Proof. intros; apply Z.pow_pos_nonneg; lia. Qed.

(** ** The three steps of [binary_round_aux]

    The value to round is [num / den] in units of [2 ^ ex], known through
    its integer part [mx] and its location [lx].  The mantissa is assumed to
    carry enough bits: [ex <= fexp (digits mx + ex)]. *)

(** First step: truncation to the target exponent. *)
Lemma shr_fexp_trunc mx ex lx num den :
  0 <= mx -> 0 < den -> inb (shr_record_of_loc mx lx) num den ->
  ex <= fexp prec emax (Zdigits2 mx + ex) ->
  exists mrs e1,
    shr_fexp prec emax mx ex lx = (mrs, e1) /\
    ex <= e1 /\ inb mrs num (2 ^ (e1 - ex) * den) /\ pre_canon (shr_m mrs) e1.
Proof.
  intros Hm Hd Hin HP. unfold shr_fexp.
  set (n := fexp prec emax (Zdigits2 mx + ex) - ex).
  assert (Hn : 0 <= n) by (unfold n; lia).
  pose proof (shr_inb (shr_record_of_loc mx lx) ex n num den) as Hs.
  rewrite shr_m_of_loc in Hs. specialize (Hs Hm Hd Hn Hin).
  destruct (shr (shr_record_of_loc mx lx) ex n) as [mrs e1].
  destruct Hs as (He1 & Hin1 & Hm1).
  exists mrs, e1. split; [reflexivity|].
  replace (e1 - ex) with n by lia.
  split; [lia|]. split; [exact Hin1|].
  pose proof (pow2_pos n Hn) as Hpn.
  rewrite Hm1. unfold n in *. rewrite fexp_eq in *. clear Hin Hin1 Hm1.
  destruct (Z.eq_dec mx 0) as [->|Hnz].
  - rewrite Z.div_0_l by lia. simpl Zdigits2 in *. repeat split; try lia.
  - pose proof (Zdigits2_bounds mx ltac:(lia)) as [Hlo Hhi].
    pose proof (Zdigits2_pos mx ltac:(lia)) as Hdp.
    set (d := Zdigits2 mx) in *.
    set (k := Z.max (d + ex - 53) (-1074) - ex) in *.
    repeat split.
    + apply Z.div_pos; lia.
    + apply Z.div_lt_upper_bound; [lia|].
      rewrite <- Z.pow_add_r by lia.
      eapply Z.lt_le_trans; [exact Hhi|]. apply Z.pow_le_mono_r; lia.
    + lia.
    + intros Hlt. apply Z.div_le_lower_bound; [lia|].
      rewrite <- Z.pow_add_r by lia.
      eapply Z.le_trans; [|exact Hlo]. apply Z.pow_le_mono_r; lia.
Qed.

(** Second step: rounding to nearest, ties to even. *)
Lemma round_nearest_even_inb mrs num den :
  0 < den -> inb mrs num den ->
  shr_m mrs <= round_nearest_even (shr_m mrs) (loc_of_shr_record mrs) <= shr_m mrs + 1 /\
  (num = shr_m mrs * den ->
   round_nearest_even (shr_m mrs) (loc_of_shr_record mrs) = shr_m mrs).
Proof.
  unfold inb. destruct mrs as [m [|] [|]]; cbn [shr_m shr_r shr_s loc_of_shr_record round_nearest_even];
    intros Hd H; try (destruct (Z.even m)); split; intros; lia.
Qed.

(** Third step: one more shift when rounding carried into a new bit. *)
Lemma shr_fexp_renorm m2 e1 :
  0 <= m2 <= 2 ^ 53 -> -1074 <= e1 -> (-1074 < e1 -> 2 ^ 52 <= m2) ->
  exists mrs e3,
    shr_fexp prec emax m2 e1 loc_Exact = (mrs, e3) /\
    pre_canon (shr_m mrs) e3 /\ e1 <= e3 /\ shr_m mrs * 2 ^ (e3 - e1) = m2.
Proof.
  intros Hm He Hn. unfold shr_fexp. cbn [shr_record_of_loc].
  destruct (Z.eq_dec m2 (2 ^ 53)) as [->|Hne].
  - replace (fexp prec emax (Zdigits2 (2 ^ 53) + e1) - e1) with 1
      by (rewrite fexp_eq; change (Zdigits2 (2 ^ 53)) with 54; lia).
    exists (Build_shr_record (2 ^ 52) false false), (e1 + 1).
    split; [reflexivity|]. cbn [shr_m].
    replace (e1 + 1 - e1) with 1 by lia.
    split; [|split; [lia|reflexivity]].
    repeat split; try lia.
  - assert (Hc : pre_canon m2 e1) by (repeat split; try lia; auto).
    exists (Build_shr_record m2 false false), e1. cbn [shr_m].
    rewrite Z.sub_diag, Z.pow_0_r, Z.mul_1_r.
    split; [|split; [exact Hc|split; [lia|reflexivity]]].
    apply shr_nonpos.
    destruct (Z.eq_dec m2 0) as [->|Hnz].
    + rewrite fexp_eq. simpl Zdigits2. lia.
    + rewrite (pre_canon_fexp _ _ Hc) by lia. lia.
Qed.

(** The three steps together. *)
Lemma binary_round_aux_spec mx ex lx num den :
  0 <= mx -> 0 < den -> inb (shr_record_of_loc mx lx) num den ->
  ex <= fexp prec emax (Zdigits2 mx + ex) ->
  exists m1 m2 m3 e1 e3,
    ex <= e1 /\
    m1 * (2 ^ (e1 - ex) * den) <= num < (m1 + 1) * (2 ^ (e1 - ex) * den) /\
    m1 <= m2 <= m1 + 1 /\
    (num = m1 * (2 ^ (e1 - ex) * den) -> m2 = m1) /\
    pre_canon m1 e1 /\ pre_canon m3 e3 /\ e1 <= e3 /\
    m3 * 2 ^ (e3 - e1) = m2 /\
    forall sx,
      binary_round_aux prec emax sx mx ex lx =
      match m3 with
      | 0 => S754_zero sx
      | Zpos p => if e3 <=? 971 then S754_finite sx p e3 else S754_infinity sx
      | Zneg _ => S754_nan
      end.
Proof.
  intros Hm Hd Hin HP.
  destruct (shr_fexp_trunc mx ex lx num den Hm Hd Hin HP)
    as (mrs1 & e1 & E1 & Hle & Hin1 & Hc1).
  assert (HD : 0 < 2 ^ (e1 - ex) * den)
    by (pose proof (pow2_pos (e1 - ex) ltac:(lia)); nia).
  destruct (round_nearest_even_inb mrs1 num _ HD Hin1) as [Hr Hex].
  pose proof (inb_bounds mrs1 num _ HD Hin1) as Hb.
  set (m2 := round_nearest_even (shr_m mrs1) (loc_of_shr_record mrs1)) in *.
  destruct Hc1 as (Hc1a & Hc1b & Hc1c).
  destruct (shr_fexp_renorm m2 e1) as (mrs3 & e3 & E3 & Hc3 & Hle3 & Hv3);
    [lia|lia|intros HH; specialize (Hc1c HH); lia|].
  exists (shr_m mrs1), m2, (shr_m mrs3), e1, e3.
  split; [lia|]. split; [lia|]. split; [lia|]. split; [exact Hex|].
  split; [repeat split; first [assumption|lia]|]. split; [exact Hc3|].
  split; [lia|]. split; [exact Hv3|].
  intros sx. unfold binary_round_aux. rewrite E1. fold m2. rewrite E3.
  reflexivity.
Qed.

(** ** Comparing floats by value

    On mantissas in the format, the lexicographic order of exponent and
    mantissa is the order of the values [m * 2 ^ e]. *)

Lemma pre_canon_lex m e m' e' :
  pre_canon m e -> pre_canon m' e' -> e < e' ->
  m * 2 ^ (e + 1074) < m' * 2 ^ (e' + 1074).
Proof.
  intros (Hm & He & _) (Hm' & He' & Hn') Hlt.
  specialize (Hn' ltac:(lia)).
  pose proof (pow2_pos (e + 1074) ltac:(lia)) as Hp.
  assert (H1 : m * 2 ^ (e + 1074) < 2 ^ 53 * 2 ^ (e + 1074))
    by (apply Z.mul_lt_mono_pos_r; lia).
  assert (H2 : 2 ^ 53 * 2 ^ (e + 1074) <= 2 ^ 52 * 2 ^ (e' + 1074)).
  { rewrite <- !Z.pow_add_r by lia. apply Z.pow_le_mono_r; lia. }
  assert (H3 : 2 ^ 52 * 2 ^ (e' + 1074) <= m' * 2 ^ (e' + 1074))
    by (apply Z.mul_le_mono_nonneg_r; [apply Z.lt_le_incl, pow2_pos|]; lia).
  lia.
Qed.

Lemma SFleb_finite_pos m e m' e' :
  pre_canon (Zpos m) e -> pre_canon (Zpos m') e' ->
  (SFleb (S754_finite false m e) (S754_finite false m' e') = true <->
   Zpos m * 2 ^ (e + 1074) <= Zpos m' * 2 ^ (e' + 1074)).
Proof.
  intros Hc Hc'. unfold SFleb. cbn [SFcompare].
  destruct (Z.compare_spec e e') as [->|Hlt|Hgt].
  - rewrite Pos.compare_cont_spec.
    pose proof (pow2_pos (e' + 1074) ltac:(destruct Hc' as (_ & ? & _); lia)) as Hp.
    destruct (Pos.compare_spec m m') as [->|H|H]; cbn [Pos.switch_Eq];
      split; intros; try congruence; try lia.
    + apply Z.mul_le_mono_nonneg_r; lia.
    + assert (Z.pos m' * 2 ^ (e' + 1074) < Z.pos m * 2 ^ (e' + 1074))
        by (apply Z.mul_lt_mono_pos_r; lia). lia.
  - pose proof (pre_canon_lex _ _ _ _ Hc Hc' Hlt). split; intros; [lia|reflexivity].
  - pose proof (pre_canon_lex _ _ _ _ Hc' Hc Hgt). split; intros; [congruence|lia].
Qed.

(** ** Rounding is monotone

    The rounded float lies on the same side of every positive float [f] of
    the format as the value that was rounded.  Values are compared after
    scaling both by [2 ^ B], with [B] large enough for the exponents. *)

Lemma mul_le_cancel a b c : 0 < c -> a * c <= b * c -> a <= b.
Proof. intros Hc H. apply (Z.mul_le_mono_pos_r a b c Hc). exact H. Qed.

Lemma mul_lt_cancel a b c : 0 < c -> a * c < b * c -> a < b.
Proof. intros Hc H. apply (Z.mul_lt_mono_pos_r c a b Hc). exact H. Qed.

Section Sandwich.
Variables (mx ex : Z) (lx : location) (num den : Z) (mf : positive) (ef B : Z).
Hypothesis Hmx : 0 <= mx.
Hypothesis Hden : 0 < den.
Hypothesis Hin : inb (shr_record_of_loc mx lx) num den.
Hypothesis HP : ex <= fexp prec emax (Zdigits2 mx + ex).
Hypothesis Hf : bounded prec emax mf ef = true.
Hypothesis HB : 0 <= ex + B.
Hypothesis HB' : 1074 <= B.

(** The comparison of the exact value with [f], rescaled to the exponent
    [e1] at which the mantissa is rounded. *)
Lemma rescale_le e1 :
  ex <= e1 -> -1074 <= e1 ->
  num * 2 ^ (ex + B) <= den * (Zpos mf * 2 ^ (ef + B)) ->
  num * 2 ^ (e1 + 1074) <= (2 ^ (e1 - ex) * den) * (Zpos mf * 2 ^ (ef + 1074)).
Proof.
  intros Hle He1 H. destruct (bounded_pre_canon _ _ Hf) as [(_ & Hef & _) _].
  assert (EU : 2 ^ (e1 + 1074) * 2 ^ (B - 1074) = 2 ^ (ex + B) * 2 ^ (e1 - ex))
    by (rewrite <- !Z.pow_add_r by lia; f_equal; lia).
  assert (EW : 2 ^ (ef + 1074) * 2 ^ (B - 1074) = 2 ^ (ef + B))
    by (rewrite <- Z.pow_add_r by lia; f_equal; lia).
  apply (mul_le_cancel _ _ (2 ^ (B - 1074))); [apply pow2_pos; lia|].
  replace (num * 2 ^ (e1 + 1074) * 2 ^ (B - 1074))
    with (num * 2 ^ (ex + B) * 2 ^ (e1 - ex)) by (rewrite <- !Z.mul_assoc, EU; ring).
  replace (2 ^ (e1 - ex) * den * (Z.pos mf * 2 ^ (ef + 1074)) * 2 ^ (B - 1074))
    with (den * (Z.pos mf * 2 ^ (ef + B)) * 2 ^ (e1 - ex)) by (rewrite <- EW; ring).
  apply Z.mul_le_mono_nonneg_r; [apply Z.lt_le_incl, pow2_pos; lia|exact H].
Qed.

Lemma rescale_ge e1 :
  ex <= e1 -> -1074 <= e1 ->
  den * (Zpos mf * 2 ^ (ef + B)) <= num * 2 ^ (ex + B) ->
  (2 ^ (e1 - ex) * den) * (Zpos mf * 2 ^ (ef + 1074)) <= num * 2 ^ (e1 + 1074).
Proof.
  intros Hle He1 H. destruct (bounded_pre_canon _ _ Hf) as [(_ & Hef & _) _].
  assert (EU : 2 ^ (e1 + 1074) * 2 ^ (B - 1074) = 2 ^ (ex + B) * 2 ^ (e1 - ex))
    by (rewrite <- !Z.pow_add_r by lia; f_equal; lia).
  assert (EW : 2 ^ (ef + 1074) * 2 ^ (B - 1074) = 2 ^ (ef + B))
    by (rewrite <- Z.pow_add_r by lia; f_equal; lia).
  apply (mul_le_cancel _ _ (2 ^ (B - 1074))); [apply pow2_pos; lia|].
  replace (num * 2 ^ (e1 + 1074) * 2 ^ (B - 1074))
    with (num * 2 ^ (ex + B) * 2 ^ (e1 - ex)) by (rewrite <- !Z.mul_assoc, EU; ring).
  replace (2 ^ (e1 - ex) * den * (Z.pos mf * 2 ^ (ef + 1074)) * 2 ^ (B - 1074))
    with (den * (Z.pos mf * 2 ^ (ef + B)) * 2 ^ (e1 - ex)) by (rewrite <- EW; ring).
  apply Z.mul_le_mono_nonneg_r; [apply Z.lt_le_incl, pow2_pos; lia|exact H].
Qed.

(** A value at most [f] rounds to a float at most [f]. *)
Theorem round_aux_upper :
  num * 2 ^ (ex + B) <= den * (Zpos mf * 2 ^ (ef + B)) ->
  SFleb (binary_round_aux prec emax false mx ex lx) (S754_finite false mf ef) = true.
Proof.
  intros H.
  destruct (binary_round_aux_spec mx ex lx num den Hmx Hden Hin HP)
    as (m1 & m2 & m3 & e1 & e3 & Hle & Hb & Hr & Hex & Hc1 & Hc3 & Hle3 & Hv & Hres).
  rewrite Hres. clear Hres.
  pose proof (rescale_le e1 Hle ltac:(destruct Hc1 as (_ & ? & _); lia) H) as HV. clear H.
  destruct (bounded_pre_canon _ _ Hf) as [Hcf Hef].
  set (D := 2 ^ (e1 - ex) * den) in *.
  set (W := Z.pos mf * 2 ^ (ef + 1074)) in *.
  set (U := 2 ^ (e1 + 1074)) in *.
  assert (HD : 0 < D) by (pose proof (pow2_pos (e1 - ex) ltac:(lia)); unfold D; nia).
  assert (HU : 0 < U) by (apply pow2_pos; destruct Hc1 as (_ & ? & _); lia).
  assert (Hm2 : m2 * U <= W).
  { destruct (Z.eq_dec m2 m1) as [->|Hne].
    - apply (mul_le_cancel _ _ D HD).
      replace (m1 * U * D) with (m1 * D * U) by ring.
      replace (W * D) with (D * W) by ring.
      eapply Z.le_trans; [|exact HV].
      apply Z.mul_le_mono_nonneg_r; lia.
    - assert (Hm : m2 = m1 + 1) by lia.
      assert (Hlt : m1 * D < num) by (destruct (Z.eq_dec num (m1 * D)); [tauto|lia]).
      assert (H1 : m1 * U < W).
      { apply (mul_lt_cancel _ _ D HD).
        replace (m1 * U * D) with (m1 * D * U) by ring.
        replace (W * D) with (D * W) by ring.
        eapply Z.lt_le_trans; [|exact HV].
        apply Z.mul_lt_mono_pos_r; lia. }
      destruct (Z.lt_ge_cases ef e1) as [Hlt'|Hge].
      + pose proof (pre_canon_lex _ _ _ _ Hcf Hc1 Hlt'). fold W U in H. lia.
      + assert (EW : W = Z.pos mf * 2 ^ (ef - e1) * U).
        { unfold W, U. rewrite <- Z.mul_assoc, <- Z.pow_add_r
            by (destruct Hc1 as (_ & ? & _); lia). do 2 f_equal. lia. }
        rewrite EW in *. apply mul_lt_cancel in H1; [|exact HU].
        subst m2. apply Z.mul_le_mono_nonneg_r; lia. }
  assert (Hm3 : m3 * 2 ^ (e3 + 1074) <= W).
  { replace (m3 * 2 ^ (e3 + 1074)) with (m2 * U); [exact Hm2|].
    rewrite <- Hv. unfold U. rewrite <- Z.mul_assoc, <- Z.pow_add_r
      by (destruct Hc1 as (_ & ? & _); lia). do 2 f_equal. lia. }
  destruct m3 as [|p|p]; [reflexivity| |destruct Hc3 as ((? & _) & _); lia].
  assert (He3 : e3 <= ef).
  { destruct (Z.lt_ge_cases ef e3) as [Hlt'|]; [|lia].
    pose proof (pre_canon_lex _ _ _ _ Hcf Hc3 Hlt'). fold W in H. lia. }
  replace (e3 <=? 971) with true by (symmetry; apply Z.leb_le; lia).
  apply SFleb_finite_pos; assumption.
Qed.

(** A value at least [f] rounds to a float at least [f]. *)
Theorem round_aux_lower :
  den * (Zpos mf * 2 ^ (ef + B)) <= num * 2 ^ (ex + B) ->
  SFleb (S754_finite false mf ef) (binary_round_aux prec emax false mx ex lx) = true.
Proof.
  intros H.
  destruct (binary_round_aux_spec mx ex lx num den Hmx Hden Hin HP)
    as (m1 & m2 & m3 & e1 & e3 & Hle & Hb & Hr & Hex & Hc1 & Hc3 & Hle3 & Hv & Hres).
  rewrite Hres. clear Hres.
  pose proof (rescale_ge e1 Hle ltac:(destruct Hc1 as (_ & ? & _); lia) H) as HV. clear H.
  destruct (bounded_pre_canon _ _ Hf) as [Hcf Hef].
  set (D := 2 ^ (e1 - ex) * den) in *.
  set (W := Z.pos mf * 2 ^ (ef + 1074)) in *.
  set (U := 2 ^ (e1 + 1074)) in *.
  assert (HD : 0 < D) by (pose proof (pow2_pos (e1 - ex) ltac:(lia)); unfold D; nia).
  assert (HU : 0 < U) by (apply pow2_pos; destruct Hc1 as (_ & ? & _); lia).
  assert (HW : 0 < W).
  { unfold W. apply Z.mul_pos_pos; [lia|]. apply pow2_pos.
    destruct Hcf as (_ & ? & _); lia. }
  assert (Hm1 : W <= m1 * U).
  { destruct (Z.lt_ge_cases ef e1) as [Hlt'|Hge].
    - pose proof (pre_canon_lex _ _ _ _ Hcf Hc1 Hlt'). fold W U in H. lia.
    - assert (EW : W = Z.pos mf * 2 ^ (ef - e1) * U).
      { unfold W, U. rewrite <- Z.mul_assoc, <- Z.pow_add_r
          by (destruct Hc1 as (_ & ? & _); lia). do 2 f_equal. lia. }
      rewrite EW in *. apply Z.mul_le_mono_nonneg_r; [lia|].
      set (K := Z.pos mf * 2 ^ (ef - e1)) in *.
      assert (K * D < (m1 + 1) * D).
      { apply (mul_lt_cancel _ _ U HU).
        replace (K * D * U) with (D * (K * U)) by ring.
        eapply Z.le_lt_trans; [exact HV|].
        replace ((m1 + 1) * D * U) with ((m1 + 1) * D * U) by ring.
        apply Z.mul_lt_mono_pos_r; lia. }
      apply mul_lt_cancel in H; lia. }
  assert (Hm3 : W <= m3 * 2 ^ (e3 + 1074)).
  { replace (m3 * 2 ^ (e3 + 1074)) with (m2 * U).
    - eapply Z.le_trans; [exact Hm1|]. apply Z.mul_le_mono_nonneg_r; lia.
    - rewrite <- Hv. unfold U. rewrite <- Z.mul_assoc, <- Z.pow_add_r
        by (destruct Hc1 as (_ & ? & _); lia). do 2 f_equal. lia. }
  destruct m3 as [|p|p]; [lia| |destruct Hc3 as ((? & _) & _); lia].
  destruct (e3 <=? 971); [|reflexivity].
  apply SFleb_finite_pos; assumption.
Qed.

End Sandwich.

(** The result of rounding a non-negative mantissa is never NaN. *)
Theorem round_aux_cases mx ex lx sx :
  0 <= mx -> ex <= fexp prec emax (Zdigits2 mx + ex) ->
  binary_round_aux prec emax sx mx ex lx = S754_zero sx \/
  binary_round_aux prec emax sx mx ex lx = S754_infinity sx \/
  exists m e, binary_round_aux prec emax sx mx ex lx = S754_finite sx m e /\
              bounded prec emax m e = true.
Proof.
  intros Hmx HP.
  assert (Hin : exists num, inb (shr_record_of_loc mx lx) num 4).
  { destruct lx as [|[| |]]; unfold inb; cbn [shr_record_of_loc shr_m shr_r shr_s].
    - exists (mx * 4); lia.
    - exists (4 * mx + 2); lia.
    - exists (4 * mx + 1); lia.
    - exists (4 * mx + 3); lia. }
  destruct Hin as [num Hin].
  destruct (binary_round_aux_spec mx ex lx num 4 Hmx ltac:(lia) Hin HP)
    as (m1 & m2 & m3 & e1 & e3 & Hle & Hb & Hr & Hex & Hc1 & Hc3 & Hle3 & Hv & Hres).
  rewrite Hres. destruct m3 as [|p|p]; [auto| |destruct Hc3 as ((? & _) & _); lia].
  destruct (Z.leb_spec e3 971); [|auto].
  right; right. exists p, e3. split; [reflexivity|]. apply pre_canon_bounded; assumption.
Qed.

(** ** The operations

    [binary_round], addition, division and multiplication, each reduced to
    [binary_round_aux] on an exact value. *)

Lemma binary_round_aux_opp mx ex lx :
  binary_round_aux prec emax true mx ex lx =
  SFopp (binary_round_aux prec emax false mx ex lx).
Proof.
  unfold binary_round_aux.
  destruct (shr_fexp prec emax mx ex lx) as [mrs' e'].
  destruct (shr_fexp prec emax _ e' loc_Exact) as [mrs'' e''].
  destruct (shr_m mrs'') as [|p|p]; try reflexivity.
  destruct (e'' <=? emax - prec); reflexivity.
Qed.

Lemma iter_xO m d : Z.pos (Pos.iter xO m d) = Z.pos m * 2 ^ Z.pos d.
Proof.
  induction d as [|d IH] using Pos.peano_ind.
  - simpl Pos.iter. lia.
  - rewrite Pos.iter_succ, Pos2Z.inj_xO, IH, Pos2Z.inj_succ, Z.pow_succ_r by lia. ring.
Qed.

Lemma shl_align_spec mx ex ex' :
  let '(mz, ez) := shl_align mx ex ex' in
  ez = Z.min ex ex' /\ Z.pos mz = Z.pos mx * 2 ^ (ex - ez).
Proof.
  unfold shl_align. destruct (ex' - ex) as [|d|d] eqn:E.
  - split; [lia|]. rewrite Z.sub_diag. lia.
  - split; [lia|]. rewrite Z.sub_diag. lia.
  - split; [lia|]. rewrite iter_xO. f_equal. f_equal. lia.
Qed.

Lemma Zdigits2_mul_pow2 m k :
  0 < m -> 0 <= k -> Zdigits2 (m * 2 ^ k) = Zdigits2 m + k.
Proof.
  intros Hm Hk. pose proof (pow2_pos k Hk).
  rewrite !Zdigits2_log2 by nia. rewrite Z.log2_mul_pow2 by lia. lia.
Qed.

(** [binary_round] first widens the mantissa, then rounds it. *)
Lemma binary_round_spec sx mx ex :
  exists mz ez,
    binary_round prec emax sx mx ex = binary_round_aux prec emax sx (Z.pos mz) ez loc_Exact /\
    ez <= ex /\ Z.pos mz = Z.pos mx * 2 ^ (ex - ez) /\
    ez <= fexp prec emax (Zdigits2 (Z.pos mz) + ez) /\
    Z.min ex (-1074) <= ez.
Proof.
  unfold binary_round.
  pose proof (shl_align_spec mx ex (fexp prec emax (Z.pos (digits2_pos mx) + ex))) as H.
  destruct (shl_align mx ex _) as [mz ez]. destruct H as [He Hm].
  exists mz, ez. split; [reflexivity|]. split; [lia|]. split; [exact Hm|].
  rewrite Hm, Zdigits2_mul_pow2 by lia.
  change (Z.pos (digits2_pos mx)) with (Zdigits2 (Z.pos mx)) in He.
  rewrite fexp_eq in *. lia.
Qed.

Lemma inb_exact_intro m : inb (shr_record_of_loc m loc_Exact) m 1.
Proof. unfold inb. cbn. lia. Qed.

(** *** Addition: a positive constant does not decrease a float *)

Lemma SFleb_neg_nonneg m e r :
  (r = S754_zero false \/ r = S754_infinity false \/
   exists m' e', r = S754_finite false m' e' /\ bounded prec emax m' e' = true) ->
  SFleb (S754_finite true m e) r = true.
Proof. intros [->|[->|(m' & e' & -> & _)]]; reflexivity. Qed.

Lemma SFleb_opp x y : SFleb x y = true -> SFleb (SFopp y) (SFopp x) = true.
Proof. unfold SFleb. rewrite SFcompare_opp. auto. Qed.

Theorem SFadd_pos_ge x mc ec :
  valid_binary x = true -> x <> S754_nan ->
  bounded prec emax mc ec = true ->
  SFleb x (SFadd prec emax x (S754_finite false mc ec)) = true.
Proof.
  intros Hx Hnan Hc.
  destruct x as [s|s| |sx mx ex]; try congruence.
  - destruct s; reflexivity.
  - destruct s; reflexivity.
  - cbn [SFadd valid_binary] in *.
    destruct (bounded_pre_canon _ _ Hx) as [Hcx Hex].
    destruct (bounded_pre_canon _ _ Hc) as [Hcc Hec].
    pose proof (shl_align_spec mx ex (Z.min ex ec)) as Hax.
    pose proof (shl_align_spec mc ec (Z.min ex ec)) as Hac.
    destruct (shl_align mx ex (Z.min ex ec)) as [mx' ex'].
    destruct (shl_align mc ec (Z.min ex ec)) as [mc' ec'].
    cbn [fst]. destruct Hax as [Hex' Hmx'], Hac as [Hec' Hmc'].
    set (ez := Z.min ex ec) in *.
    replace ex' with ez in * by lia. replace ec' with ez in * by lia.
    destruct Hcx as (_ & Hexl & _), Hcc as (_ & Hecl & _).
    destruct sx; cbn [cond_Zopp].
    + (* negative x *)
      destruct (- Z.pos mx' + Z.pos mc') as [|M|M] eqn:EM; cbn [binary_normalize].
      * reflexivity.
      * destruct (binary_round_spec false M ez) as (mz & ez' & -> & _ & _ & HP & _).
        apply SFleb_neg_nonneg. apply round_aux_cases; [lia|exact HP].
      * destruct (binary_round_spec true M ez) as (mz & ez' & -> & Hle & Hmz & HP & Hlo).
        rewrite binary_round_aux_opp.
        change (S754_finite true mx ex) with (SFopp (S754_finite false mx ex)).
        apply SFleb_opp.
        apply (round_aux_upper (Z.pos mz) ez' loc_Exact (Z.pos mz) 1 mx ex 1074);
          try lia; try assumption; [apply inb_exact_intro|].
        rewrite Hmz, Z.mul_1_l, <- Z.mul_assoc, <- Z.pow_add_r by lia.
        replace (ez - ez' + (ez' + 1074)) with (ez + 1074) by lia.
        assert (E : Z.pos M = Z.pos mx' - Z.pos mc') by lia.
        rewrite E, Hmx', Hmc'.
        rewrite Z.mul_sub_distr_r, <- !Z.mul_assoc, <- !Z.pow_add_r by lia.
        replace (ex - ez + (ez + 1074)) with (ex + 1074) by lia.
        pose proof (pow2_pos (ec - ez + (ez + 1074)) ltac:(lia)). nia.
    + (* positive x *)
      assert (EM : exists M, Z.pos mx' + Z.pos mc' = Z.pos M) by (exists (mx' + mc')%positive; lia).
      destruct EM as [M EM]. rewrite EM. cbn [binary_normalize].
      destruct (binary_round_spec false M ez) as (mz & ez' & -> & Hle & Hmz & HP & Hlo).
      apply (round_aux_lower (Z.pos mz) ez' loc_Exact (Z.pos mz) 1 mx ex 1074);
        try lia; try assumption; [apply inb_exact_intro|].
      rewrite Hmz, Z.mul_1_l, <- Z.mul_assoc, <- Z.pow_add_r by lia.
      replace (ez - ez' + (ez' + 1074)) with (ez + 1074) by lia.
      rewrite <- EM, Hmx', Hmc'.
      rewrite Z.mul_add_distr_r, <- !Z.mul_assoc, <- !Z.pow_add_r by lia.
      replace (ex - ez + (ez + 1074)) with (ex + 1074) by lia.
      pose proof (pow2_pos (ec - ez + (ez + 1074)) ltac:(lia)). nia.
Qed.

(** *** Division *)

Lemma new_location_inb q r my :
  0 < my -> 0 <= r < my ->
  inb (shr_record_of_loc q (new_location my r)) (q * my + r) my.
Proof.
  intros Hmy Hr. unfold new_location, new_location_even, new_location_odd.
  destruct (Z.even my) eqn:Ev.
  - destruct (Z.eqb_spec r 0) as [->|Hnz].
    + unfold inb; cbn [shr_record_of_loc shr_m shr_r shr_s]; lia.
    + destruct (Z.compare_spec (2 * r) my); unfold inb; cbn [shr_record_of_loc shr_m shr_r shr_s]; lia.
  - assert (Hodd : my <> 2 * r).
    { intros ->. rewrite Z.even_mul in Ev. discriminate. }
    destruct (Z.eqb_spec r 0) as [->|Hnz].
    + unfold inb; cbn [shr_record_of_loc shr_m shr_r shr_s]; lia.
    + destruct (Z.compare_spec (2 * r + 1) my); unfold inb; cbn [shr_record_of_loc shr_m shr_r shr_s]; lia.
Qed.

Lemma shift_mantissa m s :
  0 <= s ->
  match s with Z.pos _ => Z.shiftl m s | 0 => m | Z.neg _ => 0 end = m * 2 ^ s.
Proof.
  intros Hs. destruct s as [|p|p]; try lia.
  apply Z.shiftl_mul_pow2. lia.
Qed.

Lemma SFdiv_core_binary_spec mx ex my ey :
  exists q e' l s,
    SFdiv_core_binary prec emax (Z.pos mx) ex (Z.pos my) ey = (q, e', l) /\
    0 <= q /\ 0 <= s /\ e' = ex - ey - s /\
    inb (shr_record_of_loc q l) (Z.pos mx * 2 ^ s) (Z.pos my) /\
    e' <= fexp prec emax (Zdigits2 q + e') /\
    Z.min (-1074) (ex - ey) <= e'.
Proof.
  unfold SFdiv_core_binary.
  set (d1 := Zdigits2 (Z.pos mx)). set (d2 := Zdigits2 (Z.pos my)).
  set (e' := Z.min (fexp prec emax (d1 + ex - (d2 + ey))) (ex - ey)).
  set (s := ex - ey - e').
  assert (Hs : 0 <= s) by (unfold s, e'; lia).
  set (m' := match s with Z.pos _ => Z.shiftl (Z.pos mx) s | 0 => Z.pos mx | Z.neg _ => 0 end).
  assert (Hm' : m' = Z.pos mx * 2 ^ s) by (apply shift_mantissa; exact Hs).
  pose proof (Z_div_mod m' (Z.pos my) ltac:(lia)) as Hdm.
  destruct (Z.div_eucl m' (Z.pos my)) as [q r]. destruct Hdm as [Hq Hr].
  pose proof (pow2_pos s Hs) as Hps.
  assert (Hq0 : 0 <= q) by nia.
  exists q, e', (new_location (Z.pos my) r), s.
  split; [reflexivity|]. split; [exact Hq0|]. split; [exact Hs|]. split; [unfold s; lia|].
  split; [|split; [|unfold e'; rewrite fexp_eq; lia]].
  - rewrite <- Hm', Hq. replace (Z.pos my * q + r) with (q * Z.pos my + r) by ring.
    apply new_location_inb; lia.
  - assert (Hd : d1 + s - d2 <= Zdigits2 q).
    { destruct (Z.le_gt_cases (d1 + s - d2) 0) as [Hle|Hgt].
      - destruct (Z.eq_dec q 0) as [->|Hnz]; [change (Zdigits2 0) with 0; lia|].
        pose proof (Zdigits2_pos q ltac:(lia)). lia.
      - pose proof (Zdigits2_bounds (Z.pos mx) ltac:(lia)) as [Hlo1 _].
        pose proof (Zdigits2_bounds (Z.pos my) ltac:(lia)) as [_ Hhi2].
        pose proof (Zdigits2_pos (Z.pos mx) ltac:(lia)) as Hd1.
        pose proof (Zdigits2_pos (Z.pos my) ltac:(lia)) as Hd2.
        fold d1 in Hlo1, Hd1. fold d2 in Hhi2, Hd2.
        assert (Hqk : 2 ^ (d1 + s - d2 - 1) <= q).
        { assert (Hk : 2 ^ d2 * 2 ^ (d1 + s - d2 - 1) <= m').
          { rewrite <- Z.pow_add_r by lia. rewrite Hm'.
            replace (d2 + (d1 + s - d2 - 1)) with ((d1 - 1) + s) by lia.
            rewrite Z.pow_add_r by lia. apply Z.mul_le_mono_nonneg_r; lia. }
          pose proof (pow2_pos (d1 + s - d2 - 1) ltac:(lia)) as Hpk.
          assert (Z.pos my * 2 ^ (d1 + s - d2 - 1) < Z.pos my * (q + 1)) by nia.
          assert (2 ^ (d1 + s - d2 - 1) < q + 1) by (apply (Z.mul_lt_mono_pos_l (Z.pos my)); lia).
          lia. }
        pose proof (pow2_pos (d1 + s - d2 - 1) ltac:(lia)) as Hpk.
        apply Zdigits2_ge_iff; lia. }
    unfold e' at 1. rewrite !fexp_eq. unfold s in Hd.
    assert (e' <= ex - ey) by (unfold e'; lia). lia.
Qed.

(** *** Quotients and products below one *)

Lemma SFleb_total x y :
  x <> S754_nan -> y <> S754_nan -> SFltb y x = false -> SFleb x y = true.
Proof.
  unfold SFltb, SFleb. rewrite (SFcompare_swap x y).
  destruct x, y; try congruence; cbn [SFcompare option_map];
    repeat match goal with |- context [if ?b then _ else _] => destruct b end;
    cbn [CompOpp]; try congruence;
    match goal with |- context [Z.compare ?a ?b] => destruct (Z.compare a b) end;
    cbn [CompOpp]; try congruence;
    match goal with |- context [Pos.compare_cont ?c ?a ?b] => destruct (Pos.compare_cont c a b) end;
    cbn [CompOpp]; congruence.
Qed.

(** A positive float divided by one at least as large is at most one. *)
Theorem SFdiv_le_one mx ex my ey :
  bounded prec emax mx ex = true -> bounded prec emax my ey = true ->
  SFleb (S754_finite false mx ex) (S754_finite false my ey) = true ->
  SFleb (SFdiv prec emax (S754_finite false mx ex) (S754_finite false my ey)) SFone = true.
Proof.
  intros Hx Hy Hle. cbn [SFdiv xorb].
  destruct (SFdiv_core_binary_spec mx ex my ey)
    as (q & e' & l & s & -> & Hq & Hs & He' & Hin & HP & Hlo).
  destruct (bounded_pre_canon _ _ Hx) as [Hcx Hex].
  destruct (bounded_pre_canon _ _ Hy) as [Hcy Hey].
  apply (SFleb_finite_pos _ _ _ _ Hcx Hcy) in Hle.
  destruct Hcx as (_ & Hexl & _), Hcy as (_ & Heyl & _).
  apply (round_aux_upper q e' l (Z.pos mx * 2 ^ s) (Z.pos my) (2 ^ 52) (-52) 4000);
    try lia; try assumption; [reflexivity|].
  change (Z.pos (2 ^ 52) * 2 ^ (-52 + 4000)) with (2 ^ 4000).
  replace (Z.pos mx * 2 ^ s * 2 ^ (e' + 4000))
    with (Z.pos mx * 2 ^ (ex + 1074) * 2 ^ (2926 - ey))
    by (rewrite <- !Z.mul_assoc, <- !Z.pow_add_r by lia; do 2 f_equal; lia).
  replace (Z.pos my * 2 ^ 4000)
    with (Z.pos my * 2 ^ (ey + 1074) * 2 ^ (2926 - ey))
    by (rewrite <- !Z.mul_assoc, <- !Z.pow_add_r by lia; do 2 f_equal; lia).
  apply Z.mul_le_mono_nonneg_r; [apply Z.lt_le_incl, pow2_pos; lia|exact Hle].
Qed.

Lemma mul_round_precondition mx ex my ey :
  pre_canon (Z.pos mx) ex -> pre_canon (Z.pos my) ey ->
  ex + ey <= fexp prec emax (Zdigits2 (Z.pos (mx * my)) + (ex + ey)).
Proof.
  intros (Hmx & Hex & Hnx) (Hmy & Hey & Hny). rewrite fexp_eq, Pos2Z.inj_mul.
  set (d := Zdigits2 (Z.pos mx * Z.pos my)).
  assert (Hd : 0 < d) by (apply Zdigits2_pos; lia).
  destruct (Z.eq_dec ex (-1074)) as [Ex|Ex], (Z.eq_dec ey (-1074)) as [Ey|Ey]; try lia.
  - specialize (Hny ltac:(lia)).
    assert (53 <= d); [|lia].
    apply Zdigits2_ge_iff; [lia|lia|]. change (2 ^ (53 - 1)) with (1 * 2 ^ 52).
    apply Z.mul_le_mono_nonneg; lia.
  - specialize (Hnx ltac:(lia)).
    assert (53 <= d); [|lia].
    apply Zdigits2_ge_iff; [lia|lia|]. change (2 ^ (53 - 1)) with (2 ^ 52 * 1).
    apply Z.mul_le_mono_nonneg; lia.
  - specialize (Hnx ltac:(lia)). specialize (Hny ltac:(lia)).
    assert (105 <= d); [|lia].
    apply Zdigits2_ge_iff; [lia|lia|].
    change (2 ^ (105 - 1)) with (2 ^ 52 * 2 ^ 52).
    apply Z.mul_le_mono_nonneg; lia.
Qed.

(** A float in [[0, 1]] times a positive float [y] is at most [y]. *)
Theorem SFmul_le ma ea my ey :
  bounded prec emax ma ea = true -> bounded prec emax my ey = true ->
  SFleb (S754_finite false ma ea) SFone = true ->
  SFleb (SFmul prec emax (S754_finite false ma ea) (S754_finite false my ey))
        (S754_finite false my ey) = true.
Proof.
  intros Ha Hy Hle. cbn [SFmul xorb].
  destruct (bounded_pre_canon _ _ Ha) as [Hca Hea].
  destruct (bounded_pre_canon _ _ Hy) as [Hcy Hey].
  assert (Hc1 : pre_canon (Z.pos (2 ^ 52)) (-52)) by (apply bounded_pre_canon; reflexivity).
  apply (SFleb_finite_pos _ _ _ _ Hca Hc1) in Hle.
  pose proof (mul_round_precondition _ _ _ _ Hca Hcy) as HP.
  destruct Hca as (_ & Heal & _), Hcy as (_ & Heyl & _).
  apply (round_aux_upper (Z.pos (ma * my)) (ea + ey) loc_Exact (Z.pos (ma * my)) 1 my ey 4000);
    try lia; try assumption; [apply inb_exact_intro|].
  rewrite Pos2Z.inj_mul, Z.mul_1_l.
  change (Z.pos (2 ^ 52) * 2 ^ (-52 + 1074)) with (2 ^ 1074) in Hle.
  replace (ea + ey + 4000) with ((ea + 1074) + (ey + 2926)) by lia.
  rewrite Z.pow_add_r by lia.
  replace (2 ^ (ey + 4000)) with (2 ^ 1074 * 2 ^ (ey + 2926))
    by (rewrite <- Z.pow_add_r by lia; f_equal; lia).
  pose proof (pow2_pos (ey + 2926) ltac:(lia)).
  set (P := 2 ^ (ey + 2926)) in *. set (Q := 2 ^ (ea + 1074)) in *.
  set (T := 2 ^ 1074) in *.
  assert (Z.pos ma * Q * P <= T * P) by (apply Z.mul_le_mono_nonneg_r; lia).
  assert (Z.pos my * (Z.pos ma * Q * P) <= Z.pos my * (T * P))
    by (apply Z.mul_le_mono_nonneg_l; lia).
  lia.
Qed.

End Binary64.

(** The same facts on the primitive floats of the embedding. *)
Module Float64.
Import Rounding Binary64 EDUConstants.

(** ** Comparisons *)

Lemma SFcompare_refl x : x <> S754_nan -> SFcompare x x = Some Eq.
Proof.
  destruct x as [s|s| |s m e]; try congruence; intros _; cbn [SFcompare];
    try (destruct s; reflexivity).
  rewrite Z.compare_refl, Pos.compare_cont_refl. destruct s; reflexivity.
Qed.

Lemma is_nan_false x : is_nan x = false <-> Prim2SF x <> S754_nan.
Proof.
  unfold is_nan. rewrite FloatAxioms.eqb_spec. unfold SFeqb. split.
  - intros H E. rewrite E in H. discriminate.
  - intros H. rewrite (SFcompare_refl _ H). reflexivity.
Qed.

Lemma leb_trans x y z : (x <=? y) = true -> (y <=? z) = true -> (x <=? z) = true.
Proof. rewrite !leb_spec. apply SFleb_trans. Qed.

Lemma ltb_leb x y : (x <? y) = true -> (x <=? y) = true.
Proof. rewrite ltb_spec, leb_spec. apply SFltb_SFleb. Qed.

Lemma leb_refl x : is_nan x = false -> (x <=? x) = true.
Proof. rewrite is_nan_false, leb_spec. apply SFleb_refl. Qed.

Lemma leb_not_nan_l x y : (x <=? y) = true -> is_nan x = false.
Proof. rewrite leb_spec, is_nan_false. apply SFleb_not_nan_l. Qed.

Lemma leb_not_nan_r x y : (x <=? y) = true -> is_nan y = false.
Proof. rewrite leb_spec, is_nan_false. apply SFleb_not_nan_r. Qed.

Lemma leb_ltb_false x y : (x <=? y) = true -> (y <? x) = false.
Proof. rewrite ltb_spec, leb_spec. apply SFleb_SFltb_false. Qed.

Lemma ltb_false_leb x y :
  is_nan x = false -> is_nan y = false -> (y <? x) = false -> (x <=? y) = true.
Proof. rewrite !is_nan_false, ltb_spec, leb_spec. apply SFleb_total. Qed.

(** ** Arithmetic *)

(** Adding a positive finite constant never decreases a float. *)
Lemma add_pos_ge x c mc ec :
  Prim2SF c = S754_finite false mc ec ->
  is_nan x = false -> (x <=? x + c) = true.
Proof.
  intros Ec Hx. rewrite leb_spec, add_spec, Ec. unfold SF64add.
  pose proof (Prim2SF_valid c) as Hc. rewrite Ec in Hc.
  apply SFadd_pos_ge; [apply Prim2SF_valid|apply is_nan_false; exact Hx|exact Hc].
Qed.

(** The modulation component lies between 0 and pi. *)
Lemma SF_modulation a my ey mp ep :
  valid_binary a = true ->
  bounded prec emax my ey = true -> bounded prec emax mp ep = true ->
  SFleb (S754_zero false) a = true ->
  SFleb a (S754_finite false my ey) = true ->
  let m := SFmul prec emax (SFdiv prec emax a (S754_finite false my ey))
             (S754_finite false mp ep) in
  SFleb (S754_zero false) m = true /\ SFleb m (S754_finite false mp ep) = true.
Proof.
  intros Ha Hy Hp H0 Hle.
  destruct a as [s|s| |s mx ex]; try discriminate.
  - cbn. split; reflexivity.
  - destruct s; discriminate.
  - destruct s; [discriminate|]. cbn [valid_binary] in Ha.
    pose proof (SFdiv_le_one mx ex my ey Ha Hy Hle) as H1.
    cbn [SFdiv xorb] in *.
    destruct (SFdiv_core_binary_spec mx ex my ey)
      as (q & e' & l & s & E & Hq & Hs & He' & Hin & HP & Hlo).
    rewrite E in *.
    destruct (round_aux_cases q e' l false Hq HP) as [R|[R|(mq & eq & R & Hb)]];
      rewrite R in *; cbv zeta.
    + cbn. split; reflexivity.
    + discriminate.
    + split; [|apply SFmul_le; assumption].
      cbn [SFmul xorb].
      destruct (bounded_pre_canon _ _ Hb) as [Hcq _].
      destruct (bounded_pre_canon _ _ Hp) as [Hcp _].
      pose proof (mul_round_precondition _ _ _ _ Hcq Hcp) as HP'.
      destruct (round_aux_cases (Z.pos (mq * mp)) (eq + ep) loc_Exact false ltac:(lia) HP')
        as [R'|[R'|(m' & e'' & R' & _)]]; rewrite R'; reflexivity.
Qed.

Lemma modulation_bounds A :
  (0 <=? A) = true ->
  (0 <=? Py.min A 255 / 255 * PI) = true /\ (Py.min A 255 / 255 * PI <=? PI) = true.
Proof.
  intros H0. unfold Py.min. destruct (255 <? A) eqn:Hlt.
  - split; vm_compute; reflexivity.
  - assert (Hle : (A <=? 255) = true).
    { apply ltb_false_leb; [|reflexivity|exact Hlt]. eapply leb_not_nan_r; exact H0. }
    rewrite !leb_spec, mul_spec, div_spec in *.
    change (Prim2SF 0) with (S754_zero false) in *.
    change (Prim2SF 255) with (S754_finite false 8972014882652160 (-45)) in *.
    change (Prim2SF PI) with (S754_finite false 7074237752028440 (-51)).
    apply SF_modulation; try reflexivity; try assumption. apply Prim2SF_valid.
Qed.

(** ** Floats that compare equal *)

Lemma SFcompare_Eq_finite x s m e :
  SFcompare x (S754_finite s m e) = Some Eq -> x = S754_finite s m e.
Proof.
  destruct x as [s'|s'| |s' m' e']; cbn [SFcompare]; try discriminate;
    try (destruct s; discriminate); try (destruct s'; discriminate).
  destruct s', s; try discriminate;
    destruct (Z.compare_spec e' e); try discriminate; subst;
    rewrite Pos.compare_cont_spec; cbn [Pos.switch_Eq];
    destruct (Pos.compare_spec m' m); cbn [CompOpp]; try discriminate; subst; reflexivity.
Qed.

Lemma SFcompare_Eq_zero x s :
  SFcompare x (S754_zero s) = Some Eq -> exists s', x = S754_zero s'.
Proof.
  destruct x as [s'|s'| |s' m' e']; cbn [SFcompare]; try discriminate;
    try (destruct s'; discriminate).
  intros _. exists s'. reflexivity.
Qed.

Lemma ltb_not_nan_r x y : (x <? y) = true -> is_nan y = false.
Proof. intros H. apply ltb_leb in H. eapply leb_not_nan_r; exact H. Qed.

Lemma eqb_refl x : is_nan x = false -> (x =? x) = true.
Proof. unfold is_nan. destruct (x =? x); [reflexivity|discriminate]. Qed.

(** Floats that compare equal to a non-zero finite float are that float. *)
Lemma not_lt_not_gt_eq x y s m e :
  Prim2SF y = S754_finite s m e ->
  is_nan x = false -> (x <? y) = false -> (y <? x) = false -> x = y.
Proof.
  intros Ey Hx H1 H2. apply Prim2SF_inj. rewrite Ey.
  apply SFcompare_Eq_finite. rewrite <- Ey.
  apply is_nan_false in Hx. rewrite ltb_spec in H1, H2.
  unfold SFltb in *. rewrite (SFcompare_swap (Prim2SF x) (Prim2SF y)) in H2.
  destruct (SFcompare (Prim2SF x) (Prim2SF y)) as [[| |]|] eqn:E;
    try reflexivity; try discriminate.
  exfalso. rewrite Ey in E. destruct (Prim2SF x); try congruence; discriminate.
Qed.

(** A float that is neither above nor below zero is one of the two zeros. *)
Lemma zero_cases x :
  (0 <=? x) = true -> (0 <? x) = false -> x = 0 \/ x = (-0).
Proof.
  rewrite leb_spec, ltb_spec. unfold SFleb, SFltb.
  change (Prim2SF 0) with (S754_zero false). intros H1 H2.
  assert (E : SFcompare (Prim2SF x) (S754_zero false) = Some Eq).
  { rewrite (SFcompare_swap (S754_zero false)).
    destruct (SFcompare (S754_zero false) (Prim2SF x)) as [[| |]|];
      try discriminate; reflexivity. }
  destruct (SFcompare_Eq_zero _ _ E) as [[|] Hs]; [right|left];
    apply Prim2SF_inj; rewrite Hs; reflexivity.
Qed.

(** Multiplication of floats is commutative. *)
Lemma SFmul_comm x y : SFmul prec emax x y = SFmul prec emax y x.
Proof.
  destruct x as [sx|sx| |sx mx ex], y as [sy|sy| |sy my ey]; cbn [SFmul];
    try reflexivity; try (rewrite (xorb_comm sx sy); reflexivity).
  rewrite (xorb_comm sx sy), (Pos.mul_comm mx my), (Z.add_comm ex ey). reflexivity.
Qed.

Lemma mul_comm x y : x * y = y * x.
Proof. apply Prim2SF_inj. rewrite !mul_spec. apply SFmul_comm. Qed.

(** ** Conversion of integers *)

Lemma binary_normalize_valid z :
  valid_binary (binary_normalize prec emax z 0 false) = true.
Proof.
  destruct z as [|p|p]; cbn [binary_normalize]; [reflexivity| |].
  - destruct (binary_round_spec false p 0) as (mz & ez & -> & _ & _ & HP & _).
    destruct (round_aux_cases (Z.pos mz) ez loc_Exact false ltac:(lia) HP)
      as [->|[->|(m & e & -> & Hb)]]; [reflexivity|reflexivity|exact Hb].
  - destruct (binary_round_spec true p 0) as (mz & ez & -> & _ & _ & HP & _).
    destruct (round_aux_cases (Z.pos mz) ez loc_Exact true ltac:(lia) HP)
      as [->|[->|(m & e & -> & Hb)]]; [reflexivity|reflexivity|exact Hb].
Qed.

Lemma Prim2SF_float_of_int z :
  Prim2SF (Py.float_of_int z) = binary_normalize prec emax z 0 false.
Proof. apply Prim2SF_SF2Prim, binary_normalize_valid. Qed.

(** A positive integer converts to a float that is at least one. *)
Lemma float_of_int_ge_one z : (1 <= z)%Z -> (1 <=? Py.float_of_int z) = true.
Proof.
  intros Hz. rewrite leb_spec, Prim2SF_float_of_int.
  change (Prim2SF 1) with (S754_finite false (2 ^ 52) (-52)).
  destruct z as [|p|p]; try lia. cbn [binary_normalize].
  destruct (binary_round_spec false p 0) as (mz & ez & -> & Hle & Hm & HP & Hlo).
  apply (round_aux_lower (Z.pos mz) ez loc_Exact (Z.pos mz) 1 (2 ^ 52) (-52) 1074);
    try lia; try assumption; try reflexivity; [apply inb_exact_intro|].
  rewrite Hm, Z.mul_1_l, <- Z.mul_assoc, <- Z.pow_add_r by lia.
  replace (0 - ez + (ez + 1074))%Z with 1074%Z by lia.
  change (Z.pos (2 ^ 52) * 2 ^ (-52 + 1074))%Z with (1 * 2 ^ 1074)%Z.
  apply Z.mul_le_mono_nonneg_r; lia.
Qed.

Lemma float_of_int_pos z : (1 <= z)%Z -> (Py.float_of_int z <=? 0) = false.
Proof.
  intros Hz. destruct (Py.float_of_int z <=? 0) eqn:E; [|reflexivity].
  pose proof (leb_trans _ _ _ (float_of_int_ge_one z Hz) E) as H.
  vm_compute in H. discriminate.
Qed.

(** The integers from 0 to 255 convert to floats from 0 to 255. *)
Lemma float_of_int_byte z :
  (0 <= z <= 255)%Z ->
  (Py.float_of_int z <? 0) = false /\ (255 <? Py.float_of_int z) = false.
Proof.
  intros Hz.
  assert (H : forallb (fun n => negb (Py.float_of_int (Z.of_nat n) <? 0)
                                && negb (255 <? Py.float_of_int (Z.of_nat n)))
                (seq 0 256) = true) by (vm_compute; reflexivity).
  rewrite forallb_forall in H. specialize (H (Z.to_nat z)).
  rewrite Z2Nat.id in H by lia.
  assert (Hin : In (Z.to_nat z) (seq 0 256)) by (apply in_seq; lia).
  specialize (H Hin). apply andb_true_iff in H. destruct H as [H1 H2].
  split; [destruct (_ <? 0)|destruct (255 <? _)]; try reflexivity; discriminate.
Qed.

End Float64.

(** * The claims of the specification *)

Import Py EDUConstants EDUFormula EDUAI Float64.

(** ** The transform *)

Lemma calculate_ok (A X : float) :
  fle 0 A -> flt 0 X ->
  calculate A X = Ok (Py.min A 255 / 255 * PI, 406.4 / X).
Proof.
  unfold fle, flt, calculate. intros HA HX.
  assert (E1 : (X <=? 0) = false).
  { destruct (X <=? 0) eqn:E; [|reflexivity].
    apply leb_ltb_false in E. congruence. }
  rewrite E1, (leb_ltb_false _ _ HA). reflexivity.
Qed.

(** C1. For every amplitude [A >= 0] and frequency [X > 0], [calculate A X]
    returns the modulation [(min(A, 255) / 255) * pi], which lies in
    [[0, pi]], and the scaling [406.4 / X]; [calculate] raises [ValueError]
    exactly when [X <= 0] or [A < 0]; and [calculate 300 X] equals
    [calculate 255 X]. *)
Theorem calculate_spec (A X : float) :
  (fle 0 A -> flt 0 X ->
   calculate A X = Ok (Py.min A 255 / 255 * PI, 406.4 / X) /\
   fle 0 (Py.min A 255 / 255 * PI) /\
   fle (Py.min A 255 / 255 * PI) PI) /\
  ((exists msg, calculate A X = Raise (ValueError msg)) <-> fle X 0 \/ flt A 0) /\
  calculate 300 X = calculate 255 X.
Proof.
  split; [|split].
  - intros HA HX. split; [apply calculate_ok; assumption|].
    apply modulation_bounds. exact HA.
  - unfold fle, flt, calculate.
    destruct (X <=? 0); [split; [auto|eauto]|].
    destruct (A <? 0); [split; [auto|eauto]|].
    split; [intros [msg H]; discriminate|intros [H|H]; discriminate].
  - unfold calculate. destruct (X <=? 0); reflexivity.
Qed.

Lemma calculate_pairs_ok (As Xs : list float) :
  List.length As = List.length Xs ->
  Forall (fle 0) As -> Forall (flt 0) Xs ->
  exists rs,
    calculate_pairs As Xs = Ok rs /\
    map (fun '(A, X) => calculate A X) (combine As Xs) = map Ok rs /\
    rs = map (fun '(A, X) => (Py.min A 255 / 255 * PI, 406.4 / X)) (combine As Xs).
Proof.
  revert Xs. induction As as [|A As IH]; intros [|X Xs] Hlen HA HX;
    try discriminate.
  - exists []. repeat split.
  - inversion HA as [|? ? HA1 HA2]; inversion HX as [|? ? HX1 HX2]; subst.
    destruct (IH Xs ltac:(simpl in Hlen; congruence) HA2 HX2) as (rs & E & Hm & Hr).
    exists ((Py.min A 255 / 255 * PI, 406.4 / X) :: rs).
    cbn [calculate_pairs combine map]. rewrite (calculate_ok A X HA1 HX1), E, Hm, Hr.
    repeat split.
Qed.

(** [np.clip] and [min] clamp a valid amplitude alike. *)
Lemma clip_min (A : float) :
  fle 0 A -> np_clip A 0 NORMALIZATION_FACTOR = Py.min A 255.
Proof.
  unfold fle. intros HA.
  unfold np_clip, Py.min, NORMALIZATION_FACTOR.
  rewrite (leb_ltb_false _ _ HA). reflexivity.
Qed.

Lemma clip_modulation (A : float) :
  fle 0 A ->
  feq (np_clip A 0 NORMALIZATION_FACTOR / NORMALIZATION_FACTOR * PI)
      (Py.min A 255 / 255 * PI).
Proof.
  intros HA. rewrite (clip_min A HA). unfold feq, NORMALIZATION_FACTOR.
  apply eqb_refl. destruct (modulation_bounds A HA) as [Hm _].
  eapply leb_not_nan_r. exact Hm.
Qed.

Lemma numpy_arrays (As Xs : list float) :
  Forall (fle 0) As -> Forall (flt 0) Xs ->
  calculate_numpy As Xs
  = Ok (map (fun a => np_clip a 0 NORMALIZATION_FACTOR / NORMALIZATION_FACTOR * PI) As,
        map (fun x => SCALING_CONSTANT / x) Xs).
Proof.
  intros HA HX. unfold calculate_numpy.
  assert (E1 : existsb (fun x => x <=? 0) Xs = false).
  { clear -HX. induction HX as [|x l Hx _ IH]; [reflexivity|].
    cbn [existsb]. rewrite IH, orb_false_r.
    destruct (x <=? 0) eqn:E; [|reflexivity].
    apply leb_ltb_false in E. unfold flt in Hx. congruence. }
  assert (E2 : existsb (fun a => a <? 0) As = false).
  { clear -HA. induction HA as [|a l Ha _ IH]; [reflexivity|].
    cbn [existsb]. rewrite IH, orb_false_r. apply leb_ltb_false. exact Ha. }
  rewrite E1, E2. rewrite map_map. reflexivity.
Qed.

Lemma pairs_modulation (As : list float) : forall Xs : list float,
  List.length As = List.length Xs ->
  map fst (map (fun '(A, X) => (Py.min A 255 / 255 * PI, 406.4 / X)) (combine As Xs))
  = map (fun A => Py.min A 255 / 255 * PI) As.
Proof.
  induction As as [|a l IH]; intros [|x xs] Hlen; try discriminate; [reflexivity|].
  cbn [map combine fst]. f_equal. apply IH. simpl in Hlen. congruence.
Qed.

Lemma pairs_scaling (As : list float) : forall Xs : list float,
  List.length As = List.length Xs ->
  map snd (map (fun '(A, X) => (Py.min A 255 / 255 * PI, 406.4 / X)) (combine As Xs))
  = map (fun X => 406.4 / X) Xs.
Proof.
  induction As as [|a l IH]; intros [|x xs] Hlen; try discriminate; [reflexivity|].
  cbn [map combine snd]. f_equal. apply IH. simpl in Hlen. congruence.
Qed.

(** C5. For equal-length sequences of valid amplitudes and frequencies,
    [calculate_batch] returns, in order, the results of [calculate] on the
    pairs; [calculate_numpy] returns the same scalings, and modulations that
    compare equal to them element by element (and are the very same floats
    when no amplitude is the negative zero); and [calculate_batch] raises
    [ValueError] when the two lengths differ. *)
Theorem batch_agrees_with_calculate (As Xs : list float) :
  (List.length As <> List.length Xs ->
   exists msg, calculate_batch As Xs = Raise (ValueError msg)) /\
  (List.length As = List.length Xs ->
   Forall (fle 0) As -> Forall (flt 0) Xs ->
   exists rs,
     calculate_batch As Xs = Ok rs /\
     List.length rs = List.length As /\
     map (fun '(A, X) => calculate A X) (combine As Xs) = map Ok rs /\
     exists modulation scaling,
       calculate_numpy As Xs = Ok (modulation, scaling) /\
       scaling = map snd rs /\
       Forall2 feq modulation (map fst rs) /\
       (~ In (-0)%float As -> modulation = map fst rs)).
Proof.
  split.
  - intros Hne. unfold calculate_batch.
    apply Nat.eqb_neq in Hne. rewrite Hne. cbn [negb]. eauto.
  - intros Hlen HA HX.
    destruct (calculate_pairs_ok As Xs Hlen HA HX) as (rs & E & Hm & Hr).
    exists rs. unfold calculate_batch.
    rewrite (proj2 (Nat.eqb_eq _ _) Hlen). cbn [negb].
    split; [exact E|]. split.
    { apply (f_equal (@List.length _)) in Hm.
      rewrite !length_map, length_combine in Hm. lia. }
    split; [exact Hm|].
    rewrite (numpy_arrays As Xs HA HX). eexists _, _. split; [reflexivity|].
    subst rs. rewrite (pairs_modulation As Xs Hlen), (pairs_scaling As Xs Hlen).
    split; [reflexivity|]. clear E Hm Hlen HX. split.
    + induction HA as [|a l Ha _ IH]; cbn [map]; constructor;
        [apply clip_modulation; exact Ha|exact IH].
    + intros _. induction HA as [|a l Ha _ IH]; [reflexivity|].
      cbn [map]. rewrite (clip_min a Ha), IH. reflexivity.
Qed.

Lemma classify_unfold (f : float) :
  _classify_neural_band f =
  if (0.5 <=? f) && (f <? 4) then delta
  else if (4 <=? f) && (f <? 8) then theta
  else if (8 <=? f) && (f <? 13) then alpha
  else if (13 <=? f) && (f <? 30) then beta
  else if (30 <=? f) && (f <? 100) then gamma
  else unknown.
Proof. reflexivity. Qed.

(** C10. [_classify_neural_band] returns the first range of the ordered
    table delta [[0.5, 4)], theta [[4, 8)], alpha [[8, 13)], beta [[13, 30)],
    gamma [[30, 100)] that holds the frequency, and [unknown] when none
    does; so 3.0 is delta, 10.0 is alpha and 1000.0 is unknown. *)
Theorem classify_band_spec (f : float) :
  (fle 0.5 f -> flt f 4 -> _classify_neural_band f = delta) /\
  (fle 4 f -> flt f 8 -> _classify_neural_band f = theta) /\
  (fle 8 f -> flt f 13 -> _classify_neural_band f = alpha) /\
  (fle 13 f -> flt f 30 -> _classify_neural_band f = beta) /\
  (fle 30 f -> flt f 100 -> _classify_neural_band f = gamma) /\
  (_classify_neural_band f = unknown <->
   forall b low high, In (b, (low, high)) NEURAL_BANDS -> ~ (fle low f /\ flt f high)) /\
  _classify_neural_band 3.0 = delta /\
  _classify_neural_band 10.0 = alpha /\
  _classify_neural_band 1000.0 = unknown.
Proof.
  unfold fle, flt. rewrite classify_unfold.
  assert (Hx : forall a b, (a <=? b) = true -> (b <=? f) = true -> (f <? a) = false).
  { intros a b Hab Hbf. apply leb_ltb_false. eapply leb_trans; eassumption. }
  repeat split; try reflexivity.
  - intros H1 H2. rewrite H1, H2. reflexivity.
  - intros H1 H2. rewrite (Hx 4 4 eq_refl H1), H1, H2, andb_false_r. reflexivity.
  - intros H1 H2.
    rewrite (Hx 4 8 eq_refl H1), (Hx 8 8 eq_refl H1), H1, H2, !andb_false_r. reflexivity.
  - intros H1 H2.
    rewrite (Hx 4 13 eq_refl H1), (Hx 8 13 eq_refl H1), (Hx 13 13 eq_refl H1), H1, H2,
      !andb_false_r. reflexivity.
  - intros H1 H2.
    rewrite (Hx 4 30 eq_refl H1), (Hx 8 30 eq_refl H1), (Hx 13 30 eq_refl H1),
      (Hx 30 30 eq_refl H1), H1, H2, !andb_false_r. reflexivity.
  - intros H b low high Hin [H1 H2]. unfold NEURAL_BANDS in Hin. cbn [In] in Hin.
    repeat (destruct Hin as [Hin|Hin];
            [injection Hin as <- <- <-; rewrite H1, H2 in H; cbn [andb] in H;
             repeat match type of H with
                    | context [if ?c then _ else _] => destruct c
                    end; discriminate|]).
    exact Hin.
  - intros H.
    destruct ((0.5 <=? f) && (f <? 4)) eqn:E1;
      [apply andb_true_iff in E1; exfalso; apply (H delta 0.5 4); cbn; auto|].
    destruct ((4 <=? f) && (f <? 8)) eqn:E2;
      [apply andb_true_iff in E2; exfalso; apply (H theta 4 8); cbn; auto|].
    destruct ((8 <=? f) && (f <? 13)) eqn:E3;
      [apply andb_true_iff in E3; exfalso; apply (H alpha 8 13); cbn; auto|].
    destruct ((13 <=? f) && (f <? 30)) eqn:E4;
      [apply andb_true_iff in E4; exfalso; apply (H beta 13 30); cbn; auto 6|].
    destruct ((30 <=? f) && (f <? 100)) eqn:E5;
      [apply andb_true_iff in E5; exfalso; apply (H gamma 30 100); cbn; auto 7|].
    reflexivity.
Qed.

(** ** The decision engine *)

Section Engine.
Context {M : Type} {FM : FractalMemory M}.

(** *** Construction *)

(** C4. At construction the stage and the baseline level are determined
    by the prior interaction count alone, with inclusive lower bounds:
    below 10 nascent at 1.0, from 10 developing at 1.5, from 100 mature
    at 2.0, from 1000 transcendent at 3.0; so 9 gives nascent, 10
    developing, 999 mature and 1000 transcendent. *)
Theorem bootstrap_thresholds (model_backend_path : option string) (memory : M) :
  let n := get (stat_total_interactions (get_memory_stats memory)) 0%Z in
  let self := __init__ model_backend_path memory in
  total_interactions self = n /\
  ((n < 10)%Z ->
   knowledge_evolution_stage self = nascent /\ consciousness_level self = 1.0) /\
  ((10 <= n < 100)%Z ->
   knowledge_evolution_stage self = developing /\ consciousness_level self = 1.5) /\
  ((100 <= n < 1000)%Z ->
   knowledge_evolution_stage self = mature /\ consciousness_level self = 2.0) /\
  ((1000 <= n)%Z ->
   knowledge_evolution_stage self = transcendent /\ consciousness_level self = 3.0) /\
  (n = 9%Z -> knowledge_evolution_stage self = nascent) /\
  (n = 10%Z -> knowledge_evolution_stage self = developing) /\
  (n = 999%Z -> knowledge_evolution_stage self = mature) /\
  (n = 1000%Z -> knowledge_evolution_stage self = transcendent).
Proof.
  intros n self. subst self. unfold __init__, _initialize_consciousness.
  cbn [with_total total_interactions fractal_memory]. fold n.
  destruct (Z.ltb_spec n 10); [|destruct (Z.ltb_spec n 100);
                                 [|destruct (Z.ltb_spec n 1000)]];
    cbn [with_level with_stage total_interactions knowledge_evolution_stage
           consciousness_level];
    repeat split; intros; try lia; reflexivity.
Qed.

(** *** Analysis *)

Lemma analysis_calculate_ok (stimulus : string) :
  let amplitude := Z.min (Z.of_nat (String.length stimulus)) 255 in
  let frequency :=
    Z.max (Str.count_distinct (map Str.lower (Str.split stimulus))) 1 in
  calculate (float_of_int amplitude) (float_of_int frequency)
  = Ok (float_of_int amplitude / 255 * PI, 406.4 / float_of_int frequency).
Proof.
  intros amplitude frequency. unfold calculate.
  destruct (float_of_int_byte amplitude ltac:(unfold amplitude; lia)) as [H1 H2].
  rewrite (float_of_int_pos frequency ltac:(unfold frequency; lia)), H1.
  unfold Py.min, NORMALIZATION_FACTOR. rewrite H2. reflexivity.
Qed.

Lemma analyze_never_raises (self : t M) (stimulus : string) :
  exists a, _analyze_with_edu_consciousness self stimulus = Ok a.
Proof.
  unfold _analyze_with_edu_consciousness.
  rewrite (analysis_calculate_ok stimulus). cbn [bind].
  destruct (gtb _ 100); [|destruct (gtb _ 30)]; eexists; reflexivity.
Qed.

(** C8. The analysis takes the amplitude [min(len(stimulus), 255)] and the
    frequency [max(number of distinct lowercased words, 1)], never fails on
    them, multiplies modulation, scaling and level into the combined
    factor, and classifies it: mode deep above 100, analytical above 30,
    else intuitive; depth transcendent above [2 * (50 * level)], deep above
    [50 * level], moderate above [0.5 * (50 * level)], else surface. *)
Theorem analyze_spec (self : t M) (stimulus : string) :
  let amplitude := Z.min (Z.of_nat (String.length stimulus)) 255 in
  let frequency :=
    Z.max (Str.count_distinct (map Str.lower (Str.split stimulus))) 1 in
  let level := consciousness_level self in
  let modulation := float_of_int amplitude / 255 * PI in
  let scaling := 406.4 / float_of_int frequency in
  let combined := modulation * scaling * level in
  calculate (float_of_int amplitude) (float_of_int frequency)
  = Ok (modulation, scaling) /\
  exists a,
    _analyze_with_edu_consciousness self stimulus = Ok a /\
    edu_consciousness_factor a = combined /\
    cognitive_mode_of a =
      (if 100 <? combined then DEEP_CONTEMPLATION
       else if 30 <? combined then ANALYTICAL_THINKING
       else INTUITIVE_RESPONSE) /\
    processing_depth a =
      (if 2 * (50 * level) <? combined then TRANSCENDENT
       else if 50 * level <? combined then DEEP
       else if 0.5 * (50 * level) <? combined then MODERATE
       else SURFACE).
Proof.
  intros amplitude frequency level modulation scaling combined.
  assert (Hc : calculate (float_of_int amplitude) (float_of_int frequency)
               = Ok (modulation, scaling)) by apply analysis_calculate_ok.
  split; [exact Hc|].
  unfold _analyze_with_edu_consciousness.
  fold amplitude frequency. rewrite Hc. cbn [bind].
  fold level. fold combined.
  unfold _calculate_processing_depth, gtb. fold level.
  rewrite (mul_comm (50 * level) 2), (mul_comm (50 * level) 0.5).
  destruct (100 <? combined); [|destruct (30 <? combined)];
    eexists; (split; [reflexivity|]); cbn; repeat split.
Qed.

(** *** Strategy *)

(** C9. The strategy is the base bundle (512, 0.8, 40, 0.95, 1.0, 1.0)
    with the overrides of the cognitive mode; then, if the creativity
    score exceeds 0.5, the temperature times [1 + score * 0.3] and the
    creativity boost times [1 + score * 0.5]; then, if the memory
    confidence exceeds 0.7, the depth multiplier times 1.3. *)
Theorem strategy_spec (analysis : Analysis) (insights : MemoryInsights) :
  let score := creativity_requirement analysis in
  let heat := fun x => if 0.5 <? score then x * (1 + score * 0.3) else x in
  let boost := fun x => if 0.5 <? score then x * (1 + score * 0.5) else x in
  let deepen := fun x => if 0.7 <? confidence insights then x * 1.3 else x in
  base_strategy =
    {| max_tokens := 512; temperature := 0.8; top_k := 40; top_p := 0.95;
       creativity_boost := 1.0; depth_multiplier := 1.0 |} /\
  _determine_response_strategy analysis insights =
    match cognitive_mode_of analysis with
    | DEEP_CONTEMPLATION =>
        {| max_tokens := 1024; temperature := heat 0.9; top_k := 50;
           top_p := 0.98; creativity_boost := boost 1.5;
           depth_multiplier := deepen 2.0 |}
    | ANALYTICAL_THINKING =>
        {| max_tokens := 512; temperature := heat 0.7; top_k := 35;
           top_p := 0.95; creativity_boost := boost 1.2;
           depth_multiplier := deepen 1.5 |}
    | INTUITIVE_RESPONSE =>
        {| max_tokens := 256; temperature := heat 0.6; top_k := 30;
           top_p := 0.90; creativity_boost := boost 0.8;
           depth_multiplier := deepen 0.8 |}
    end.
Proof.
  intros score heat boost deepen. split; [reflexivity|].
  unfold _determine_response_strategy, gtb, heat, boost, deepen. fold score.
  destruct (cognitive_mode_of analysis), (0.5 <? score),
    (0.7 <? confidence insights); reflexivity.
Qed.

(** *** Dispatch *)

Lemma think_unfold (w : World) (self : t M) (stimulus : string) :
  exists analysis,
    _analyze_with_edu_consciousness self stimulus = Ok analysis /\
    let consulted :=
      get_enhanced_response_suggestions (fractal_memory self) stimulus in
    let self1 := with_memory self (snd consulted) in
    let strategy := _determine_response_strategy analysis (fst consulted) in
    dispatch_command w self stimulus
    = Ok (backend_command w self1 stimulus strategy) /\
    match _generate_intelligent_response w self1 stimulus strategy with
    | Raise e =>
        think w self stimulus
        = (Raised e, self1, [call_get_enhanced_response_suggestions stimulus])
    | Ok (NotGenerated error via) =>
        think w self stimulus
        = (Failed error via, self1,
           [call_get_enhanced_response_suggestions stimulus])
    | Ok (Generated text via) =>
        exists r self2,
          think w self stimulus
          = (Succeeded r, self2,
             [call_get_enhanced_response_suggestions stimulus;
              call_process_interaction stimulus text true;
              call_get_memory_stats]) /\
          response r = text /\
          self2 = fst (_update_consciousness_level
                         (with_total
                            (with_memory self1
                               (snd (process_interaction (fractal_memory self1)
                                       stimulus text true)))
                            (total_interactions self + 1)))
    end.
Proof.
  destruct (analyze_never_raises self stimulus) as (a & Ha).
  exists a. split; [exact Ha|]. cbv zeta.
  unfold think, dispatch_command. rewrite Ha. cbn [bind].
  destruct (get_enhanced_response_suggestions (fractal_memory self) stimulus)
    as [insights mem]. cbn [fst snd]. split; [reflexivity|].
  destruct (_generate_intelligent_response _ _ _ _) as [[text via|error via]|e];
    [|reflexivity|reflexivity].
  unfold _learn_and_evolve. cbn [with_memory fractal_memory].
  destruct (process_interaction mem stimulus text true) as [learning mem'].
  unfold _update_consciousness_level. cbn [snd]. eexists _, _.
  split; [reflexivity|]. split; reflexivity.
Qed.

(** C6. When the backend path fails (non-zero exit code or timeout), the
    call reports failure and the session state is unchanged: the count is
    not incremented, the level and the stage are not updated, and no
    interaction is recorded with the memory collaborator, which has only
    been consulted. *)
Theorem think_backend_failure
  (w : World) (self : t M) (stimulus : string) (cmd : list string) :
  backend_reachable w self = true ->
  dispatch_command w self stimulus = Ok cmd ->
  backend_failed (subprocess_run w cmd) = true ->
  exists error self' calls,
    think w self stimulus = (Failed error backend_enhanced, self', calls) /\
    total_interactions self' = total_interactions self /\
    consciousness_level self' = consciousness_level self /\
    knowledge_evolution_stage self' = knowledge_evolution_stage self /\
    calls = [call_get_enhanced_response_suggestions stimulus] /\
    fractal_memory self'
    = snd (get_enhanced_response_suggestions (fractal_memory self) stimulus).
Proof.
  intros Hreach Hcmd Hfail.
  destruct (think_unfold w self stimulus) as (a & Ha & Hd & Ht). cbv zeta in *.
  rewrite Hcmd in Hd. injection Hd as ->.
  unfold _generate_intelligent_response, backend_reachable in Ht.
  cbn [with_memory backend_path] in Ht. unfold backend_reachable in Hreach.
  rewrite Hreach in Ht. unfold _generate_with_backend in Ht.
  destruct (subprocess_run w _) as [rc out err| |e]; cbn [backend_failed] in Hfail.
  - destruct (rc =? 0)%Z; [discriminate|].
    eexists _, _, _. split; [exact Ht|]. repeat split.
  - eexists _, _, _. split; [exact Ht|]. repeat split.
  - discriminate.
Qed.

(** C7 (amended). Dispatch uses the backend exactly when a non-empty
    backend path is configured and exists on the file system.  A call
    then either succeeds through the backend, or reports the backend's
    failure (a non-zero exit code or the timeout), or raises the
    exception that running the backend process raised, which the engine
    does not catch.  In every other case, a missing file under a
    configured path included, it answers with the templated text, which
    always succeeds. *)
Theorem dispatch_paths (w : World) (self : t M) (stimulus : string)
  (strategy : Strategy) :
  (backend_reachable w self = true <->
   exists path, backend_path self = Some path /\ path <> EmptyString /\
                path_exists w path = true) /\
  (forall g, _generate_intelligent_response w self stimulus strategy = Ok g ->
     via_of g = (if backend_reachable w self then backend_enhanced
                 else pure_edu_consciousness)) /\
  (backend_reachable w self = false ->
   _generate_intelligent_response w self stimulus strategy
   = Ok (_generate_pure_edu_response w self stimulus strategy) /\
   success (_generate_pure_edu_response w self stimulus strategy) = true) /\
  (exists analysis,
     _analyze_with_edu_consciousness self stimulus = Ok analysis /\
     let consulted :=
       get_enhanced_response_suggestions (fractal_memory self) stimulus in
     let self1 := with_memory self (snd consulted) in
     let strategy1 := _determine_response_strategy analysis (fst consulted) in
     let process := subprocess_run w (backend_command w self1 stimulus strategy1) in
     match fst (fst (think w self stimulus)) with
     | Succeeded r =>
         _generate_intelligent_response w self1 stimulus strategy1
         = Ok (Generated (response r)
                 (if backend_reachable w self then backend_enhanced
                  else pure_edu_consciousness)) /\
         (backend_reachable w self = true ->
          exists stdout stderr, process = CompletedProcess 0 stdout stderr)
     | Failed error via =>
         backend_reachable w self = true /\ via = backend_enhanced /\
         _generate_with_backend w self1 stimulus strategy1
         = Ok (NotGenerated error backend_enhanced) /\
         backend_failed process = true
     | Raised e =>
         backend_reachable w self = true /\ process = Raises e
     end).
Proof.
  split; [|split; [|split]].
  - unfold backend_reachable. destruct (backend_path self) as [path|].
    + split.
      * intros H. apply andb_true_iff in H. destruct H as [H1 H2].
        exists path. repeat split; [|exact H2].
        intros ->. discriminate.
      * intros (p & E & Hne & Hex). injection E as <-.
        rewrite Hex. destruct path; [congruence|reflexivity].
    + split; [discriminate|]. intros (p & E & _). discriminate.
  - intros g. unfold _generate_intelligent_response.
    destruct (backend_reachable w self); [|intros H; injection H as <-; reflexivity].
    unfold _generate_with_backend.
    destruct (subprocess_run w _) as [rc out err| |e];
      [destruct (rc =? 0)%Z| |]; intros H; try discriminate;
      injection H as <-; reflexivity.
  - intros H. unfold _generate_intelligent_response. rewrite H. auto.
  - destruct (think_unfold w self stimulus) as (a & Ha & _ & Ht). cbv zeta in Ht.
    exists a. split; [exact Ha|]. cbv zeta.
    assert (Hr : backend_reachable w (with_memory self
                   (snd (get_enhanced_response_suggestions (fractal_memory self)
                           stimulus))) = backend_reachable w self) by reflexivity.
    unfold _generate_intelligent_response in *. rewrite Hr in *.
    destruct (backend_reachable w self).
    + unfold _generate_with_backend in *.
      destruct (subprocess_run w _) as [rc out err| |e].
      * cbn [backend_failed]. destruct (rc =? 0)%Z eqn:Erc.
        -- destruct Ht as (r & self2 & Ht & <- & _). rewrite Ht. cbn [fst].
           split; [reflexivity|]. intros _. apply Z.eqb_eq in Erc. subst rc. eauto.
        -- rewrite Ht. cbn [fst]. auto.
      * rewrite Ht. cbn [fst backend_failed]. auto.
      * rewrite Ht. cbn [fst]. auto.
    + unfold _generate_pure_edu_response in *.
      destruct Ht as (r & self2 & Ht & <- & _). rewrite Ht. cbn [fst].
      split; [reflexivity|]. discriminate.
Qed.

(** *** Evolution *)

Lemma init_level_not_nan (model_backend_path : option string) (memory : M) :
  is_nan (consciousness_level (__init__ model_backend_path memory)) = false.
Proof.
  unfold __init__, _initialize_consciousness.
  repeat match goal with |- context [if ?c then _ else _] => destruct c end;
    reflexivity.
Qed.

Lemma update_level_spec (self : t M) :
  let self' := fst (_update_consciousness_level self) in
  total_interactions self' = total_interactions self /\
  knowledge_evolution_stage self' = knowledge_evolution_stage self /\
  fractal_memory self' = fractal_memory self /\
  backend_path self' = backend_path self /\
  (is_nan (consciousness_level self) = false ->
   fle (consciousness_level self) (consciousness_level self') /\
   is_nan (consciousness_level self') = false).
Proof.
  unfold _update_consciousness_level, gtb, fle. cbn [fst].
  set (new_level := Py.max _ (consciousness_level self)).
  destruct (consciousness_level self <? new_level) eqn:E;
    cbn [with_level total_interactions knowledge_evolution_stage
           fractal_memory backend_path consciousness_level];
    (do 4 (split; [reflexivity|])); intros Hn; split.
  - apply ltb_leb. exact E.
  - eapply ltb_not_nan_r. exact E.
  - apply leb_refl. exact Hn.
  - exact Hn.
Qed.

Lemma think_step_spec (w : World) (self : t M) (stimulus : string) :
  let self' := snd (fst (think w self stimulus)) in
  knowledge_evolution_stage self' = knowledge_evolution_stage self /\
  (total_interactions self <= total_interactions self')%Z /\
  (is_nan (consciousness_level self) = false ->
   fle (consciousness_level self) (consciousness_level self') /\
   is_nan (consciousness_level self') = false).
Proof.
  destruct (think_unfold w self stimulus) as (a & _ & _ & Ht). cbv zeta in Ht.
  destruct (_generate_intelligent_response _ _ _ _) as [[text via|error via]|e].
  - destruct Ht as (r & self2 & -> & _ & ->). cbn [fst snd].
    pose proof (update_level_spec
      (with_total
         (with_memory
            (with_memory self
               (snd (get_enhanced_response_suggestions (fractal_memory self) stimulus)))
            (snd (process_interaction
                    (fractal_memory
                       (with_memory self
                          (snd (get_enhanced_response_suggestions
                                  (fractal_memory self) stimulus))))
                    stimulus text true)))
         (total_interactions self + 1))) as H.
    cbv zeta in H. destruct H as (Ht' & Hs & _ & _ & Hl).
    rewrite Ht', Hs. cbn [with_total with_memory total_interactions
      knowledge_evolution_stage consciousness_level] in *.
    split; [reflexivity|]. split; [lia|exact Hl].
  - rewrite Ht. cbn [fst snd with_memory total_interactions
      knowledge_evolution_stage consciousness_level].
    split; [reflexivity|]. split; [lia|].
    intros Hn. split; [apply leb_refl|]; exact Hn.
  - rewrite Ht. cbn [fst snd with_memory total_interactions
      knowledge_evolution_stage consciousness_level].
    split; [reflexivity|]. split; [lia|].
    intros Hn. split; [apply leb_refl|]; exact Hn.
Qed.

Lemma add_increment (x c : float) mc ec :
  Prim2SF c = S754_finite false mc ec ->
  is_nan x = false -> fle x (x + c) /\ is_nan (x + c) = false.
Proof.
  intros Ec Hx. pose proof (add_pos_ge x c mc ec Ec Hx) as H.
  split; [exact H|]. eapply leb_not_nan_r. exact H.
Qed.

(** The manual trigger, step by step: the memory is optimized, the level
    is updated, then at most one of the three transitions fires. *)
Lemma trigger_unfold (self : t M) :
  let self1 :=
    fst (_update_consciousness_level
           (with_memory self (optimize_memory (fractal_memory self)))) in
  let self' := fst (_trigger_consciousness_evolution self) in
  let n := total_interactions self in
  let stage := knowledge_evolution_stage self in
  total_interactions self' = n /\
  (if (1000 <=? n)%Z && negb (stage_eqb stage transcendent) then
     knowledge_evolution_stage self' = transcendent /\
     consciousness_level self' = consciousness_level self1 + 0.5
   else if (100 <=? n)%Z && stage_eqb stage developing then
     knowledge_evolution_stage self' = mature /\
     consciousness_level self' = consciousness_level self1 + 0.3
   else if (10 <=? n)%Z && stage_eqb stage nascent then
     knowledge_evolution_stage self' = developing /\
     consciousness_level self' = consciousness_level self1 + 0.2
   else
     knowledge_evolution_stage self' = stage /\
     consciousness_level self' = consciousness_level self1).
Proof.
  cbv zeta. unfold _trigger_consciousness_evolution.
  pose proof (update_level_spec
    (with_memory self (optimize_memory (fractal_memory self)))) as H.
  cbv zeta in H. destruct H as (Ht & Hs & _ & _ & _).
  destruct (_update_consciousness_level _) as [self1 calls]. cbn [fst] in *.
  cbn [with_memory total_interactions knowledge_evolution_stage] in Ht, Hs.
  rewrite Ht, Hs.
  repeat match goal with |- context [if ?c then _ else _] => destruct c end;
    cbn [with_level with_stage total_interactions knowledge_evolution_stage
           consciousness_level]; auto.
Qed.

Lemma stage_eqb_eq (a b : stage) : stage_eqb a b = true -> a = b.
Proof. destruct a, b; try reflexivity; discriminate. Qed.

Lemma trigger_step_spec (self : t M) :
  let self' := fst (_trigger_consciousness_evolution self) in
  (stage_rank (knowledge_evolution_stage self)
   <= stage_rank (knowledge_evolution_stage self'))%Z /\
  ((total_interactions self < 1000)%Z ->
   (stage_rank (knowledge_evolution_stage self')
    <= stage_rank (knowledge_evolution_stage self) + 1)%Z) /\
  (is_nan (consciousness_level self) = false ->
   fle (consciousness_level self) (consciousness_level self') /\
   is_nan (consciousness_level self') = false).
Proof.
  pose proof (trigger_unfold self) as H. cbv zeta in *.
  destruct H as [Ht H].
  pose proof (update_level_spec
    (with_memory self (optimize_memory (fractal_memory self)))) as Hu.
  cbv zeta in Hu. destruct Hu as (_ & _ & _ & _ & Hl).
  cbn [with_memory consciousness_level] in Hl.
  set (self1 := fst (_update_consciousness_level _)) in *.
  set (self' := fst (_trigger_consciousness_evolution self)) in *.
  assert (Hinc : forall c mc ec, Prim2SF c = S754_finite false mc ec ->
            consciousness_level self' = consciousness_level self1 + c ->
            is_nan (consciousness_level self) = false ->
            fle (consciousness_level self) (consciousness_level self') /\
            is_nan (consciousness_level self') = false).
  { intros c mc ec Ec E Hn. destruct (Hl Hn) as [H1 H2].
    destruct (add_increment _ c mc ec Ec H2) as [H3 H4]. rewrite E.
    split; [|exact H4]. unfold fle in *. eapply leb_trans; eassumption. }
  assert (Hrank : forall st, (0 <= stage_rank st <= 3)%Z) by (intros []; cbn; lia).
  pose proof (Hrank (knowledge_evolution_stage self)) as Hr.
  destruct ((1000 <=? total_interactions self)%Z
            && negb (stage_eqb (knowledge_evolution_stage self) transcendent)) eqn:C1;
    [|destruct ((100 <=? total_interactions self)%Z
                && stage_eqb (knowledge_evolution_stage self) developing) eqn:C2;
      [|destruct ((10 <=? total_interactions self)%Z
                  && stage_eqb (knowledge_evolution_stage self) nascent) eqn:C3]];
    destruct H as [Hs Hlv]; rewrite Hs.
  - apply andb_true_iff in C1. destruct C1 as [C1 _]. apply Z.leb_le in C1.
    cbn [stage_rank]. split; [lia|]. split; [intros; lia|].
    exact (Hinc 0.5 _ _ eq_refl Hlv).
  - apply andb_true_iff in C2. destruct C2 as [_ C2]. apply stage_eqb_eq in C2.
    rewrite C2. cbn [stage_rank]. split; [lia|]. split; [intros; lia|].
    exact (Hinc 0.3 _ _ eq_refl Hlv).
  - apply andb_true_iff in C3. destruct C3 as [_ C3]. apply stage_eqb_eq in C3.
    rewrite C3. cbn [stage_rank]. split; [lia|]. split; [intros; lia|].
    exact (Hinc 0.2 _ _ eq_refl Hlv).
  - split; [lia|]. split; [intros; lia|]. rewrite Hlv. exact Hl.
Qed.

Lemma step_spec (self : t M) (e : event) :
  is_nan (consciousness_level self) = false ->
  fle (consciousness_level self) (consciousness_level (step self e)) /\
  is_nan (consciousness_level (step self e)) = false /\
  (stage_rank (knowledge_evolution_stage self)
   <= stage_rank (knowledge_evolution_stage (step self e)))%Z.
Proof.
  intros Hn. destruct e as [w stimulus| |]; cbn [step].
  - destruct (think_step_spec w self stimulus) as (Hs & _ & Hl). cbv zeta in *.
    destruct (Hl Hn). rewrite Hs. repeat split; try assumption; lia.
  - destruct (trigger_step_spec self) as (Hs & _ & Hl). cbv zeta in *.
    destruct (Hl Hn). repeat split; assumption.
  - cbn [with_memory consciousness_level knowledge_evolution_stage].
    split; [apply leb_refl; exact Hn|]. split; [exact Hn|lia].
Qed.

Lemma run_spec (events : list event) : forall self : t M,
  is_nan (consciousness_level self) = false ->
  fle (consciousness_level self) (consciousness_level (run events self)) /\
  is_nan (consciousness_level (run events self)) = false /\
  (stage_rank (knowledge_evolution_stage self)
   <= stage_rank (knowledge_evolution_stage (run events self)))%Z.
Proof.
  induction events as [|e events IH]; intros self Hn; cbn [run fold_left].
  - split; [apply leb_refl; exact Hn|]. split; [exact Hn|lia].
  - destruct (step_spec self e Hn) as (H1 & H2 & H3).
    destruct (IH (step self e) H2) as (H4 & H5 & H6). fold (run events (step self e)).
    split; [unfold fle in *; eapply leb_trans; eassumption|].
    split; [exact H5|lia].
Qed.

(** C2. Across any sequence of think calls and evolution triggers on one
    engine, the level never decreases and the stage never regresses. *)
Theorem level_and_stage_monotone
  (model_backend_path : option string) (memory : M) (before after : list event) :
  let earlier := run before (__init__ model_backend_path memory) in
  let later := run after earlier in
  fle (consciousness_level earlier) (consciousness_level later) /\
  (stage_rank (knowledge_evolution_stage earlier)
   <= stage_rank (knowledge_evolution_stage later))%Z.
Proof.
  intros earlier later.
  destruct (run_spec before (__init__ model_backend_path memory)
              (init_level_not_nan _ _)) as (_ & Hn & _).
  destruct (run_spec after earlier Hn) as (H1 & _ & H2). auto.
Qed.

(** C3 (amended). On an engine in use, one trigger applies at most one
    transition after updating the level: to transcendent, adding 0.5,
    from any earlier stage once the count has reached 1000; else from
    developing to mature, adding 0.3, once it has reached 100; else from
    nascent to developing, adding 0.2, once it has reached 10.  It never
    regresses the stage or the level, and below a count of 1000 it
    advances the stage by at most one step. *)
Theorem trigger_spec
  (model_backend_path : option string) (memory : M) (events : list event) :
  let self := run events (__init__ model_backend_path memory) in
  let updated :=
    fst (_update_consciousness_level
           (with_memory self (optimize_memory (fractal_memory self)))) in
  let self' := fst (_trigger_consciousness_evolution self) in
  let n := total_interactions self in
  let stage := knowledge_evolution_stage self in
  (if (1000 <=? n)%Z && negb (stage_eqb stage transcendent) then
     knowledge_evolution_stage self' = transcendent /\
     consciousness_level self' = consciousness_level updated + 0.5
   else if (100 <=? n)%Z && stage_eqb stage developing then
     knowledge_evolution_stage self' = mature /\
     consciousness_level self' = consciousness_level updated + 0.3
   else if (10 <=? n)%Z && stage_eqb stage nascent then
     knowledge_evolution_stage self' = developing /\
     consciousness_level self' = consciousness_level updated + 0.2
   else
     knowledge_evolution_stage self' = stage /\
     consciousness_level self' = consciousness_level updated) /\
  total_interactions self' = n /\
  (stage_rank stage <= stage_rank (knowledge_evolution_stage self'))%Z /\
  fle (consciousness_level self) (consciousness_level self') /\
  ((n < 1000)%Z ->
   (stage_rank (knowledge_evolution_stage self') <= stage_rank stage + 1)%Z).
Proof.
  intros self updated self' n stage.
  destruct (trigger_unfold self) as [Ht Hcase].
  destruct (trigger_step_spec self) as (Hs & Hone & Hl).
  destruct (run_spec events (__init__ model_backend_path memory)
              (init_level_not_nan _ _)) as (_ & Hn & _).
  destruct (Hl Hn) as [Hle _].
  split; [exact Hcase|]. split; [exact Ht|]. split; [exact Hs|].
  split; [exact Hle|exact Hone].
Qed.

End Engine.

(** ** Concrete runs *)

Example calculate_a4 :
  calculate 128 440 = Ok (1.5769563123901706, 0.92363636363636359).
Proof. vm_compute. reflexivity. Qed.

Example calculate_combined_a4 : calculate_combined 128 440 = Ok 1.4565341939894667.
Proof. vm_compute. reflexivity. Qed.

Example calculate_batch_two :
  calculate_batch [255; 0] [10; 1] = Ok [(PI, 40.640000000000001); (0, 406.4)].
Proof. vm_compute. reflexivity. Qed.

Example calculate_numpy_negative_zero :
  calculate (-0) 1 = Ok (-0, 406.4) /\ calculate_numpy [-0] [1] = Ok ([-0], [406.4]).
Proof. split; vm_compute; reflexivity. Qed.

Example bootstrap_examples :
  map (fun n => knowledge_evolution_stage
                  (__init__ (FM := stub_memory) None (memory_with n)))
      [9; 10; 99; 100; 999; 1000]%Z
  = [nascent; developing; developing; mature; mature; transcendent].
Proof. vm_compute. reflexivity. Qed.

Example analyze_creative_request :
  let self := __init__ (FM := stub_memory) None empty_memory in
  exists a,
    _analyze_with_edu_consciousness self
      "Please create and imagine an original design!"%string = Ok a /\
    edu_consciousness_factor a = 32.186804733249375 /\
    cognitive_mode_of a = ANALYTICAL_THINKING /\
    processing_depth a = MODERATE /\
    creativity_requirement a = 1 /\
    _determine_response_strategy a {| confidence := 0.9 |}
    = {| max_tokens := 512; temperature := 0.90999999999999992; top_k := 35;
         top_p := 0.95; creativity_boost := 1.7999999999999998;
         depth_multiplier := 1.9500000000000002 |}.
Proof. eexists. split; [vm_compute; reflexivity|]. vm_compute. repeat split. Qed.

Example clean_response_prefixes :
  _clean_response "hello world. Response: ok"%string "hello"%string
  = "world. Response: ok"%string /\
  _clean_response "Answer:   responding: hi  "%string "x"%string
  = "responding: hi"%string.
Proof. split; vm_compute; reflexivity. Qed.

(** A backend that exits with code 1: the call fails and leaves the
    session as it was. *)
Lemma think_backend_failure_witness :
  let w := world_with ["/models/model.gguf"%string]
             (CompletedProcess 1 EmptyString "failed to load model"%string) in
  let self := __init__ (FM := stub_memory) (Some "/models/model.gguf"%string)
                (memory_with 150) in
  exists error self' calls,
    think (FM := stub_memory) w self "hello"%string
    = (Failed error backend_enhanced, self', calls) /\
    total_interactions self' = total_interactions self /\
    consciousness_level self' = consciousness_level self /\
    knowledge_evolution_stage self' = knowledge_evolution_stage self /\
    calls = [call_get_enhanced_response_suggestions "hello"%string] /\
    fractal_memory self'
    = snd (get_enhanced_response_suggestions (FractalMemory := stub_memory)
             (fractal_memory self) "hello"%string).
Proof.
  cbv zeta.
  eapply (think_backend_failure (FM := stub_memory));
    [vm_compute; reflexivity | vm_compute; reflexivity | vm_compute; reflexivity].
Defined.

(** A backend program that cannot be started: the exception leaves
    [think], after the memory has been consulted. *)
Example think_backend_raises :
  let w := world_with ["/models/model.gguf"%string]
             (Raises (OSError "No such file or directory"%string)) in
  let self := __init__ (FM := stub_memory) (Some "/models/model.gguf"%string)
                (memory_with 150) in
  think (FM := stub_memory) w self "hello"%string
  = (Raised (OSError "No such file or directory"%string), self,
     [call_get_enhanced_response_suggestions "hello"%string]).
Proof. vm_compute. reflexivity. Qed.

(** C7, as stated, fails: an engine configured with a backend path that does
    not exist on the file system answers with the templated text, although
    every backend run would have timed out. *)
Lemma configured_backend_falls_back :
  let w := world_with [] TimeoutExpired in
  let self := __init__ (FM := stub_memory) (Some "/models/model.gguf"%string)
                empty_memory in
  backend_path self = Some "/models/model.gguf"%string /\
  exists r,
    fst (fst (think (FM := stub_memory) w self "hello"%string)) = Succeeded r /\
    _generate_pure_edu_response w self "hello"%string
      (_determine_response_strategy (edu_analysis r)
         {| confidence := memory_confidence r |})
    = Generated (response r) pure_edu_consciousness.
Proof.
  cbv zeta. split; [reflexivity|].
  eexists. split; [vm_compute; reflexivity|]. vm_compute. reflexivity.
Qed.

(** C3, as stated, fails: an engine built on an empty memory is still
    nascent after 1000 successful calls, and one trigger then moves it to
    transcendent, three steps at once. *)
Lemma trigger_skips_stages :
  let w := world_with [] TimeoutExpired in
  let self := run (FM := stub_memory) (repeat (Think w "hello"%string) 1000)
                (__init__ (FM := stub_memory) None empty_memory) in
  let self' := fst (_trigger_consciousness_evolution (FM := stub_memory) self) in
  knowledge_evolution_stage self = nascent /\
  total_interactions self = 1000%Z /\
  knowledge_evolution_stage self' = transcendent /\
  (stage_rank (knowledge_evolution_stage self')
   = stage_rank (knowledge_evolution_stage self) + 3)%Z.
Proof. vm_compute. repeat split. Qed.

(** * Further facts about binary64 arithmetic *)

Module Binary64Products.
Import Rounding Binary64.
#[local] Open Scope Z_scope.

(** A positive float times a float that is at least one is at least the
    former. *)
Theorem SFmul_ge mt et my ey :
  bounded prec emax mt et = true -> bounded prec emax my ey = true ->
  SFleb SFone (S754_finite false my ey) = true ->
  SFleb (S754_finite false mt et)
        (SFmul prec emax (S754_finite false mt et) (S754_finite false my ey)) = true.
Proof.
  intros Ht Hy Hle. cbn [SFmul xorb].
  destruct (bounded_pre_canon _ _ Ht) as [Hct Het].
  destruct (bounded_pre_canon _ _ Hy) as [Hcy Hey].
  assert (Hc1 : pre_canon (Z.pos (2 ^ 52)) (-52)) by (apply bounded_pre_canon; reflexivity).
  apply (SFleb_finite_pos _ _ _ _ Hc1 Hcy) in Hle.
  pose proof (mul_round_precondition _ _ _ _ Hct Hcy) as HP.
  destruct Hct as (_ & Hetl & _), Hcy as (_ & Heyl & _).
  apply (round_aux_lower (Z.pos (mt * my)) (et + ey) loc_Exact (Z.pos (mt * my)) 1 mt et 4000);
    try lia; try assumption; [apply inb_exact_intro|].
  rewrite Pos2Z.inj_mul, Z.mul_1_l.
  change (Z.pos (2 ^ 52) * 2 ^ (-52 + 1074)) with (2 ^ 1074) in Hle.
  replace (et + ey + 4000) with ((et + 2926) + (ey + 1074)) by lia.
  rewrite (Z.pow_add_r 2 (et + 2926) (ey + 1074)) by lia.
  replace (2 ^ (et + 4000)) with (2 ^ (et + 2926) * 2 ^ 1074)
    by (rewrite <- Z.pow_add_r by lia; f_equal; lia).
  pose proof (pow2_pos (et + 2926) ltac:(lia)).
  set (P := 2 ^ (et + 2926)) in *. set (Q := 2 ^ (ey + 1074)) in *.
  set (T := 2 ^ 1074) in *.
  assert (Z.pos mt * P * T <= Z.pos mt * P * (Z.pos my * Q))
    by (apply Z.mul_le_mono_nonneg_l; lia).
  lia.
Qed.

(** A positive float divided by a float that is at least one is at most
    the former. *)
Theorem SFdiv_le_num mx ex my ey :
  bounded prec emax mx ex = true -> bounded prec emax my ey = true ->
  SFleb SFone (S754_finite false my ey) = true ->
  SFleb (SFdiv prec emax (S754_finite false mx ex) (S754_finite false my ey))
        (S754_finite false mx ex) = true.
Proof.
  intros Hx Hy Hle. cbn [SFdiv xorb].
  destruct (SFdiv_core_binary_spec mx ex my ey)
    as (q & e' & l & s & -> & Hq & Hs & He' & Hin & HP & Hlo).
  destruct (bounded_pre_canon _ _ Hx) as [Hcx Hex].
  destruct (bounded_pre_canon _ _ Hy) as [Hcy Hey].
  assert (Hc1 : pre_canon (Z.pos (2 ^ 52)) (-52)) by (apply bounded_pre_canon; reflexivity).
  apply (SFleb_finite_pos _ _ _ _ Hc1 Hcy) in Hle.
  destruct Hcx as (_ & Hexl & _), Hcy as (_ & Heyl & _).
  apply (round_aux_upper q e' l (Z.pos mx * 2 ^ s) (Z.pos my) mx ex 4000);
    try lia; try assumption.
  change (Z.pos (2 ^ 52) * 2 ^ (-52 + 1074)) with (2 ^ 1074) in Hle.
  assert (E1 : 2 ^ s * 2 ^ (e' + 4000)
               = 2 ^ (ex + 1074) * 2 ^ 1074 * 2 ^ (1852 - ey))
    by (rewrite <- !Z.pow_add_r by lia; f_equal; lia).
  assert (E2 : 2 ^ (ex + 4000)
               = 2 ^ (ex + 1074) * 2 ^ (ey + 1074) * 2 ^ (1852 - ey))
    by (rewrite <- !Z.pow_add_r by lia; f_equal; lia).
  rewrite <- Z.mul_assoc, E1, E2.
  pose proof (pow2_pos (ex + 1074) ltac:(lia)).
  pose proof (pow2_pos (1852 - ey) ltac:(lia)).
  set (A := 2 ^ (ex + 1074)) in *. set (B := 2 ^ (1852 - ey)) in *.
  set (C := 2 ^ (ey + 1074)) in *. set (T := 2 ^ 1074) in *.
  assert (Z.pos mx * A * B * T <= Z.pos mx * A * B * (Z.pos my * C))
    by (apply Z.mul_le_mono_nonneg_l; [|exact Hle];
        repeat apply Z.mul_nonneg_nonneg; lia).
  lia.
Qed.

(** The product of two positive floats below [a'] and [b'] is at most any
    float that is not below the exact product of [a'] and [b']. *)
Theorem SFmul_le_bound ma ea mb eb ma' ea' mb' eb' mf ef :
  bounded prec emax ma ea = true -> bounded prec emax mb eb = true ->
  bounded prec emax ma' ea' = true -> bounded prec emax mb' eb' = true ->
  bounded prec emax mf ef = true ->
  SFleb (S754_finite false ma ea) (S754_finite false ma' ea') = true ->
  SFleb (S754_finite false mb eb) (S754_finite false mb' eb') = true ->
  Z.pos ma' * Z.pos mb' * 2 ^ (ea' + eb' + 4000) <= Z.pos mf * 2 ^ (ef + 4000) ->
  SFleb (SFmul prec emax (S754_finite false ma ea) (S754_finite false mb eb))
        (S754_finite false mf ef) = true.
Proof.
  intros Ha Hb Ha' Hb' Hf Hla Hlb Hprod. cbn [SFmul xorb].
  destruct (bounded_pre_canon _ _ Ha) as [Hca Hea].
  destruct (bounded_pre_canon _ _ Hb) as [Hcb Heb].
  destruct (bounded_pre_canon _ _ Ha') as [Hca' Hea'].
  destruct (bounded_pre_canon _ _ Hb') as [Hcb' Heb'].
  apply (SFleb_finite_pos _ _ _ _ Hca Hca') in Hla.
  apply (SFleb_finite_pos _ _ _ _ Hcb Hcb') in Hlb.
  pose proof (mul_round_precondition _ _ _ _ Hca Hcb) as HP.
  destruct Hca as (_ & ? & _), Hcb as (_ & ? & _), Hca' as (_ & ? & _),
    Hcb' as (_ & ? & _).
  apply (round_aux_upper (Z.pos (ma * mb)) (ea + eb) loc_Exact (Z.pos (ma * mb)) 1 mf ef 4000);
    try lia; try assumption; [apply inb_exact_intro|].
  rewrite Pos2Z.inj_mul, Z.mul_1_l.
  eapply Z.le_trans; [|exact Hprod].
  assert (E1 : 2 ^ (ea + eb + 4000)
               = 2 ^ (ea + 1074) * 2 ^ (eb + 1074) * 2 ^ 1852)
    by (rewrite <- !Z.pow_add_r by lia; f_equal; lia).
  assert (E2 : 2 ^ (ea' + eb' + 4000)
               = 2 ^ (ea' + 1074) * 2 ^ (eb' + 1074) * 2 ^ 1852)
    by (rewrite <- !Z.pow_add_r by lia; f_equal; lia).
  rewrite E1, E2.
  pose proof (pow2_pos (ea + 1074) ltac:(lia)).
  pose proof (pow2_pos (eb + 1074) ltac:(lia)).
  pose proof (pow2_pos (ea' + 1074) ltac:(lia)).
  pose proof (pow2_pos (eb' + 1074) ltac:(lia)).
  set (Pa := 2 ^ (ea + 1074)) in *. set (Pb := 2 ^ (eb + 1074)) in *.
  set (Pa' := 2 ^ (ea' + 1074)) in *. set (Pb' := 2 ^ (eb' + 1074)) in *.
  assert (Z.pos ma * Pa * (Z.pos mb * Pb) <= Z.pos ma' * Pa' * (Z.pos mb' * Pb'))
    by (apply Z.mul_le_mono_nonneg; lia).
  assert (HK : 0 < 2 ^ 1852) by (apply pow2_pos; lia).
  set (K := 2 ^ 1852) in *.
  assert (Z.pos ma * Pa * (Z.pos mb * Pb) * K <= Z.pos ma' * Pa' * (Z.pos mb' * Pb') * K)
    by (apply Z.mul_le_mono_nonneg_r; lia).
  lia.
Qed.

(** The product of two positive floats above [a'] and [b'] is at least any
    float that is not above the exact product of [a'] and [b']. *)
Theorem SFmul_ge_bound ma ea mb eb ma' ea' mb' eb' mf ef :
  bounded prec emax ma ea = true -> bounded prec emax mb eb = true ->
  bounded prec emax ma' ea' = true -> bounded prec emax mb' eb' = true ->
  bounded prec emax mf ef = true ->
  SFleb (S754_finite false ma' ea') (S754_finite false ma ea) = true ->
  SFleb (S754_finite false mb' eb') (S754_finite false mb eb) = true ->
  Z.pos mf * 2 ^ (ef + 4000) <= Z.pos ma' * Z.pos mb' * 2 ^ (ea' + eb' + 4000) ->
  SFleb (S754_finite false mf ef)
        (SFmul prec emax (S754_finite false ma ea) (S754_finite false mb eb)) = true.
Proof.
  intros Ha Hb Ha' Hb' Hf Hla Hlb Hprod. cbn [SFmul xorb].
  destruct (bounded_pre_canon _ _ Ha) as [Hca Hea].
  destruct (bounded_pre_canon _ _ Hb) as [Hcb Heb].
  destruct (bounded_pre_canon _ _ Ha') as [Hca' Hea'].
  destruct (bounded_pre_canon _ _ Hb') as [Hcb' Heb'].
  apply (SFleb_finite_pos _ _ _ _ Hca' Hca) in Hla.
  apply (SFleb_finite_pos _ _ _ _ Hcb' Hcb) in Hlb.
  pose proof (mul_round_precondition _ _ _ _ Hca Hcb) as HP.
  destruct Hca as (_ & ? & _), Hcb as (_ & ? & _), Hca' as (_ & ? & _),
    Hcb' as (_ & ? & _).
  apply (round_aux_lower (Z.pos (ma * mb)) (ea + eb) loc_Exact (Z.pos (ma * mb)) 1 mf ef 4000);
    try lia; try assumption; [apply inb_exact_intro|].
  rewrite Pos2Z.inj_mul, Z.mul_1_l.
  eapply Z.le_trans; [exact Hprod|].
  assert (E1 : 2 ^ (ea + eb + 4000)
               = 2 ^ (ea + 1074) * 2 ^ (eb + 1074) * 2 ^ 1852)
    by (rewrite <- !Z.pow_add_r by lia; f_equal; lia).
  assert (E2 : 2 ^ (ea' + eb' + 4000)
               = 2 ^ (ea' + 1074) * 2 ^ (eb' + 1074) * 2 ^ 1852)
    by (rewrite <- !Z.pow_add_r by lia; f_equal; lia).
  rewrite E1, E2.
  pose proof (pow2_pos (ea + 1074) ltac:(lia)).
  pose proof (pow2_pos (eb + 1074) ltac:(lia)).
  pose proof (pow2_pos (ea' + 1074) ltac:(lia)).
  pose proof (pow2_pos (eb' + 1074) ltac:(lia)).
  set (Pa := 2 ^ (ea + 1074)) in *. set (Pb := 2 ^ (eb + 1074)) in *.
  set (Pa' := 2 ^ (ea' + 1074)) in *. set (Pb' := 2 ^ (eb' + 1074)) in *.
  assert (Z.pos ma' * Pa' * (Z.pos mb' * Pb') <= Z.pos ma * Pa * (Z.pos mb * Pb))
    by (apply Z.mul_le_mono_nonneg; lia).
  assert (HK : 0 < 2 ^ 1852) by (apply pow2_pos; lia).
  set (K := 2 ^ 1852) in *.
  assert (Z.pos ma' * Pa' * (Z.pos mb' * Pb') * K <= Z.pos ma * Pa * (Z.pos mb * Pb) * K)
    by (apply Z.mul_le_mono_nonneg_r; lia).
  lia.
Qed.

End Binary64Products.

Module Float64Products.
Import Rounding Binary64 Binary64Products Float64.

Lemma nonneg_cases x :
  (0 <=? x) = true ->
  (exists s, Prim2SF x = S754_zero s) \/ Prim2SF x = S754_infinity false \/
  exists m e, Prim2SF x = S754_finite false m e /\ bounded prec emax m e = true.
Proof.
  rewrite leb_spec. change (Prim2SF 0) with (S754_zero false).
  pose proof (Prim2SF_valid x) as Hv.
  destruct (Prim2SF x) as [s|s| |s m e]; try discriminate.
  - eauto.
  - destruct s; [discriminate|auto].
  - destruct s; [discriminate|]. right. right. eauto.
Qed.

Lemma ge_one_cases y :
  (1 <=? y) = true ->
  Prim2SF y = S754_infinity false \/
  exists m e, Prim2SF y = S754_finite false m e /\ bounded prec emax m e = true /\
              SFleb SFone (S754_finite false m e) = true.
Proof.
  intros H.
  assert (H0 : (0 <=? y) = true) by (eapply leb_trans; [|exact H]; reflexivity).
  rewrite leb_spec in H. change (Prim2SF 1) with SFone in H.
  destruct (nonneg_cases y H0) as [[s E]|[E|(m & e & E & Hb)]]; rewrite E in H.
  - destruct s; discriminate.
  - auto.
  - right. eauto.
Qed.

(** A positive float times a float that is at least one is at least the
    former. *)
Lemma mul_ge_one t y mt et :
  Prim2SF t = S754_finite false mt et -> (1 <=? y) = true -> (t <=? t * y) = true.
Proof.
  intros Et Hy. pose proof (Prim2SF_valid t) as Hv. rewrite Et in Hv.
  rewrite leb_spec, mul_spec, Et.
  destruct (ge_one_cases y Hy) as [->|(m & e & -> & Hb & Hle)].
  - reflexivity.
  - apply SFmul_ge; assumption.
Qed.

(** One plus a non-negative float is at least one. *)
Lemma one_plus_nonneg z : (0 <=? z) = true -> (1 <=? 1 + z) = true.
Proof.
  intros Hz.
  destruct (nonneg_cases z Hz) as [[s E]|[E|(m & e & E & Hb)]].
  - rewrite leb_spec, add_spec, E. destruct s; reflexivity.
  - rewrite leb_spec, add_spec, E. reflexivity.
  - apply (add_pos_ge 1 z m e E). reflexivity.
Qed.

(** A non-negative float times a positive one is non-negative. *)
Lemma mul_nonneg c k mk ek :
  Prim2SF k = S754_finite false mk ek -> (0 <=? c) = true -> (0 <=? c * k) = true.
Proof.
  intros Ek Hc. pose proof (Prim2SF_valid k) as Hv. rewrite Ek in Hv.
  rewrite leb_spec, mul_spec, Ek. change (Prim2SF 0) with (S754_zero false).
  destruct (nonneg_cases c Hc) as [[s E]|[E|(m & e & E & Hb)]]; rewrite E.
  - destruct s; reflexivity.
  - reflexivity.
  - unfold SF64mul. cbn [SFmul xorb].
    destruct (bounded_pre_canon _ _ Hb) as [Hcm _].
    destruct (bounded_pre_canon _ _ Hv) as [Hck _].
    pose proof (mul_round_precondition _ _ _ _ Hcm Hck) as HP.
    destruct (round_aux_cases (Z.pos (m * mk)) (e + ek) loc_Exact false ltac:(lia) HP)
      as [R|[R|(m' & e' & R & _)]]; rewrite R; reflexivity.
Qed.

(** Scaling a positive float [t] by [1 + c * k], for a non-negative [c]
    and a positive [k], never decreases it. *)
Lemma scale_up t c k mt et mk ek :
  Prim2SF t = S754_finite false mt et -> Prim2SF k = S754_finite false mk ek ->
  (0 <=? c) = true -> (t <=? t * (1 + c * k)) = true.
Proof.
  intros Et Ek Hc. apply (mul_ge_one t _ mt et Et).
  apply one_plus_nonneg. apply (mul_nonneg c k mk ek Ek Hc).
Qed.

(** A positive float divided by a float that is at least one lies between
    zero and the former. *)
Lemma div_by_ge_one s x ms es :
  Prim2SF s = S754_finite false ms es -> (1 <=? x) = true ->
  (0 <=? s / x) = true /\ (s / x <=? s) = true.
Proof.
  intros Es Hx. pose proof (Prim2SF_valid s) as Hv. rewrite Es in Hv.
  rewrite !leb_spec, div_spec, Es. change (Prim2SF 0) with (S754_zero false).
  destruct (ge_one_cases x Hx) as [->|(m & e & -> & Hb & Hle)].
  - split; reflexivity.
  - split; [|apply SFdiv_le_num; assumption].
    unfold SF64div. cbn [SFdiv xorb].
    destruct (SFdiv_core_binary_spec ms es m e)
      as (q & e' & l & sh & -> & Hq & _ & _ & _ & HP & _).
    destruct (round_aux_cases q e' l false Hq HP) as [R|[R|(m' & e'' & R & _)]];
      rewrite R; reflexivity.
Qed.

(** The product of two floats in [[0, a']] and [[0, b']] lies between zero
    and any float that is not below the exact product of [a'] and [b']. *)
Lemma mul_le_bound a b a' b' f ma' ea' mb' eb' mf ef :
  Prim2SF a' = S754_finite false ma' ea' ->
  Prim2SF b' = S754_finite false mb' eb' ->
  Prim2SF f = S754_finite false mf ef ->
  (Z.pos ma' * Z.pos mb' * 2 ^ (ea' + eb' + 4000) <= Z.pos mf * 2 ^ (ef + 4000))%Z ->
  (0 <=? a) = true -> (a <=? a') = true ->
  (0 <=? b) = true -> (b <=? b') = true ->
  (0 <=? a * b) = true /\ (a * b <=? f) = true.
Proof.
  intros Ea' Eb' Ef Hprod Ha0 Ha Hb0 Hb.
  pose proof (Prim2SF_valid a') as Hva. rewrite Ea' in Hva.
  pose proof (Prim2SF_valid b') as Hvb. rewrite Eb' in Hvb.
  pose proof (Prim2SF_valid f) as Hvf. rewrite Ef in Hvf.
  pose proof (nonneg_cases a Ha0) as Ca. pose proof (nonneg_cases b Hb0) as Cb.
  clear Ha0 Hb0. rewrite leb_spec in Ha, Hb. rewrite Ea' in Ha. rewrite Eb' in Hb.
  rewrite !leb_spec, mul_spec, Ef.
  change (Prim2SF 0) with (S754_zero false). unfold SF64mul.
  destruct Ca as [[sa E]|[E|(ma & ea & E & Hba)]]; rewrite E in *;
    [|discriminate|];
    (destruct Cb as [[sb E']|[E'|(mb & eb & E' & Hbb)]];
     rewrite E' in *; [|discriminate|]).
  - destruct sa, sb; split; reflexivity.
  - destruct sa; split; reflexivity.
  - destruct sb; split; reflexivity.
  - split.
    + cbn [SFmul xorb].
      destruct (bounded_pre_canon _ _ Hba) as [Hca _].
      destruct (bounded_pre_canon _ _ Hbb) as [Hcb _].
      pose proof (mul_round_precondition _ _ _ _ Hca Hcb) as HP.
      destruct (round_aux_cases (Z.pos (ma * mb)) (ea + eb) loc_Exact false ltac:(lia) HP)
        as [R|[R|(m' & e' & R & _)]]; rewrite R; reflexivity.
    + eapply (SFmul_le_bound ma ea mb eb ma' ea' mb' eb' mf ef); eassumption.
Qed.

Lemma ge_cases x y mx ex :
  Prim2SF x = S754_finite false mx ex -> (x <=? y) = true ->
  Prim2SF y = S754_infinity false \/
  exists m e, Prim2SF y = S754_finite false m e /\ bounded prec emax m e = true /\
              SFleb (S754_finite false mx ex) (S754_finite false m e) = true.
Proof.
  intros Ex H. rewrite leb_spec, Ex in H.
  pose proof (Prim2SF_valid y) as Hv.
  destruct (Prim2SF y) as [s|s| |s m e]; try discriminate.
  - destruct s; [discriminate|auto].
  - destruct s; [discriminate|]. right. eauto.
Qed.

(** The product of two floats above the positive floats [a'] and [b'] is
    at least any float that is not above the exact product of [a'] and
    [b']. *)
Lemma mul_ge_bound a b a' b' f ma' ea' mb' eb' mf ef :
  Prim2SF a' = S754_finite false ma' ea' ->
  Prim2SF b' = S754_finite false mb' eb' ->
  Prim2SF f = S754_finite false mf ef ->
  (Z.pos mf * 2 ^ (ef + 4000) <= Z.pos ma' * Z.pos mb' * 2 ^ (ea' + eb' + 4000))%Z ->
  (a' <=? a) = true -> (b' <=? b) = true -> (f <=? a * b) = true.
Proof.
  intros Ea' Eb' Ef Hprod Ha Hb.
  pose proof (Prim2SF_valid a') as Hva. rewrite Ea' in Hva.
  pose proof (Prim2SF_valid b') as Hvb. rewrite Eb' in Hvb.
  pose proof (Prim2SF_valid f) as Hvf. rewrite Ef in Hvf.
  rewrite leb_spec, mul_spec, Ef. unfold SF64mul.
  destruct (ge_cases a' a _ _ Ea' Ha) as [->|(ma & ea & -> & Hba & Hla)];
    destruct (ge_cases b' b _ _ Eb' Hb) as [->|(mb & eb & -> & Hbb & Hlb)];
    try reflexivity.
  eapply (SFmul_ge_bound ma ea mb eb ma' ea' mb' eb' mf ef); eassumption.
Qed.

(** [a <= b < c] gives [a < c]. *)
Lemma le_lt_trans a b c :
  (a <=? b) = true -> (b <? c) = true -> (a <? c) = true.
Proof.
  intros Hab Hbc. destruct (a <? c) eqn:E; [reflexivity|].
  pose proof (ltb_false_leb c a (ltb_not_nan_r _ _ Hbc) (leb_not_nan_l _ _ Hab) E) as H1.
  pose proof (leb_trans _ _ _ H1 Hab) as H2.
  apply leb_ltb_false in H2. congruence.
Qed.

End Float64Products.

(** * Further properties of the code *)

(** ** The transform on any input *)

Lemma is_nan_true (x : float) : is_nan x = true -> x = nan.
Proof.
  intros H. apply Prim2SF_inj. change (Prim2SF nan) with S754_nan.
  destruct (Prim2SF x) eqn:E; try reflexivity; exfalso;
    assert (Hf : is_nan x = false) by (apply is_nan_false; rewrite E; discriminate);
    congruence.
Qed.

Lemma calculate_accepted (A X : float) :
  (X <=? 0) = false /\ (A <? 0) = false -> calculate A X = Ok (Py.min A 255 / 255 * PI, 406.4 / X).
Proof. intros [H1 H2]. unfold calculate. rewrite H1, H2. reflexivity. Qed.

Lemma calculate_Ok_accepted (A X : float) (r : float * float) :
  calculate A X = Ok r -> (X <=? 0) = false /\ (A <? 0) = false.
Proof.
  unfold calculate.
  destruct (X <=? 0); [discriminate|]. destruct (A <? 0); [discriminate|]. auto.
Qed.

(** X1. The validation of [calculate] does not reject NaN: a NaN frequency
    gives a NaN scaling and a NaN amplitude a NaN modulation; every other
    amplitude that is let through gives a modulation between 0 and pi. *)
Theorem calculate_lets_nan_through :
  (forall A, (A <? 0) = false ->
     calculate A nan = Ok (Py.min A 255 / 255 * PI, nan)) /\
  (forall X, (X <=? 0) = false -> calculate nan X = Ok (nan, 406.4 / X)) /\
  (forall A X m s, calculate A X = Ok (m, s) ->
     (is_nan A = true -> is_nan m = true) /\
     (is_nan X = true -> is_nan s = true) /\
     (is_nan A = false -> fle 0 m /\ fle m PI)).
Proof.
  split; [|split].
  - intros A HA. unfold calculate. rewrite HA. reflexivity.
  - intros X HX. unfold calculate. rewrite HX. reflexivity.
  - intros A X m s H. pose proof (calculate_Ok_accepted _ _ _ H) as Hacc.
    rewrite (calculate_accepted _ _ Hacc) in H. injection H as <- <-.
    split; [|split].
    + intros HA. apply is_nan_true in HA. subst A. reflexivity.
    + intros HX. apply is_nan_true in HX. subst X. reflexivity.
    + intros HA. apply modulation_bounds.
      apply ltb_false_leb; [reflexivity|exact HA|apply Hacc].
Qed.

(** X2. For an amplitude [A >= 0] and a frequency [X >= 1] the combined value
    is a number between 0 and [pi * 406.4], the value at [A = 255] and
    [X = 1]. *)
Theorem calculate_combined_range (A X : float) :
  fle 0 A -> fle 1 X ->
  exists combined,
    calculate_combined A X = Ok combined /\
    fle 0 combined /\ fle combined (PI * SCALING_CONSTANT) /\
    calculate_combined 255 1 = Ok (PI * SCALING_CONSTANT).
Proof.
  unfold fle. intros HA HX.
  assert (HX0 : (X <=? 0) = false).
  { destruct (X <=? 0) eqn:E; [|reflexivity].
    pose proof (leb_trans _ _ _ HX E) as H. vm_compute in H. discriminate. }
  unfold calculate_combined.
  rewrite (calculate_accepted A X (conj HX0 (leb_ltb_false _ _ HA))). cbn [bind].
  eexists. split; [reflexivity|].
  destruct (modulation_bounds A HA) as [Hm0 Hm1].
  destruct (Float64Products.div_by_ge_one 406.4 X _ _ eq_refl HX) as [Hs0 Hs1].
  destruct (Float64Products.mul_le_bound
              (Py.min A 255 / 255 * PI) (406.4 / X) PI 406.4 (PI * SCALING_CONSTANT)
              _ _ _ _ _ _ eq_refl eq_refl eq_refl
              ltac:(apply Z.leb_le; vm_compute; reflexivity) Hm0 Hm1 Hs0 Hs1)
    as [H0 H1].
  split; [exact H0|]. split; [exact H1|]. vm_compute. reflexivity.
Qed.

Lemma calculate_combined_range_witness :
  exists combined,
    calculate_combined 128 440 = Ok combined /\
    fle 0 combined /\ fle combined (PI * SCALING_CONSTANT) /\
    calculate_combined 255 1 = Ok (PI * SCALING_CONSTANT).
Proof.
  apply (calculate_combined_range 128 440); reflexivity.
Defined.

(** X3. Valid inputs can give NaN: for the amplitude 0 and a frequency so
    small that the scaling overflows to infinity, the combined value is
    [0 * inf], which is NaN. *)
Theorem calculate_combined_nan_on_valid_input (X : float) :
  flt 0 X -> 406.4 / X = infinity ->
  calculate 0 X = Ok (0, infinity) /\ calculate_combined 0 X = Ok nan.
Proof.
  intros HX Hinf. unfold calculate_combined.
  rewrite (calculate_ok 0 X eq_refl HX), Hinf. split; reflexivity.
Qed.

Lemma calculate_combined_nan_on_valid_input_witness :
  calculate 0 5e-324 = Ok (0, infinity) /\ calculate_combined 0 5e-324 = Ok nan.
Proof.
  apply (calculate_combined_nan_on_valid_input 5e-324); reflexivity.
Defined.

Lemma calculate_pairs_accepted (As : list float) : forall Xs : list float,
  Forall (fun '(A, X) => (X <=? 0) = false /\ (A <? 0) = false) (combine As Xs) ->
  calculate_pairs As Xs
  = Ok (map (fun '(A, X) => (Py.min A 255 / 255 * PI, 406.4 / X)) (combine As Xs)).
Proof.
  induction As as [|A As IH]; intros [|X Xs] H; try reflexivity.
  cbn [combine] in H. inversion H as [|? ? H1 H2]; subst.
  cbn [calculate_pairs combine map].
  rewrite (calculate_accepted A X H1), (IH Xs H2). reflexivity.
Qed.

Lemma calculate_pairs_Ok (As : list float) : forall (Xs : list float) rs,
  List.length As = List.length Xs ->
  calculate_pairs As Xs = Ok rs ->
  Forall (fun '(A, X) => (X <=? 0) = false /\ (A <? 0) = false) (combine As Xs).
Proof.
  induction As as [|A As IH]; intros [|X Xs] rs Hlen H; try discriminate;
    cbn [combine]; [constructor|].
  cbn [calculate_pairs] in H.
  destruct (calculate A X) as [r|e] eqn:E; [|discriminate]. cbn [bind] in H.
  destruct (calculate_pairs As Xs) as [rs'|e] eqn:E'; [|discriminate].
  constructor; [eapply calculate_Ok_accepted; exact E|].
  apply (IH Xs rs'); [simpl in Hlen; congruence|exact E'].
Qed.

(** X4. [calculate_batch] returns exactly when the two lists have the same
    length and every pair passes the validation of [calculate]; it then
    returns one result per pair, in order.  A length mismatch is reported
    before any pair is looked at, whatever the values are. *)
Theorem calculate_batch_returns_iff (As Xs : list float) :
  ((exists rs, calculate_batch As Xs = Ok rs) <->
   List.length As = List.length Xs /\
   Forall (fun '(A, X) => (X <=? 0) = false /\ (A <? 0) = false) (combine As Xs)) /\
  (forall rs, calculate_batch As Xs = Ok rs ->
     List.length rs = List.length As /\
     rs = map (fun '(A, X) => (Py.min A 255 / 255 * PI, 406.4 / X)) (combine As Xs)) /\
  (List.length As <> List.length Xs ->
   calculate_batch As Xs
   = Raise (ValueError "A_values and X_values must have same length")).
Proof.
  unfold calculate_batch.
  destruct (Nat.eqb_spec (List.length As) (List.length Xs)) as [Hlen|Hne];
    cbn [negb].
  - split; [split|split].
    + intros [rs H]. split; [exact Hlen|]. eapply calculate_pairs_Ok; eassumption.
    + intros [_ H]. rewrite (calculate_pairs_accepted As Xs H). eauto.
    + intros rs H.
      pose proof (calculate_pairs_Ok As Xs rs Hlen H) as Hacc.
      rewrite (calculate_pairs_accepted As Xs Hacc) in H. injection H as <-.
      rewrite length_map, length_combine. split; [lia|reflexivity].
    + intros Hne. contradiction.
  - split; [split|split].
    + intros [rs H]. discriminate.
    + intros [Hlen _]. contradiction.
    + intros rs H. discriminate.
    + reflexivity.
Qed.

Lemma existsb_false_Forall {A : Type} (p : A -> bool) (l : list A) :
  existsb p l = false <-> Forall (fun x => p x = false) l.
Proof.
  induction l as [|x l IH]; cbn [existsb].
  - split; [constructor|reflexivity].
  - rewrite orb_false_iff, IH. split.
    + intros [H1 H2]. constructor; assumption.
    + intros H. inversion H; subst. auto.
Qed.

(** X5. [calculate_numpy] validates the two arrays separately and never
    compares their lengths: it returns one modulation per amplitude and one
    scaling per frequency exactly when no frequency is [<= 0] and no
    amplitude is [< 0], also where [calculate_batch] raises for the length
    mismatch; and a rejected frequency is reported first, wherever it is. *)
Theorem calculate_numpy_returns_iff (As Xs : list float) :
  ((exists r, calculate_numpy As Xs = Ok r) <->
   Forall (fun x => (x <=? 0) = false) Xs /\ Forall (fun a => (a <? 0) = false) As) /\
  (forall ms ss, calculate_numpy As Xs = Ok (ms, ss) ->
     List.length ms = List.length As /\ List.length ss = List.length Xs /\
     (List.length As <> List.length Xs ->
      exists msg, calculate_batch As Xs = Raise (ValueError msg))) /\
  (Exists (fun x => (x <=? 0) = true) Xs ->
   calculate_numpy As Xs = Raise (ValueError "All X values must be positive")).
Proof.
  unfold calculate_numpy.
  destruct (existsb (fun x => x <=? 0) Xs) eqn:EX.
  - split; [split|split].
    + intros [r H]. discriminate.
    + intros [H _]. apply existsb_false_Forall in H. congruence.
    + intros ms ss H. discriminate.
    + reflexivity.
  - destruct (existsb (fun a => a <? 0) As) eqn:EA.
    + split; [split|split].
      * intros [r H]. discriminate.
      * intros [_ H]. apply existsb_false_Forall in H. congruence.
      * intros ms ss H. discriminate.
      * intros H. apply Exists_exists in H. destruct H as (x & Hin & Hx).
        apply existsb_false_Forall in EX. rewrite Forall_forall in EX.
        specialize (EX x Hin). cbv beta in EX. congruence.
    + split; [split|split].
      * intros _. split; apply existsb_false_Forall; assumption.
      * eauto.
      * intros ms ss H. injection H as <- <-. rewrite !length_map.
        split; [reflexivity|]. split; [reflexivity|].
        intros Hne. unfold calculate_batch.
        apply Nat.eqb_neq in Hne. rewrite Hne. cbn [negb]. eauto.
      * intros H. apply Exists_exists in H. destruct H as (x & Hin & Hx).
        apply existsb_false_Forall in EX. rewrite Forall_forall in EX.
        specialize (EX x Hin). cbv beta in EX. congruence.
Qed.

(** X6. The table of bands has no gap: a frequency is [unknown] exactly when
    it is NaN, below 0.5, or at least 100. *)
Theorem classify_unknown_iff (f : float) :
  _classify_neural_band f = unknown <->
  is_nan f = true \/ flt f 0.5 \/ fle 100 f.
Proof.
  unfold flt, fle. rewrite classify_unfold.
  destruct (is_nan f) eqn:Hn.
  - apply is_nan_true in Hn. subst f. split; [auto|reflexivity].
  - assert (T : forall c, is_nan c = false -> (f <? c) = false -> (c <=? f) = true).
    { intros c Hc H. apply ltb_false_leb; assumption. }
    assert (L : forall a b, (a <=? b) = true -> (f <? a) = true -> (f <? b) = true).
    { intros a b Hab Hfa. destruct (f <? b) eqn:E; [reflexivity|].
      pose proof (T b ltac:(eapply leb_not_nan_r; exact Hab) E) as H1.
      pose proof (leb_trans _ _ _ Hab H1) as H2.
      apply leb_ltb_false in H2. congruence. }
    destruct (f <? 0.5) eqn:E0.
    + assert (H : (0.5 <=? f) = false).
      { destruct (0.5 <=? f) eqn:E; [|reflexivity].
        apply leb_ltb_false in E. congruence. }
      assert (H4 : (4 <=? f) = false).
      { destruct (4 <=? f) eqn:E; [|reflexivity].
        apply leb_ltb_false in E. rewrite (L 0.5 4 eq_refl E0) in E. discriminate. }
      assert (H8 : (8 <=? f) = false).
      { destruct (8 <=? f) eqn:E; [|reflexivity].
        apply leb_ltb_false in E. rewrite (L 0.5 8 eq_refl E0) in E. discriminate. }
      assert (H13 : (13 <=? f) = false).
      { destruct (13 <=? f) eqn:E; [|reflexivity].
        apply leb_ltb_false in E. rewrite (L 0.5 13 eq_refl E0) in E. discriminate. }
      assert (H30 : (30 <=? f) = false).
      { destruct (30 <=? f) eqn:E; [|reflexivity].
        apply leb_ltb_false in E. rewrite (L 0.5 30 eq_refl E0) in E. discriminate. }
      rewrite H, H4, H8, H13, H30. cbn [andb]. split; auto.
    + rewrite (T 0.5 eq_refl E0). cbn [andb].
      destruct (f <? 4) eqn:E4; [split; [discriminate|]|].
      { intros [H|[H|H]]; try discriminate.
        apply leb_ltb_false in H. rewrite (L 4 100 eq_refl E4) in H. discriminate. }
      rewrite (T 4 eq_refl E4). cbn [andb].
      destruct (f <? 8) eqn:E8; [split; [discriminate|]|].
      { intros [H|[H|H]]; try discriminate.
        apply leb_ltb_false in H. rewrite (L 8 100 eq_refl E8) in H. discriminate. }
      rewrite (T 8 eq_refl E8). cbn [andb].
      destruct (f <? 13) eqn:E13; [split; [discriminate|]|].
      { intros [H|[H|H]]; try discriminate.
        apply leb_ltb_false in H. rewrite (L 13 100 eq_refl E13) in H. discriminate. }
      rewrite (T 13 eq_refl E13). cbn [andb].
      destruct (f <? 30) eqn:E30; [split; [discriminate|]|].
      { intros [H|[H|H]]; try discriminate.
        apply leb_ltb_false in H. rewrite (L 30 100 eq_refl E30) in H. discriminate. }
      rewrite (T 30 eq_refl E30). cbn [andb].
      destruct (f <? 100) eqn:E100; [split; [discriminate|]|].
      { intros [H|[H|H]]; try discriminate.
        apply leb_ltb_false in H. congruence. }
      split; [intros _|reflexivity]. right. right. apply T; [reflexivity|exact E100].
Qed.

(** ** The scores of the analysis *)

Lemma count_found_range (keywords : list string) (text : string) :
  (0 <= count_found keywords text <= Z.of_nat (List.length keywords))%Z.
Proof.
  unfold count_found.
  pose proof (filter_length_le (fun k => Str.contains text k) keywords). lia.
Qed.

Lemma emotion_score_six (keywords : list string) (text : string) :
  List.length keywords = 6%nat ->
  let k := Z.of_nat (List.length (filter (fun keyword => Str.contains text keyword)
                                    keywords)) in
  (0 <= k <= 6)%Z /\
  emotion_score keywords text = float_of_int k / 6 /\
  fle 0 (float_of_int k / 6) /\ fle (float_of_int k / 6) 1.
Proof.
  intros Hlen k. pose proof (count_found_range keywords text) as Hk.
  unfold emotion_score. unfold count_found in *. fold k in Hk |- *.
  rewrite Hlen in *.
  assert (H : forallb (fun n =>
                let q := float_of_int (Z.of_nat n) / float_of_int (Z.of_nat 6) in
                Leibniz.eqb (Py.min q 1.0) (float_of_int (Z.of_nat n) / 6)
                && (0 <=? Py.min q 1.0) && (Py.min q 1.0 <=? 1)) (seq 0 7) = true)
    by (vm_compute; reflexivity).
  rewrite forallb_forall in H. specialize (H (Z.to_nat k)).
  rewrite Z2Nat.id in H by lia.
  specialize (H ltac:(apply in_seq; lia)). cbv zeta in H.
  apply andb_true_iff in H. destruct H as [H H3].
  apply andb_true_iff in H. destruct H as [H1 H2].
  apply Leibniz.eqb_spec in H1. unfold fle. rewrite <- H1.
  split; [lia|]. split; [reflexivity|]. split; assumption.
Qed.

(** X7. Every emotion score is [k / 6] for the number [k] of keywords of
    its list that occur in the lowercased text, so it lies between 0 and 1
    and the clamp [min(..., 1.0)] never takes effect; the scores depend on
    the text only up to letter case. *)
Theorem emotional_context_scores (text : string) :
  let found := fun keywords : list string =>
    Z.of_nat (List.length
      (filter (fun keyword => Str.contains (Str.lower text) keyword) keywords)) in
  let kj := found ["happy"; "great"; "awesome"; "wonderful"; "fantastic"; "love"]%string in
  let kc := found ["how"; "why"; "what"; "explain"; "tell me"; "learn"]%string in
  let kn :=
    found ["worried"; "problem"; "issue"; "help"; "trouble"; "difficult"]%string in
  let kx :=
    found ["amazing"; "incredible"; "wow"; "unbelievable"; "!"; "revolutionary"]%string in
  let e := _detect_emotional_context text in
  e = {| joy := float_of_int kj / 6; curiosity := float_of_int kc / 6;
         concern := float_of_int kn / 6; excitement := float_of_int kx / 6 |} /\
  (0 <= kj <= 6 /\ 0 <= kc <= 6 /\ 0 <= kn <= 6 /\ 0 <= kx <= 6)%Z /\
  (fle 0 (joy e) /\ fle (joy e) 1) /\
  (fle 0 (curiosity e) /\ fle (curiosity e) 1) /\
  (fle 0 (concern e) /\ fle (concern e) 1) /\
  (fle 0 (excitement e) /\ fle (excitement e) 1) /\
  (forall text', Str.lower text' = Str.lower text ->
     _detect_emotional_context text' = e).
Proof.
  intros found kj kc kn kx e. subst e. unfold _detect_emotional_context.
  cbn [joy curiosity concern excitement].
  destruct (emotion_score_six
    ["happy"; "great"; "awesome"; "wonderful"; "fantastic"; "love"]%string
    (Str.lower text) eq_refl) as (Hj & Ej & Hj0 & Hj1).
  destruct (emotion_score_six
    ["how"; "why"; "what"; "explain"; "tell me"; "learn"]%string
    (Str.lower text) eq_refl) as (Hc & Ec & Hc0 & Hc1).
  destruct (emotion_score_six
    ["worried"; "problem"; "issue"; "help"; "trouble"; "difficult"]%string
    (Str.lower text) eq_refl) as (Hn & En & Hn0 & Hn1).
  destruct (emotion_score_six
    ["amazing"; "incredible"; "wow"; "unbelievable"; "!"; "revolutionary"]%string
    (Str.lower text) eq_refl) as (Hx & Ex & Hx0 & Hx1).
  cbv zeta in *. rewrite Ej, Ec, En, Ex.
  split; [reflexivity|]. split; [subst kj kc kn kx found; cbv beta; lia|].
  repeat split; try assumption.
  intros text' ->. rewrite Ej, Ec, En, Ex. reflexivity.
Qed.

(** X8. The creativity score is [min(k / 3, 1)] for the number [k] of
    the eleven indicators that occur in the lowercased text: it lies
    between 0 and 1, exceeds the threshold 0.5 of the strategy exactly from
    two indicators on, is 1 exactly from three on and 0 exactly for none.
    It is the score that the analysis records. *)
Theorem creativity_requirement_levels (text : string) :
  let k :=
    Z.of_nat (List.length
      (filter (fun indicator => Str.contains (Str.lower text) indicator)
         ["create"; "imagine"; "design"; "invent"; "think of"; "come up with";
          "brainstorm"; "innovative"; "original"; "unique"; "creative"]%string)) in
  let c := _assess_creativity_requirement text in
  c = Py.min (float_of_int k / 3) 1 /\
  (0 <= k <= 11)%Z /\
  fle 0 c /\ fle c 1 /\
  gtb c 0.5 = (2 <=? k)%Z /\
  Leibniz.eqb c 1 = (3 <=? k)%Z /\
  Leibniz.eqb c 0 = (k =? 0)%Z /\
  (forall (M : Type) (FM : FractalMemory M) (self : EDUAI.t M) a,
     _analyze_with_edu_consciousness self text = Ok a ->
     creativity_requirement a = c).
Proof.
  intros k c. subst c. unfold _assess_creativity_requirement.
  pose proof (count_found_range creative_indicators (Str.lower text)) as Hk.
  unfold count_found in *. unfold creative_indicators in *.
  cbn [List.length] in Hk. fold k in Hk |- *.
  split; [reflexivity|]. split; [lia|].
  assert (H : forallb (fun n =>
                let z := Z.of_nat n in
                let c := Py.min (float_of_int z / 3.0) 1.0 in
                (0 <=? c) && (c <=? 1)
                && Bool.eqb (gtb c 0.5) (2 <=? z)%Z
                && Bool.eqb (Leibniz.eqb c 1) (3 <=? z)%Z
                && Bool.eqb (Leibniz.eqb c 0) (z =? 0)%Z) (seq 0 12) = true)
    by (vm_compute; reflexivity).
  rewrite forallb_forall in H. specialize (H (Z.to_nat k)).
  rewrite Z2Nat.id in H by lia.
  specialize (H ltac:(apply in_seq; lia)). cbv zeta in H.
  repeat (apply andb_true_iff in H; destruct H as [H ?]).
  repeat match goal with
         | E : Bool.eqb _ _ = true |- _ => apply Bool.eqb_prop in E
         end.
  repeat split; try assumption.
  intros M FM self a Ha. unfold _analyze_with_edu_consciousness in Ha.
  destruct (calculate _ _) as [[m s]|]; [|discriminate]. cbn [bind] in Ha.
  destruct (gtb _ 100); [|destruct (gtb _ 30)]; injection Ha as <-; reflexivity.
Qed.

(** ** The strategy and the signature *)

(** X9. The creativity score and the memory confidence only ever scale a
    strategy up: compared with the strategy of the same mode without
    them, the temperature, the creativity boost and the depth multiplier
    are never lower, whatever the two floats are, and the token limit,
    top-k and top-p are the same.  So the temperature is at least 0.6 and
    the boost and the depth multiplier at least 0.8. *)
Theorem strategy_never_scaled_down (analysis : Analysis) (insights : MemoryInsights) :
  let plain :=
    _determine_response_strategy
      {| edu_consciousness_factor := edu_consciousness_factor analysis;
         cognitive_mode_of := cognitive_mode_of analysis;
         complexity_level := complexity_level analysis;
         emotion_context := emotion_context analysis;
         creativity_requirement := 0;
         processing_depth := processing_depth analysis |}
      {| confidence := 0 |} in
  let strategy := _determine_response_strategy analysis insights in
  max_tokens strategy = max_tokens plain /\
  top_k strategy = top_k plain /\
  top_p strategy = top_p plain /\
  fle (temperature plain) (temperature strategy) /\
  fle (creativity_boost plain) (creativity_boost strategy) /\
  fle (depth_multiplier plain) (depth_multiplier strategy) /\
  fle 0.6 (temperature plain) /\
  fle 0.8 (creativity_boost plain) /\
  fle 0.8 (depth_multiplier plain).
Proof.
  intros plain strategy. subst plain strategy.
  unfold _determine_response_strategy, fle.
  cbn [creativity_requirement confidence cognitive_mode_of].
  change (gtb 0 0.5) with false. change (gtb 0 0.7) with false. cbv iota.
  set (c := creativity_requirement analysis).
  destruct (cognitive_mode_of analysis);
    destruct (gtb c 0.5) eqn:Hc;
    destruct (gtb (confidence insights) 0.7);
    cbn [max_tokens top_k top_p temperature creativity_boost depth_multiplier
           base_strategy];
    repeat split;
    try reflexivity;
    try match goal with
        | |- (?t <=? ?t * (1 + c * ?k)) = true =>
            exact (Float64Products.scale_up t c k _ _ _ _ eq_refl eq_refl
                     (leb_trans 0 0.5 c eq_refl (ltb_leb 0.5 c Hc)))
        end.
Qed.

(** X10. The signature is appended exactly when the depth multiplier of the
    strategy exceeds 1.5, which, for the strategy the engine computes, is
    the deep mode (2.0, or 2.6 with a confident memory) and the analytical
    mode with a memory confidence above 0.7 (1.5 * 1.3), never the
    intuitive mode and never on account of the creativity score.  The
    response itself is kept in front of the signature. *)
Theorem signature_condition {M : Type} (self : EDUAI.t M) (response : string)
  (analysis : Analysis) (insights : MemoryInsights) :
  let strategy := _determine_response_strategy analysis insights in
  let signed :=
    match cognitive_mode_of analysis with
    | DEEP_CONTEMPLATION => true
    | ANALYTICAL_THINKING => gtb (confidence insights) 0.7
    | INTUITIVE_RESPONSE => false
    end in
  gtb (depth_multiplier strategy) 1.5 = signed /\
  _add_edu_ai_signature self response strategy
  = if signed
    then (response ++ newline ++ newline ++ "*[EDU-AI "
          ++ stage_name (knowledge_evolution_stage self)
          ++ " consciousness - Learning interaction #"
          ++ Str.of_int (total_interactions self + 1) ++ "]*")%string
    else response.
Proof.
  intros strategy signed. subst strategy signed.
  unfold _add_edu_ai_signature, _determine_response_strategy.
  destruct (cognitive_mode_of analysis), (gtb (creativity_requirement analysis) 0.5),
    (gtb (confidence insights) 0.7); split; reflexivity.
Qed.

(** ** Cleaning the backend's output *)

Lemma str_append_assoc (a b c : string) : ((a ++ b) ++ c = a ++ (b ++ c))%string.
Proof. induction a as [|x a IH]; cbn [append]; [reflexivity|rewrite IH; reflexivity]. Qed.

Lemma str_append_nil_r (a : string) : (a ++ EmptyString)%string = a.
Proof. induction a as [|x a IH]; cbn [append]; [reflexivity|rewrite IH; reflexivity]. Qed.

Lemma str_length_append (a b : string) :
  String.length (a ++ b) = (String.length a + String.length b)%nat.
Proof. induction a as [|x a IH]; cbn [append String.length]; [reflexivity|rewrite IH; reflexivity]. Qed.

(** [r] is a contiguous part of [s]. *)
Lemma part_refl (s : string) : exists pre post, s = (pre ++ s ++ post)%string.
Proof. exists EmptyString, EmptyString. rewrite str_append_nil_r. reflexivity. Qed.

Lemma part_trans (a b c : string) :
  (exists pre post, a = (pre ++ b ++ post)%string) ->
  (exists pre post, b = (pre ++ c ++ post)%string) ->
  exists pre post, a = (pre ++ c ++ post)%string.
Proof.
  intros (p1 & q1 & ->) (p2 & q2 & ->).
  exists (p1 ++ p2)%string, (q2 ++ q1)%string.
  rewrite !str_append_assoc. reflexivity.
Qed.

Lemma drop_part (n : nat) : forall s : string,
  exists pre post, s = (pre ++ Str.drop n s ++ post)%string.
Proof.
  induction n as [|n IH]; intros s; cbn [Str.drop]; [apply part_refl|].
  destruct s as [|c s]; [apply part_refl|].
  destruct (IH s) as (pre & post & E).
  exists (String c pre), post. cbn [append]. rewrite <- E. reflexivity.
Qed.

Lemma lstrip_part (s : string) :
  exists pre post, s = (pre ++ Str.lstrip s ++ post)%string.
Proof.
  induction s as [|c s IH]; cbn [Str.lstrip]; [apply part_refl|].
  destruct (Str.isspace c); [|apply part_refl].
  destruct IH as (pre & post & E).
  exists (String c pre), post. cbn [append]. rewrite <- E. reflexivity.
Qed.

Lemma rstrip_part (s : string) :
  exists pre post, s = (pre ++ Str.rstrip s ++ post)%string.
Proof.
  exists EmptyString. cbn [append].
  induction s as [|c s IH]; cbn [Str.rstrip]; [exists EmptyString; reflexivity|].
  destruct IH as (post & E). cbv zeta.
  destruct (Str.is_empty (Str.rstrip s) && Str.isspace c).
  - exists (String c s). reflexivity.
  - exists post. cbn [append]. rewrite <- E. reflexivity.
Qed.

Lemma strip_part (s : string) :
  exists pre post, s = (pre ++ Str.strip s ++ post)%string.
Proof.
  unfold Str.strip. eapply part_trans; [apply lstrip_part|apply rstrip_part].
Qed.

Lemma remove_prefix_part (response prefix : string) :
  exists pre post,
    response
    = (pre ++ (if Str.startswith response prefix
               then Str.strip (Str.drop (String.length prefix) response)
               else response) ++ post)%string.
Proof.
  destruct (Str.startswith response prefix); [|apply part_refl].
  eapply part_trans; [apply drop_part|apply strip_part].
Qed.

Lemma clean_response_part (response original_stimulus : string) :
  exists pre post,
    response = (pre ++ _clean_response response original_stimulus ++ post)%string.
Proof.
  unfold _clean_response.
  eapply part_trans; [apply (remove_prefix_part response original_stimulus)|].
  generalize (if Str.startswith response original_stimulus
              then Str.strip (Str.drop (String.length original_stimulus) response)
              else response).
  generalize ["EDU-AI consciousness level"; "responding:"; "Response:"; "Answer:"]%string.
  intros prefixes. induction prefixes as [|p prefixes IH]; intros r; cbn [fold_left].
  - apply part_refl.
  - eapply part_trans; [apply (remove_prefix_part r p)|apply IH].
Qed.

(** X11. Cleaning only removes text from the two ends of the response: what it
    returns is a contiguous part of what it was given, hence never longer,
    whatever the stimulus is. *)
Theorem clean_response_keeps_a_part (response original_stimulus : string) :
  (exists pre post,
     response = (pre ++ _clean_response response original_stimulus ++ post)%string) /\
  (String.length (_clean_response response original_stimulus)
   <= String.length response)%nat.
Proof.
  pose proof (clean_response_part response original_stimulus) as H.
  split; [exact H|]. destruct H as (pre & post & E).
  apply (f_equal String.length) in E. rewrite !str_length_append in E. lia.
Qed.



(** ** One call of [think] *)

Lemma record_eta {M : Type} (self : EDUAI.t M) :
  with_level self (consciousness_level self) = self.
Proof. destruct self; reflexivity. Qed.

Lemma update_level_frame {M : Type} {FM : FractalMemory M} (self : EDUAI.t M) :
  fst (_update_consciousness_level self)
  = with_level self (consciousness_level (fst (_update_consciousness_level self))).
Proof.
  unfold _update_consciousness_level. cbn [fst].
  destruct (gtb _ _); [reflexivity|symmetry; apply record_eta].
Qed.

Lemma think_frame {M : Type} {FM : FractalMemory M}
  (w : World) (self : EDUAI.t M) (input_stimulus : string) :
  let result := think w self input_stimulus in
  let self' := snd (fst result) in
  backend_path self' = backend_path self /\
  sessions_completed self' = sessions_completed self /\
  match fst (fst result) with
  | Succeeded _ => total_interactions self' = (total_interactions self + 1)%Z
  | Failed _ _ | Raised _ =>
      total_interactions self' = total_interactions self /\ backend_path self <> None
  end.
Proof.
  cbv zeta. unfold think.
  destruct (analyze_never_raises self input_stimulus) as (a & ->).
  destruct (get_enhanced_response_suggestions (fractal_memory self) input_stimulus)
    as [insights mem]. cbn [fst snd].
  assert (Hnone : forall strategy g,
            backend_path self = None ->
            _generate_intelligent_response w (with_memory self mem) input_stimulus
              strategy = g ->
            exists text via, g = Ok (Generated text via)).
  { intros strategy g Hn <-. unfold _generate_intelligent_response, backend_reachable.
    cbn [with_memory backend_path]. rewrite Hn.
    unfold _generate_pure_edu_response. eauto. }
  destruct (_generate_intelligent_response _ _ _ _) as [[text via|error via]|e] eqn:G.
  - unfold _learn_and_evolve. cbn [with_memory fractal_memory].
    destruct (process_interaction mem input_stimulus text true) as [learning mem'].
    match goal with
    | |- context [_update_consciousness_level ?s] =>
        pose proof (update_level_frame s) as Hf;
        destruct (_update_consciousness_level s) as [self2 updated]
    end.
    cbn [fst snd] in *. rewrite Hf.
    cbn [with_level with_total with_memory backend_path sessions_completed
           total_interactions]. repeat split.
  - cbn [fst snd with_memory backend_path sessions_completed total_interactions].
    repeat split. intros Hn.
    destruct (Hnone _ _ Hn G) as (text & via' & E). discriminate.
  - cbn [fst snd with_memory backend_path sessions_completed total_interactions].
    repeat split. intros Hn.
    destruct (Hnone _ _ Hn G) as (text & via' & E). discriminate.
Qed.

(** X13. A call of [think] that answers consults the memory once, records
    the interaction once as a success, and reads the statistics once, in
    this order; it adds exactly one to the interaction count and reports
    the level it has just updated.  A call that fails, or that raises,
    only consults the memory and leaves the count and the level as they
    are; it raises exactly the exception that running the backend process
    raised, and never without a reachable backend.  In no case does
    [think] change the stage, the backend configuration or the session
    count: the stage moves only at construction and on a manual
    trigger. *)
Theorem think_effects {M : Type} {FM : FractalMemory M}
  (w : World) (self : EDUAI.t M) (input_stimulus : string) :
  let result := think w self input_stimulus in
  let self' := snd (fst result) in
  let calls := snd result in
  let consulted :=
    get_enhanced_response_suggestions (fractal_memory self) input_stimulus in
  knowledge_evolution_stage self' = knowledge_evolution_stage self /\
  backend_path self' = backend_path self /\
  sessions_completed self' = sessions_completed self /\
  match fst (fst result) with
  | Succeeded r =>
      total_interactions self' = (total_interactions self + 1)%Z /\
      calls = [call_get_enhanced_response_suggestions input_stimulus;
               call_process_interaction input_stimulus (response r) true;
               call_get_memory_stats] /\
      fractal_memory self'
      = snd (process_interaction (snd consulted) input_stimulus (response r) true) /\
      stimulus r = input_stimulus /\
      thought_level r = consciousness_level self' /\
      evolution_stage r = knowledge_evolution_stage self /\
      memory_confidence r = confidence (fst consulted)
  | Failed _ _ =>
      total_interactions self' = total_interactions self /\
      consciousness_level self' = consciousness_level self /\
      calls = [call_get_enhanced_response_suggestions input_stimulus] /\
      fractal_memory self' = snd consulted
  | Raised e =>
      total_interactions self' = total_interactions self /\
      consciousness_level self' = consciousness_level self /\
      calls = [call_get_enhanced_response_suggestions input_stimulus] /\
      fractal_memory self' = snd consulted /\
      backend_reachable w self = true /\
      exists cmd,
        dispatch_command w self input_stimulus = Ok cmd /\
        subprocess_run w cmd = Raises e
  end.
Proof.
  cbv zeta. unfold think, dispatch_command.
  destruct (analyze_never_raises self input_stimulus) as (a & ->). cbn [bind].
  destruct (get_enhanced_response_suggestions (fractal_memory self) input_stimulus)
    as [insights mem]. cbn [fst snd].
  destruct (_generate_intelligent_response _ _ _ _) as [[text via|error via]|e] eqn:G;
    [|cbn [fst snd with_memory knowledge_evolution_stage backend_path
             sessions_completed total_interactions consciousness_level
             fractal_memory]; repeat split| ].
  - unfold _learn_and_evolve. cbn [with_memory fractal_memory].
    destruct (process_interaction mem input_stimulus text true) as [learning mem']
      eqn:EP.
    cbn [snd].
    match goal with
    | |- context [_update_consciousness_level ?s] =>
        pose proof (update_level_frame s) as Hf;
        assert (Hc : snd (_update_consciousness_level s) = [call_get_memory_stats])
          by reflexivity;
        destruct (_update_consciousness_level s) as [self2 updated]
    end.
    cbn [fst snd] in *. subst updated. rewrite Hf.
    cbn [with_level with_total with_memory knowledge_evolution_stage backend_path
           sessions_completed total_interactions consciousness_level
           fractal_memory response stimulus thought_level evolution_stage
           memory_confidence app].
    repeat split. rewrite EP. reflexivity.
  - cbn [fst snd with_memory knowledge_evolution_stage backend_path
           sessions_completed total_interactions consciousness_level fractal_memory].
    unfold _generate_intelligent_response in G.
    assert (Hr : backend_reachable w (with_memory self mem) = backend_reachable w self)
      by reflexivity.
    rewrite Hr in G.
    destruct (backend_reachable w self); [|discriminate].
    do 8 (split; [reflexivity|]).
    eexists. split; [reflexivity|].
    unfold _generate_with_backend in G.
    destruct (subprocess_run w _) as [rc out err| |e'];
      [destruct (rc =? 0)%Z; discriminate|discriminate|].
    injection G as ->. reflexivity.
Qed.

(** ** The state of an engine in use *)

Lemma ltb_irrefl (x : float) : (x <? x) = false.
Proof.
  destruct (x <? x) eqn:E; [|reflexivity].
  pose proof (leb_ltb_false _ _ (ltb_leb _ _ E)). congruence.
Qed.

Lemma trigger_frame {M : Type} {FM : FractalMemory M} (self : EDUAI.t M) :
  let self' := fst (_trigger_consciousness_evolution self) in
  backend_path self' = backend_path self /\
  sessions_completed self' = sessions_completed self /\
  total_interactions self' = total_interactions self.
Proof.
  cbv zeta. unfold _trigger_consciousness_evolution.
  pose proof (update_level_frame
    (with_memory self (optimize_memory (fractal_memory self)))) as Hf.
  destruct (_update_consciousness_level _) as [self1 calls]. cbn [fst] in *.
  rewrite Hf.
  repeat match goal with |- context [if ?c then _ else _] => destruct c end;
    cbn [with_level with_stage with_memory backend_path sessions_completed
           total_interactions]; repeat split.
Qed.

Lemma step_frame {M : Type} {FM : FractalMemory M} (self : EDUAI.t M) (e : event) :
  let thinks := match e with Think _ _ => 1%Z | _ => 0%Z end in
  backend_path (step self e) = backend_path self /\
  sessions_completed (step self e) = sessions_completed self /\
  (total_interactions self <= total_interactions (step self e)
   <= total_interactions self + thinks)%Z /\
  (backend_path self = None ->
   total_interactions (step self e) = (total_interactions self + thinks)%Z).
Proof.
  destruct e as [w stimulus| |]; cbn [step]; cbv zeta.
  - pose proof (think_frame w self stimulus) as H. cbv zeta in H.
    destruct H as (Hb & Hs & H).
    split; [exact Hb|]. split; [exact Hs|].
    destruct (fst (fst (think w self stimulus))) as [r|error via|e];
      [|destruct H as [H Hne]|destruct H as [H Hne]].
    + rewrite H. split; [lia|reflexivity].
    + rewrite H. split; [lia|]. intros Hnone. contradiction.
    + rewrite H. split; [lia|]. intros Hnone. contradiction.
  - destruct (trigger_frame self) as (Hb & Hs & Ht). cbv zeta in *.
    rewrite Hb, Hs, Ht. repeat split; lia.
  - cbn [with_memory backend_path sessions_completed total_interactions].
    repeat split; lia.
Qed.

Lemma run_frame {M : Type} {FM : FractalMemory M} (events : list event) :
  forall self : EDUAI.t M,
  let thinks :=
    Z.of_nat (List.length
      (filter (fun e => match e with Think _ _ => true | _ => false end) events)) in
  backend_path (run events self) = backend_path self /\
  sessions_completed (run events self) = sessions_completed self /\
  (total_interactions self <= total_interactions (run events self)
   <= total_interactions self + thinks)%Z /\
  (backend_path self = None ->
   total_interactions (run events self) = (total_interactions self + thinks)%Z).
Proof.
  induction events as [|e events IH]; intros self; cbn [run fold_left filter].
  - cbn [List.length]. repeat split; lia.
  - fold (run events (step self e)).
    destruct (step_frame self e) as (Hb & Hs & Ht & Hp). cbv zeta in *.
    destruct (IH (step self e)) as (Hb' & Hs' & Ht' & Hp').
    rewrite Hb', Hs', Hb, Hs. split; [reflexivity|]. split; [reflexivity|].
    destruct e as [w stimulus| |]; cbn [List.length] in *;
      (split; [lia|]); intros Hnone; specialize (Hp Hnone);
      rewrite Hb in Hp'; specialize (Hp' Hnone); lia.
Qed.

Lemma init_fields {M : Type} {FM : FractalMemory M}
  (model_backend_path : option string) (memory : M) :
  backend_path (__init__ model_backend_path memory) = model_backend_path /\
  sessions_completed (__init__ model_backend_path memory) = 0%Z /\
  total_interactions (__init__ model_backend_path memory)
  = get (stat_total_interactions (get_memory_stats memory)) 0%Z.
Proof.
  unfold __init__, _initialize_consciousness.
  repeat match goal with |- context [if ?c then _ else _] => destruct c end;
    repeat split.
Qed.

Lemma init_level_ge_one {M : Type} {FM : FractalMemory M}
  (model_backend_path : option string) (memory : M) :
  (1 <=? consciousness_level (__init__ model_backend_path memory)) = true.
Proof.
  unfold __init__, _initialize_consciousness.
  repeat match goal with |- context [if ?c then _ else _] => destruct c end;
    reflexivity.
Qed.

Lemma engine_state_invariants_aux {M : Type} {FM : FractalMemory M}
  (model_backend_path : option string) (memory : M) (events : list event) :
  let self := run events (__init__ model_backend_path memory) in
  is_nan (consciousness_level self) = false /\
  backend_path self = model_backend_path /\
  sessions_completed self = 0%Z.
Proof.
  intros self.
  destruct (run_frame events (__init__ model_backend_path memory)) as (Hb & Hs & _).
  destruct (run_spec events _ (init_level_not_nan model_backend_path memory))
    as (_ & Hn & _).
  destruct (init_fields model_backend_path memory) as (Hb0 & Hs0 & _).
  fold self in Hb, Hs, Hn. rewrite Hb, Hs. auto.
Qed.

(** X14. Whatever has happened to an engine since its construction, its level
    is at least 1.0, its interaction count has grown by at most the number
    of [think] calls, and its backend configuration and its session count
    are those of the construction. *)
Theorem engine_state_invariants {M : Type} {FM : FractalMemory M}
  (model_backend_path : option string) (memory : M) (events : list event) :
  let self0 := __init__ model_backend_path memory in
  let self := run events self0 in
  let thinks :=
    Z.of_nat (List.length
      (filter (fun e => match e with Think _ _ => true | _ => false end) events)) in
  fle 1 (consciousness_level self) /\
  (total_interactions self0 <= total_interactions self
   <= total_interactions self0 + thinks)%Z /\
  backend_path self = model_backend_path /\
  sessions_completed self = 0%Z.
Proof.
  intros self0 self thinks.
  destruct (run_frame events self0) as (Hb & Hs & Ht & _). cbv zeta in *.
  destruct (run_spec events self0 (init_level_not_nan _ _)) as (Hl & _ & _).
  split; [|split; [exact Ht|split]].
  - unfold fle in *. eapply leb_trans; [|exact Hl].
    unfold self0, __init__, _initialize_consciousness.
    repeat match goal with |- context [if ?c then _ else _] => destruct c end;
      reflexivity.
  - fold self in Hb. rewrite Hb. unfold self0, __init__, _initialize_consciousness.
    repeat match goal with |- context [if ?c then _ else _] => destruct c end;
      reflexivity.
  - fold self in Hs. rewrite Hs. unfold self0, __init__, _initialize_consciousness.
    repeat match goal with |- context [if ?c then _ else _] => destruct c end;
      reflexivity.
Qed.

(** X15. An engine constructed without a backend path answers every stimulus,
    whatever the world is: each [think] call succeeds through the templated
    generator, and the interaction count grows by exactly the number of
    [think] calls. *)
Theorem standalone_engine_counts_every_think {M : Type} {FM : FractalMemory M}
  (memory : M) (events : list event) (w : World) (stimulus : string) :
  let self := run events (__init__ None memory) in
  total_interactions self
  = (total_interactions (__init__ None memory)
     + Z.of_nat (List.length
         (filter (fun e => match e with Think _ _ => true | _ => false end) events)))%Z /\
  exists r,
    fst (fst (think w self stimulus)) = Succeeded r /\
    _generate_pure_edu_response w
      (with_memory self
         (snd (get_enhanced_response_suggestions (fractal_memory self) stimulus)))
      stimulus
      (_determine_response_strategy (edu_analysis r)
         (fst (get_enhanced_response_suggestions (fractal_memory self) stimulus)))
    = Generated (response r) pure_edu_consciousness.
Proof.
  intros self.
  assert (Hnone : backend_path (__init__ None memory) = None).
  { unfold __init__, _initialize_consciousness.
    repeat match goal with |- context [if ?c then _ else _] => destruct c end;
      reflexivity. }
  destruct (run_frame events (__init__ None memory)) as (Hb & _ & _ & Hp).
  cbv zeta in *. split; [exact (Hp Hnone)|].
  fold self in Hb. rewrite Hnone in Hb.
  unfold think.
  destruct (analyze_never_raises self stimulus) as (a & ->).
  destruct (get_enhanced_response_suggestions (fractal_memory self) stimulus)
    as [insights mem]. cbn [fst snd].
  unfold _generate_intelligent_response, backend_reachable.
  cbn [with_memory backend_path]. rewrite Hb.
  unfold _generate_pure_edu_response at 1.
  unfold _learn_and_evolve.
  destruct (process_interaction _ _ _ _) as [learning mem'].
  destruct (_update_consciousness_level _) as [self2 updated].
  eexists. split; [reflexivity|]. reflexivity.
Qed.

Lemma run_level_ge_one {M : Type} {FM : FractalMemory M}
  (model_backend_path : option string) (memory : M) (events : list event) :
  (1 <=? consciousness_level (run events (__init__ model_backend_path memory))) = true.
Proof.
  destruct (run_spec events (__init__ model_backend_path memory)
              (init_level_not_nan _ _)) as (Hl & _ & _).
  eapply leb_trans; [apply init_level_ge_one|exact Hl].
Qed.

(** X16. In the analysis that an engine in use makes of any stimulus, the
    complexity level goes with the cognitive mode (high with deep,
    medium with analytical, low with intuitive), and the processing depth
    is bounded by the mode: since the level is at least 1.0, a
    transcendent depth only occurs in the deep mode, and a deep depth
    never in the intuitive mode. *)
Theorem analysis_consistency {M : Type} {FM : FractalMemory M}
  (model_backend_path : option string) (memory : M) (events : list event)
  (stimulus : string) :
  let self := run events (__init__ model_backend_path memory) in
  exists a,
    _analyze_with_edu_consciousness self stimulus = Ok a /\
    complexity_level a
    = match cognitive_mode_of a with
      | DEEP_CONTEMPLATION => high
      | ANALYTICAL_THINKING => medium
      | INTUITIVE_RESPONSE => low
      end /\
    (processing_depth a = TRANSCENDENT -> cognitive_mode_of a = DEEP_CONTEMPLATION) /\
    (processing_depth a = DEEP -> cognitive_mode_of a <> INTUITIVE_RESPONSE).
Proof.
  intros self.
  pose proof (run_level_ge_one model_backend_path memory events) as Hl. fold self in Hl.
  unfold _analyze_with_edu_consciousness.
  rewrite (analysis_calculate_ok stimulus). cbn [bind].
  set (factor := _ * _ * consciousness_level self).
  unfold _calculate_processing_depth, gtb.
  set (T := 50 * consciousness_level self).
  assert (H50 : (50 <=? T) = true)
    by (apply (Float64Products.mul_ge_one 50 _ _ _ eq_refl Hl)).
  assert (H100 : (100 <=? T * 2) = true).
  { apply (Float64Products.mul_ge_bound T 2 50 2 100 _ _ _ _ _ _ eq_refl eq_refl eq_refl);
      [apply Z.leb_le; vm_compute; reflexivity|exact H50|reflexivity]. }
  assert (D1 : (T * 2 <? factor) = true -> (100 <? factor) = true)
    by (apply Float64Products.le_lt_trans; exact H100).
  assert (D2 : (T <? factor) = true -> (30 <? factor) = true).
  { intros H. apply (Float64Products.le_lt_trans 30 T factor); [|exact H].
    eapply leb_trans; [|exact H50]. reflexivity. }
  destruct (100 <? factor) eqn:E100; [|destruct (30 <? factor) eqn:E30];
    eexists; (split; [reflexivity|]);
    cbn [complexity_level cognitive_mode_of processing_depth];
    (split; [reflexivity|]); split; try (intros _; reflexivity || discriminate).
  - destruct (T * 2 <? factor); [specialize (D1 eq_refl); discriminate|].
    destruct (T <? factor); [discriminate|].
    destruct (T * 0.5 <? factor); discriminate.
  - destruct (T * 2 <? factor); [specialize (D1 eq_refl); discriminate|].
    destruct (T <? factor); [discriminate|].
    destruct (T * 0.5 <? factor); discriminate.
  - destruct (T * 2 <? factor); [discriminate|].
    destruct (T <? factor); [specialize (D2 eq_refl); discriminate|].
    destruct (T * 0.5 <? factor); discriminate.
Qed.

(** X17. Updating the level twice is the same as updating it once. *)
Theorem update_level_idempotent {M : Type} {FM : FractalMemory M} (self : EDUAI.t M) :
  let once := fst (_update_consciousness_level self) in
  fst (_update_consciousness_level once) = once.
Proof.
  cbv zeta. unfold _update_consciousness_level, gtb, Py.max. cbn [fst].
  set (raw := 1.0 + (get (stat_avg_knowledge_weight
                            (get_memory_stats (fractal_memory self))) 1.0 - 1.0) * 0.5).
  destruct (raw <? consciousness_level self) eqn:E1.
  - rewrite ltb_irrefl. cbn [fractal_memory consciousness_level]. fold raw.
    rewrite E1, ltb_irrefl. reflexivity.
  - destruct (consciousness_level self <? raw) eqn:E2;
      cbn [with_level fractal_memory consciousness_level]; fold raw.
    + rewrite !ltb_irrefl. reflexivity.
    + rewrite E1, E2. reflexivity.
Qed.

(** X18. With a memory that reports no average knowledge weight, the default
    weight 1.0 gives the level 1.0, which never exceeds the level of an
    engine in use: the update leaves the engine as it is. *)
Theorem update_level_default_weight {M : Type} {FM : FractalMemory M}
  (self : EDUAI.t M) :
  stat_avg_knowledge_weight (get_memory_stats (fractal_memory self)) = None ->
  fle 1 (consciousness_level self) ->
  fst (_update_consciousness_level self) = self.
Proof.
  unfold fle. intros Hnone Hl.
  unfold _update_consciousness_level, gtb, Py.max. cbn [fst]. rewrite Hnone.
  cbn [get]. change (1.0 + (1.0 - 1.0) * 0.5) with 1.
  destruct (1 <? consciousness_level self).
  - rewrite ltb_irrefl. reflexivity.
  - rewrite (leb_ltb_false _ _ Hl). reflexivity.
Qed.

Lemma update_level_default_weight_witness :
  fst (@_update_consciousness_level _ stub_memory (@__init__ _ stub_memory None empty_memory))
  = @__init__ _ stub_memory None empty_memory.
Proof.
  apply (@update_level_default_weight _ stub_memory); reflexivity.
Defined.

(** ** Stages *)

Lemma trigger_stage {M : Type} {FM : FractalMemory M} (self : EDUAI.t M) :
  let n := total_interactions self in
  let stage := knowledge_evolution_stage self in
  knowledge_evolution_stage (fst (_trigger_consciousness_evolution self))
  = if (1000 <=? n)%Z && negb (stage_eqb stage transcendent) then transcendent
    else if (100 <=? n)%Z && stage_eqb stage developing then mature
    else if (10 <=? n)%Z && stage_eqb stage nascent then developing
    else stage.
Proof.
  destruct (trigger_unfold self) as [_ H]. cbv zeta in *.
  repeat match type of H with
         | context [if ?c then _ else _] => destruct c
         end; apply H.
Qed.

(** X19. Repeated manual triggers bring the stage to the one that construction
    assigns to the interaction count, and no further: one trigger never
    goes beyond it, two triggers reach it (unless the stage is already
    higher, which is kept), and a third one changes nothing. *)
Theorem triggers_reach_the_bootstrap_stage {M : Type} {FM : FractalMemory M}
  (self : EDUAI.t M) :
  let n := total_interactions self in
  let target :=
    if (n <? 10)%Z then nascent else if (n <? 100)%Z then developing
    else if (n <? 1000)%Z then mature else transcendent in
  let once := fst (_trigger_consciousness_evolution self) in
  let twice := fst (_trigger_consciousness_evolution once) in
  let thrice := fst (_trigger_consciousness_evolution twice) in
  (forall model_backend_path memory,
     get (stat_total_interactions (get_memory_stats memory)) 0%Z = n ->
     knowledge_evolution_stage (__init__ model_backend_path memory) = target) /\
  (stage_rank (knowledge_evolution_stage once)
   <= Z.max (stage_rank (knowledge_evolution_stage self)) (stage_rank target))%Z /\
  stage_rank (knowledge_evolution_stage twice)
  = Z.max (stage_rank (knowledge_evolution_stage self)) (stage_rank target) /\
  knowledge_evolution_stage thrice = knowledge_evolution_stage twice.
Proof.
  intros n target once twice thrice. split.
  - intros p memory Hn. unfold __init__, _initialize_consciousness.
    cbn [with_total total_interactions fractal_memory]. rewrite Hn. subst target.
    destruct (n <? 10)%Z; [|destruct (n <? 100)%Z; [|destruct (n <? 1000)%Z]];
      reflexivity.
  - assert (H1 : total_interactions once = n) by apply trigger_frame.
    assert (H2 : total_interactions twice = n).
    { unfold twice. rewrite <- H1. apply trigger_frame. }
    pose proof (trigger_stage self) as S1.
    pose proof (trigger_stage once) as S2.
    pose proof (trigger_stage twice) as S3.
    cbv zeta in S1, S2, S3. fold once in S1. fold twice in S2. fold thrice in S3.
    rewrite H1 in S2. rewrite H2 in S3. fold n in S1.
    rewrite S3, S2, S1. subst target. clear.
    destruct (Z.ltb_spec n 10), (Z.ltb_spec n 100), (Z.ltb_spec n 1000); try lia;
      destruct (Z.leb_spec 10 n), (Z.leb_spec 100 n), (Z.leb_spec 1000 n); try lia;
      destruct (knowledge_evolution_stage self); cbn; repeat split; lia.
Qed.

(** X20. The stage and the level that construction assigns never decrease
    when the prior interaction count grows. *)
Theorem bootstrap_monotone {M : Type} {FM : FractalMemory M}
  (path1 path2 : option string) (memory1 memory2 : M) :
  (get (stat_total_interactions (get_memory_stats memory1)) 0
   <= get (stat_total_interactions (get_memory_stats memory2)) 0)%Z ->
  (stage_rank (knowledge_evolution_stage (__init__ path1 memory1))
   <= stage_rank (knowledge_evolution_stage (__init__ path2 memory2)))%Z /\
  fle (consciousness_level (__init__ path1 memory1))
      (consciousness_level (__init__ path2 memory2)).
Proof.
  intros H. unfold __init__, _initialize_consciousness, fle.
  cbn [with_total total_interactions fractal_memory].
  set (n1 := get (stat_total_interactions (get_memory_stats memory1)) 0%Z) in *.
  set (n2 := get (stat_total_interactions (get_memory_stats memory2)) 0%Z) in *.
  destruct (Z.ltb_spec n1 10), (Z.ltb_spec n1 100), (Z.ltb_spec n1 1000); try lia;
    destruct (Z.ltb_spec n2 10), (Z.ltb_spec n2 100), (Z.ltb_spec n2 1000); try lia;
    cbn; split; try lia; reflexivity.
Qed.

Lemma bootstrap_monotone_witness :
  (stage_rank (knowledge_evolution_stage (@__init__ _ stub_memory None (memory_with 9)))
   <= stage_rank (knowledge_evolution_stage
                    (@__init__ _ stub_memory None (memory_with 1000))))%Z /\
  fle (consciousness_level (@__init__ _ stub_memory None (memory_with 9)))
      (consciousness_level (@__init__ _ stub_memory None (memory_with 1000))).
Proof.
  apply (@bootstrap_monotone _ stub_memory). cbn. lia.
Defined.

(** ** The interactive session *)

Lemma session_loop_events {M : Type} {FM : FractalMemory M}
  (lines : list (World * string)) : forall (self : EDUAI.t M) (n : Z),
  exists events,
    let thinks :=
      Z.of_nat (List.length
        (filter (fun e => match e with Think _ _ => true | _ => false end) events)) in
    fst (Session.session_loop lines self n) = run events self /\
    (n <= snd (Session.session_loop lines self n) <= n + thinks)%Z /\
    (thinks <= Z.of_nat (List.length lines))%Z /\
    (backend_path self = None ->
     snd (Session.session_loop lines self n) = (n + thinks)%Z).
Proof.
  induction lines as [|[w line] rest IH]; intros self n.
  - exists []. cbn. repeat split; lia.
  - cbn [Session.session_loop]. cbv zeta.
    destruct (existsb _ _).
    { exists []. cbn [fst snd run fold_left filter List.length]. repeat split; lia. }
    destruct (String.eqb _ "consciousness").
    { destruct (IH self n) as (events & H1 & H2 & H3 & H4). exists events.
      cbv zeta in *. cbn [List.length]. repeat split; try assumption; lia. }
    destruct (String.eqb _ "evolve").
    { destruct (IH (fst (_trigger_consciousness_evolution self)) n)
        as (events & H1 & H2 & H3 & H4).
      destruct (trigger_frame self) as (Hb & _ & _).
      exists (Evolve :: events). cbv zeta in *.
      cbn [run fold_left step filter List.length].
      fold (run events (fst (_trigger_consciousness_evolution self))).
      rewrite Hb in H4. repeat split; try assumption; lia. }
    destruct (Str.is_empty _).
    { destruct (IH self n) as (events & H1 & H2 & H3 & H4). exists events.
      cbv zeta in *. cbn [List.length]. repeat split; try assumption; lia. }
    pose proof (think_frame w self (Str.strip line)) as Ht. cbv zeta in Ht.
    destruct Ht as (Hb & _ & Ht).
    assert (Hstep : step self (Think w (Str.strip line))
                    = snd (fst (think w self (Str.strip line)))) by reflexivity.
    destruct (think w self (Str.strip line)) as [[o self'] calls].
    cbn [fst snd] in *.
    assert (Hgo : forall self'',
              (self'' = self'
               \/ self'' = with_memory self' (optimize_memory (fractal_memory self'))) ->
              exists events,
                let thinks :=
                  Z.of_nat (List.length
                    (filter (fun e => match e with Think _ _ => true | _ => false end)
                       events)) in
                fst (Session.session_loop rest self'' (n + 1)) = run events self /\
                (n <= snd (Session.session_loop rest self'' (n + 1)) <= n + thinks)%Z /\
                (thinks <= Z.of_nat (List.length ((w, line) :: rest)))%Z /\
                (backend_path self = None ->
                 snd (Session.session_loop rest self'' (n + 1)) = (n + thinks)%Z)).
    { intros self'' Hs. destruct (IH self'' (n + 1)%Z) as (events & H1 & H2 & H3 & H4).
      assert (Hb'' : backend_path self'' = backend_path self)
        by (destruct Hs as [->| ->]; exact Hb).
      rewrite Hb'' in H4.
      cbv zeta in *. destruct Hs as [->| ->].
      - exists (Think w (Str.strip line) :: events).
        cbn [run fold_left filter List.length]. rewrite Hstep.
        fold (run events self').
        split; [exact H1|]. split; [lia|]. split; [lia|].
        intros Hn. specialize (H4 Hn). lia.
      - exists (Think w (Str.strip line) :: AutoOptimize :: events).
        cbn [run fold_left filter List.length]. rewrite Hstep. cbn [step].
        fold (run events (with_memory self' (optimize_memory (fractal_memory self')))).
        split; [exact H1|]. split; [lia|]. split; [lia|].
        intros Hn. specialize (H4 Hn). lia. }
    destruct o as [r|error via|e];
      [destruct ((n + 1) mod 10 =? 0)%Z; apply Hgo; auto
      |destruct ((n + 1) mod 10 =? 0)%Z; apply Hgo; auto|].
    destruct Ht as [_ Hne].
    destruct (IH self' n) as (events & H1 & H2 & H3 & H4).
    exists (Think w (Str.strip line) :: events). cbv zeta in *.
    cbn [run fold_left filter List.length]. rewrite Hstep.
    fold (run events self').
    split; [exact H1|]. split; [lia|]. split; [lia|].
    intros Hn. contradiction.
Qed.

(** X21. A whole session, from the first prompt to the shutdown command
    or the interrupt that ends it: it never lowers the level or the stage
    of the engine, counts at most one interaction per line read, keeps the
    backend configuration, and completes exactly one session. *)
Theorem session_effects {M : Type} {FM : FractalMemory M} (save_memory : M -> M)
  (model_backend_path : option string) (memory : M) (before : list event)
  (lines : list (World * string)) :
  let self := run before (__init__ model_backend_path memory) in
  let self' := Session.consciousness_session save_memory lines self in
  fle (consciousness_level self) (consciousness_level self') /\
  (stage_rank (knowledge_evolution_stage self)
   <= stage_rank (knowledge_evolution_stage self'))%Z /\
  (total_interactions self <= total_interactions self'
   <= total_interactions self + Z.of_nat (List.length lines))%Z /\
  backend_path self' = model_backend_path /\
  sessions_completed self' = 1%Z.
Proof.
  intros self self'. subst self'. unfold Session.consciousness_session.
  destruct (session_loop_events lines self 0) as (events & H1 & H2 & H3 & _).
  cbv zeta in *.
  destruct (Session.session_loop lines self 0) as [self1 k]. cbn [fst snd] in *.
  cbn [Session.with_sessions with_memory consciousness_level knowledge_evolution_stage
         total_interactions backend_path sessions_completed].
  subst self1.
  destruct (engine_state_invariants_aux model_backend_path memory before)
    as (Hn & Hb & Hs).
  fold self in Hn, Hb, Hs.
  destruct (run_spec events self Hn) as (Hl & _ & Hr).
  destruct (run_frame events self) as (Hb' & Hs' & Ht' & _). cbv zeta in *.
  rewrite Hb', Hs', Hb, Hs.
  repeat split; try assumption; lia.
Qed.

(** X22. Nothing that is typed after [shutdown], [exit] or [quit] (in any
    letter case, with any surrounding blanks) has an effect on the
    engine. *)
Theorem session_ends_at_shutdown {M : Type} {FM : FractalMemory M}
  (save_memory : M -> M) (lines rest : list (World * string)) (w : World)
  (line : string) (self : EDUAI.t M) :
  existsb (String.eqb (Str.lower (Str.strip line)))
    ["shutdown"; "exit"; "quit"]%string = true ->
  Session.consciousness_session save_memory (lines ++ (w, line) :: rest)%list self
  = Session.consciousness_session save_memory lines self.
Proof.
  intros Hq. unfold Session.consciousness_session.
  assert (H : forall n,
            Session.session_loop (lines ++ (w, line) :: rest)%list self n
            = Session.session_loop lines self n); [|rewrite H; reflexivity].
  revert self. induction lines as [|[w' line'] lines IH]; intros self n.
  - cbn [app Session.session_loop]. cbv zeta. rewrite Hq. reflexivity.
  - cbn [app Session.session_loop]. cbv zeta.
    destruct (existsb (String.eqb (Str.lower (Str.strip line'))) _); [reflexivity|].
    destruct (String.eqb _ "consciousness"); [apply IH|].
    destruct (String.eqb _ "evolve"); [apply IH|].
    destruct (Str.is_empty _); [apply IH|].
    destruct (think w' self (Str.strip line')) as [[o self'] calls].
    destruct o; try apply IH;
      destruct ((n + 1) mod 10 =? 0)%Z; apply IH.
Qed.

Lemma session_ends_at_shutdown_witness :
  let w := world_with [] TimeoutExpired in
  let self := @__init__ _ stub_memory None empty_memory in
  @Session.consciousness_session _ stub_memory (fun m => m)
    ([(w, "hello")] ++ (w, "  QuIt ") :: [(w, "evolve")])%list%string self
  = @Session.consciousness_session _ stub_memory (fun m => m)
      [(w, "hello"%string)] self.
Proof.
  cbv zeta. apply (@session_ends_at_shutdown _ stub_memory). reflexivity.
Defined.

(** X23. A program run whose session is ended by a shutdown command or
    by an interrupt at the prompt: [main] configures the backend only if
    the model file exists at start-up, and such a run ends with one
    completed session and a level of at least 1.0.  When the file is
    missing at start-up the whole session runs without the backend, even
    if the file appears later: every stimulus is answered, and the
    lifetime count grows by exactly the number of interactions the session
    has counted.  (On an end of input instead, [input] raises [EOFError]
    at every prompt, the loop reports it and never ends; no list of lines
    stands for such a run.) *)
Theorem main_effects {M : Type} {FM : FractalMemory M} (save_memory : M -> M)
  (w : World) (memory : M) (lines : list (World * string)) :
  let model := "/storage/emulated/0/Download/Qwen_Qwen3-4B-Q8_0.gguf"%string in
  let self' := Session.main save_memory w memory lines in
  let n0 := get (stat_total_interactions (get_memory_stats memory)) 0%Z in
  backend_path self' = (if path_exists w model then Some model else None) /\
  sessions_completed self' = 1%Z /\
  fle 1 (consciousness_level self') /\
  (n0 <= total_interactions self')%Z /\
  (path_exists w model = false ->
   total_interactions self'
   = (n0 + snd (Session.session_loop lines (__init__ None memory) 0))%Z).
Proof.
  intros model self' n0. subst self'. unfold Session.main. fold model.
  set (p := if path_exists w model then Some model else None).
  assert (E : (if path_exists w model
               then __init__ (Some model) memory else __init__ None memory)
              = __init__ p memory) by (unfold p; destruct (path_exists w model); reflexivity).
  rewrite E. clear E.
  assert (Hn0 : total_interactions (__init__ p memory) = n0).
  { unfold __init__, _initialize_consciousness.
    repeat match goal with |- context [if ?c then _ else _] => destruct c end;
      reflexivity. }
  unfold Session.consciousness_session.
  destruct (session_loop_events lines (__init__ p memory) 0)
    as (events & H1 & H2 & H3 & H4).
  cbv zeta in *.
  destruct (engine_state_invariants_aux p memory events) as (Hn & Hb & Hs).
  destruct (run_frame events (__init__ p memory)) as (_ & _ & Ht & Hp). cbv zeta in *.
  pose proof (init_level_ge_one p memory) as H0.
  destruct (run_spec events (__init__ p memory) (init_level_not_nan _ _)) as (Hl & _ & _).
  assert (Hsnd : path_exists w model = false ->
                 snd (Session.session_loop lines (__init__ None memory) 0)
                 = snd (Session.session_loop lines (__init__ p memory) 0)).
  { intros Hx. unfold p. rewrite Hx. reflexivity. }
  destruct (Session.session_loop lines (__init__ p memory) 0) as [self1 k].
  cbn [fst snd] in *. subst self1.
  cbn [Session.with_sessions with_memory consciousness_level
         total_interactions backend_path sessions_completed].
  rewrite Hb, Hs. split; [reflexivity|]. split; [reflexivity|].
  split; [unfold fle in *; eapply leb_trans; eassumption|].
  split; [lia|]. intros Hx.
  assert (Hnone : backend_path (__init__ p memory) = None).
  { unfold p. rewrite Hx. unfold __init__, _initialize_consciousness.
    repeat match goal with |- context [if ?c then _ else _] => destruct c end;
      reflexivity. }
  rewrite (Hsnd Hx), (H4 Hnone), (Hp Hnone). lia.
Qed.

(** ** The standalone core of [test_edu_ai.py] *)

Lemma substring_length (m : nat) : forall s : string,
  (String.length (String.substring 0 m s) <= m)%nat.
Proof.
  induction m as [|m IH]; intros [|c s]; cbn [String.substring String.length]; try lia.
  specialize (IH s). lia.
Qed.

Lemma core_parameters (input_signal : string) :
  let A := (Z.of_nat (String.length input_signal) mod 256)%Z in
  let X := (EDUAICore.sum_ord input_signal mod 1000 + 1)%Z in
  (0 <= A <= 255)%Z /\ (1 <= X <= 1000)%Z /\
  calculate (float_of_int A) (float_of_int X)
  = Ok (float_of_int A / 255 * PI, 406.4 / float_of_int X).
Proof.
  intros A X.
  assert (HA : (0 <= A <= 255)%Z)
    by (pose proof (Z.mod_pos_bound (Z.of_nat (String.length input_signal)) 256); lia).
  assert (HX : (1 <= X <= 1000)%Z)
    by (pose proof (Z.mod_pos_bound (EDUAICore.sum_ord input_signal) 1000); lia).
  split; [exact HA|]. split; [exact HX|].
  unfold calculate. destruct (float_of_int_byte A HA) as [H1 H2].
  rewrite (float_of_int_pos X ltac:(lia)), H1.
  unfold Py.min, NORMALIZATION_FACTOR. rewrite H2. reflexivity.
Qed.

Lemma core_think_ok (h : Host) (self : EDUAICore.t) (input_signal : string) :
  exists reply memory,
    EDUAICore.think h self input_signal
    = Ok (reply,
          {| EDUAICore.consciousness_level := EDUAICore.consciousness_level self + 0.1;
             EDUAICore.memories := (EDUAICore.memories self ++ [memory])%list |}).
Proof.
  destruct (core_parameters input_signal) as (_ & _ & Hc). cbv zeta in *.
  unfold EDUAICore.think. rewrite Hc. cbn [bind]. eexists _, _. reflexivity.
Qed.

(** X24. [think] of the standalone core never raises: the amplitude it derives
    from the input is an integer from 0 to 255 and the frequency one from 1
    to 1000, which [calculate] accepts.  Each call adds 0.1 to the level and
    appends one memory, whose stored input is the signal itself up to 50
    characters and otherwise its first 50 characters and three dots. *)
Theorem core_think_returns (h : Host) (self : EDUAICore.t) (input_signal : string) :
  exists reply memory,
    EDUAICore.think h self input_signal
    = Ok (reply,
          {| EDUAICore.consciousness_level := EDUAICore.consciousness_level self + 0.1;
             EDUAICore.memories := (EDUAICore.memories self ++ [memory])%list |}) /\
    (0 <= fst (EDUAICore.edu_params memory) <= 255)%Z /\
    (1 <= snd (EDUAICore.edu_params memory) <= 1000)%Z /\
    EDUAICore.consciousness memory = EDUAICore.consciousness_level self + 0.1 /\
    (String.length (EDUAICore.input memory) <= 53)%nat /\
    ((String.length input_signal <= 50)%nat ->
     EDUAICore.input memory = input_signal).
Proof.
  destruct (core_parameters input_signal) as (HA & HX & Hc). cbv zeta in *.
  unfold EDUAICore.think. rewrite Hc. cbn [bind].
  eexists _, _. split; [reflexivity|].
  cbn [EDUAICore.edu_params EDUAICore.consciousness EDUAICore.input
         EDUAICore.consciousness_level fst snd].
  split; [exact HA|]. split; [exact HX|]. split; [reflexivity|].
  destruct (Nat.ltb_spec 50 (String.length input_signal)) as [Hlt|Hle].
  - split; [|lia]. rewrite str_length_append.
    pose proof (substring_length 50 input_signal). cbn [String.length]. lia.
  - split; [lia|reflexivity].
Qed.

Lemma lt_le_trans_thr (a b t : float) :
  is_nan a = false -> is_nan t = false ->
  (a <=? b) = true -> (b <? t) = true -> (a <? t) = true.
Proof.
  intros Ha Ht Hab Hbt. destruct (a <? t) eqn:E; [reflexivity|].
  pose proof (ltb_false_leb t a Ht Ha E) as H1.
  pose proof (leb_trans _ _ _ H1 Hab) as H2.
  apply leb_ltb_false in H2. congruence.
Qed.

Lemma gtb_above (c a b : float) :
  gtb c a = false -> (a <=? b) = true -> gtb c b = false.
Proof.
  unfold gtb. intros Hca Hab. destruct (b <? c) eqn:E; [|reflexivity].
  rewrite (lt_le_trans_thr a b c (leb_not_nan_l _ _ Hab)
             (ltb_not_nan_r _ _ E) Hab E) in Hca. discriminate.
Qed.

Lemma core_combined_table :
  let modulations :=
    map (fun a => (Z.of_nat a, float_of_int (Z.of_nat a) / 255 * PI)) (seq 0 256) in
  let scalings :=
    map (fun x => (Z.of_nat x, 406.4 / float_of_int (Z.of_nat x))) (seq 1 1000) in
  forallb (fun '(A, modulation) =>
    forallb (fun '(X, scaling) =>
      let combined := modulation * scaling in
      (0 <=? combined) && (combined <=? PI * SCALING_CONSTANT)
      && (negb (gtb combined 100) || (X <=? 12)%Z)
      && (negb (A =? 0)%Z || negb (gtb combined 1)))
      scalings)
    modulations = true.
Proof. vm_compute. reflexivity. Qed.

(** X25. The combined value that the standalone core computes is a number
    between 0 and [pi * 406.4], whatever the input is.  A signal whose
    length is a multiple of 256, the empty one included, is always answered
    with the minimal-signal text, and the high-energy text is only given
    when the frequency derived from the signal is at most 12. *)
Theorem core_reply_ranges (h : Host) (self : EDUAICore.t) (input_signal : string) :
  exists reply self' memory modulation scaling combined,
    EDUAICore.think h self input_signal = Ok (reply, self') /\
    EDUAICore.memories self' = (EDUAICore.memories self ++ [memory])%list /\
    EDUAICore.edu_result memory = (modulation, scaling, combined) /\
    combined = modulation * scaling /\
    fle 0 combined /\ fle combined (PI * SCALING_CONSTANT) /\
    reply = EDUAICore._generate_response h
              (combined * math_sin h (EDUAICore.consciousness_level self')) combined /\
    ((Z.of_nat (String.length input_signal) mod 256 = 0)%Z ->
     reply = EDUAICore.Minimal_signal (format_2f h combined)) /\
    (reply = EDUAICore.High_energy_pattern (format_2f h combined) ->
     (snd (EDUAICore.edu_params memory) <= 12)%Z).
Proof.
  destruct (core_parameters input_signal) as (HA & HX & Hc). cbv zeta in *.
  unfold EDUAICore.think. rewrite Hc. cbn [bind].
  set (A := (Z.of_nat (String.length input_signal) mod 256)%Z) in *.
  set (X := (EDUAICore.sum_ord input_signal mod 1000 + 1)%Z) in *.
  pose proof core_combined_table as T. cbv zeta in T. rewrite forallb_forall in T.
  specialize (T (A, float_of_int A / 255 * PI)).
  assert (HinA : In (A, float_of_int A / 255 * PI)
            (map (fun a => (Z.of_nat a, float_of_int (Z.of_nat a) / 255 * PI))
               (seq 0 256))).
  { apply in_map_iff. exists (Z.to_nat A). rewrite Z2Nat.id by lia.
    split; [reflexivity|apply in_seq; lia]. }
  specialize (T HinA). cbv beta iota in T. rewrite forallb_forall in T.
  specialize (T (X, 406.4 / float_of_int X)).
  assert (HinX : In (X, 406.4 / float_of_int X)
            (map (fun x => (Z.of_nat x, 406.4 / float_of_int (Z.of_nat x)))
               (seq 1 1000))).
  { apply in_map_iff. exists (Z.to_nat X). rewrite Z2Nat.id by lia.
    split; [reflexivity|apply in_seq; lia]. }
  specialize (T HinX). cbv beta iota zeta in T. clear HinA HinX.
  set (combined := float_of_int A / 255 * PI * (406.4 / float_of_int X)) in *.
  repeat (apply andb_true_iff in T; destruct T as [T ?]).
  eexists _, _, _, _, _, _. split; [reflexivity|].
  cbn [EDUAICore.memories EDUAICore.edu_result EDUAICore.edu_params
         EDUAICore.consciousness_level snd].
  split; [reflexivity|]. split; [reflexivity|].
  split; [reflexivity|]. fold combined.
  split; [assumption|]. split; [assumption|]. split; [reflexivity|].
  unfold EDUAICore._generate_response. split.
  - intros HA0.
    match goal with E : negb (A =? 0)%Z || _ = true |- _ =>
      rewrite HA0 in E; cbn [Z.eqb negb orb] in E;
      apply negb_true_iff in E; rename E into E1 end.
    rewrite (gtb_above combined 1 100 E1 eq_refl),
      (gtb_above combined 1 10 E1 eq_refl), E1. reflexivity.
  - destruct (gtb combined 100) eqn:E100.
    + intros _. cbn [negb orb] in *. apply Z.leb_le. assumption.
    + destruct (gtb combined 10); [discriminate|].
      destruct (gtb combined 1); discriminate.
Qed.

Lemma core_status_stage_mono (a b : EDUAICore.t) :
  (EDUAICore.consciousness_level a <=? EDUAICore.consciousness_level b) = true ->
  (EDUAICore.stage_rank (EDUAICore.stage_of (EDUAICore.get_consciousness_status a))
   <= EDUAICore.stage_rank
        (EDUAICore.stage_of (EDUAICore.get_consciousness_status b)))%Z.
Proof.
  intros H. unfold EDUAICore.get_consciousness_status. cbn [EDUAICore.stage_of].
  pose proof (leb_not_nan_l _ _ H) as Ha.
  set (x := EDUAICore.consciousness_level a) in *.
  set (y := EDUAICore.consciousness_level b) in *.
  pose proof (fun t Ht => lt_le_trans_thr x y t Ha Ht H) as L.
  destruct (y <? 1) eqn:E1; [rewrite (L 1 eq_refl E1); cbn; lia|].
  destruct (y <? 5) eqn:E5;
    [rewrite (L 5 eq_refl E5); destruct (x <? 1); cbn; lia|].
  destruct (y <? 10) eqn:E10;
    [rewrite (L 10 eq_refl E10); destruct (x <? 1), (x <? 5); cbn; lia|].
  destruct (x <? 1), (x <? 5), (x <? 10); cbn; lia.
Qed.

Lemma core_run_spec (inputs : list (Host * string)) : forall self : EDUAICore.t,
  is_nan (EDUAICore.consciousness_level self) = false ->
  let self' := EDUAICore.run inputs self in
  is_nan (EDUAICore.consciousness_level self') = false /\
  (EDUAICore.consciousness_level self <=? EDUAICore.consciousness_level self') = true /\
  List.length (EDUAICore.memories self')
  = (List.length (EDUAICore.memories self) + List.length inputs)%nat.
Proof.
  induction inputs as [|[h s] inputs IH]; intros self Hn; cbn [EDUAICore.run fold_left].
  - split; [exact Hn|]. split; [apply leb_refl; exact Hn|]. cbn [List.length]. lia.
  - destruct (core_think_ok h self s) as (reply & memory & ->).
    destruct (add_increment (EDUAICore.consciousness_level self) 0.1 _ _ eq_refl Hn)
      as [H1 H2].
    match goal with |- context [fold_left ?f inputs ?s0] =>
      change (fold_left f inputs s0) with (EDUAICore.run inputs s0);
      destruct (IH s0 H2) as (H3 & H4 & H5)
    end.
    cbv zeta in *. cbn [EDUAICore.consciousness_level EDUAICore.memories] in *.
    split; [exact H3|]. split; [eapply leb_trans; eassumption|].
    rewrite H5, length_app. cbn [List.length]. lia.
Qed.

(** X26. Along any sequence of [think] calls on a fresh core, the level never
    decreases, the stage that [get_consciousness_status] reports never
    regresses, and the number of memories it reports is the number of
    calls made. *)
Theorem core_status_monotone (inputs more : list (Host * string)) :
  let earlier := EDUAICore.run inputs EDUAICore.__init__ in
  let later := EDUAICore.run more earlier in
  let status := EDUAICore.get_consciousness_status in
  fle (EDUAICore.level (status earlier)) (EDUAICore.level (status later)) /\
  (EDUAICore.stage_rank (EDUAICore.stage_of (status earlier))
   <= EDUAICore.stage_rank (EDUAICore.stage_of (status later)))%Z /\
  EDUAICore.memory_count (status earlier) = List.length inputs /\
  EDUAICore.memory_count (status later)
  = (List.length inputs + List.length more)%nat.
Proof.
  intros earlier later status.
  destruct (core_run_spec inputs EDUAICore.__init__ eq_refl) as (Hn & _ & Hc).
  cbv zeta in *. fold earlier in Hn, Hc.
  destruct (core_run_spec more earlier Hn) as (_ & Hl & Hc').
  cbv zeta in *. fold later in Hl, Hc'.
  split; [exact Hl|]. split; [apply core_status_stage_mono; exact Hl|].
  unfold status, EDUAICore.get_consciousness_status. cbn [EDUAICore.memory_count].
  rewrite Hc', Hc. cbn [EDUAICore.__init__ EDUAICore.memories List.length]. lia.
Qed.
